(** * The patient task logger frontend: session store, API client and views

    A shallow embedding of [src/context/AuthContext.js] (the [authReducer],
    the [AuthProvider] actions and the role helpers), of
    [src/services/api.js] (the axios instance, its two interceptors, the
    endpoint wrappers and [handleApiError]), and of the logic of the views
    that use them: the route guards and the route table of [App.js], the
    two sign-in forms, the layout, the dashboard, the patient list and the
    patient form.

    JavaScript values are an inductive type, [localStorage] is a finite map
    from keys to strings, and the effectful code runs in a small state and
    exception monad over a [World] that holds the reducer state, the
    storage, [window.location.href], the console and the requests handed to
    the network.  The state of a component is a record that its handlers
    take and return; what a component renders is left out, except for the
    choice the route guards make. *)

From Stdlib Require Import ZArith String Ascii List Bool Lia.
From stdpp Require Import base option strings gmap pretty.

Set Warnings "-register-all".

Local Open Scope string_scope.
Local Open Scope Z_scope.

(** ** JavaScript values *)

(** The values the modelled code handles: JSON data received from the
    server or read back from storage, plus [undefined].  Numbers are
    restricted to integers; objects are association lists in insertion
    order. *)
Inductive JsVal : Type :=
  | JUndefined
  | JNull
  | JBool (b : bool)
  | JNum (n : Z)
  | JStr (s : string)
  | JArr (items : list JsVal)
  | JObj (fields : list (string * JsVal)).

(** ToBoolean: what [if (v)], [!v], [a && b] and [a || b] test. *)
Definition truthy (v : JsVal) : bool :=
  match v with
  | JUndefined | JNull => false
  | JBool b => b
  | JNum n => negb (n =? 0)
  | JStr s => negb (String.eqb s "")
  | JArr _ | JObj _ => true
  end.

(** [v == null]: the values on which a property access throws and on which
    [?.] short-circuits. *)
Definition nullish (v : JsVal) : bool :=
  match v with
  | JUndefined | JNull => true
  | _ => false
  end.

(** A value that is there: neither [null] nor [undefined]. *)
Definition present (v : JsVal) : Prop := nullish v = false.

(** [a || b] *)
Definition js_or (a b : JsVal) : JsVal := if truthy a then a else b.

(** Own-property lookup in an object literal. *)
Fixpoint lookup_field (k : string) (fields : list (string * JsVal)) : JsVal :=
  match fields with
  | [] => JUndefined
  | (k', v) :: rest => if String.eqb k k' then v else lookup_field k rest
  end.

(** [v[k]] on a value that is not nullish.  The names read by the modelled
    code ([role], [token], [user], [error]) are neither array indices nor
    names found on a built-in prototype, so they are [undefined] on
    primitives and arrays. *)
Definition member (v : JsVal) (k : string) : JsVal :=
  match v with
  | JObj fields => lookup_field k fields
  | _ => JUndefined
  end.

(** [v?.k] *)
Definition opt_member (v : JsVal) (k : string) : JsVal :=
  if nullish v then JUndefined else member v k.

(** [a === b].  Primitives compare by value.  Objects and arrays compare by
    reference; the operands compared by the modelled code always come from
    different allocations (a deserialised user against a caller's literal),
    so two objects are never strictly equal here. *)
Definition strict_eq (a b : JsVal) : bool :=
  match a, b with
  | JUndefined, JUndefined => true
  | JNull, JNull => true
  | JBool x, JBool y => Bool.eqb x y
  | JNum x, JNum y => x =? y
  | JStr x, JStr y => String.eqb x y
  | _, _ => false
  end.

(** [Array.prototype.includes] (SameValueZero agrees with [===] on the
    integers and strings of this model). *)
Definition includes (items : list JsVal) (x : JsVal) : bool :=
  existsb (fun y => strict_eq y x) items.

(** [Array.prototype.join] on already converted items. *)
Fixpoint join (sep : string) (parts : list string) : string :=
  match parts with
  | [] => ""
  | [p] => p
  | p :: rest => p ++ sep ++ join sep rest
  end.

(** ToString, as applied by [localStorage.setItem] to its value and by a
    template literal to its holes. *)
Fixpoint to_String (v : JsVal) : string :=
  match v with
  | JUndefined => "undefined"
  | JNull => "null"
  | JBool true => "true"
  | JBool false => "false"
  | JNum n => pretty n
  | JStr s => s
  | JArr items =>
      join "," (map (fun x => if nullish x then "" else to_String x) items)
  | JObj _ => "[object Object]"
  end.

(** ** The reducer of AuthContext.js *)

(** Auth state shape. *)
Record AuthState : Type := mkAuthState {
  user : JsVal;
  token : JsVal;
  isAuthenticated : bool;
  isLoading : bool;
  error : JsVal;
}.

Definition initialState : AuthState :=
  {| user := JNull;
     token := JNull;
     isAuthenticated := false;
     isLoading := true;
     error := JNull |}.

(** Auth actions, each with the payload its dispatch sites build.  Only
    these six are ever dispatched, so the [default] case of the reducer is
    not reached. *)
Inductive Action : Type :=
  | LOGIN_START
  | LOGIN_SUCCESS (payload_user payload_token : JsVal)
  | LOGIN_FAILURE (payload : JsVal)
  | LOGOUT
  | LOAD_USER_FROM_STORAGE (payload_user payload_token : JsVal)
  | CLEAR_ERROR.

Definition authReducer (state : AuthState) (action : Action) : AuthState :=
  match action with
  | LOGIN_START =>
      {| user := user state;
         token := token state;
         isAuthenticated := isAuthenticated state;
         isLoading := true;
         error := JNull |}
  | LOGIN_SUCCESS u t =>
      {| user := u;
         token := t;
         isAuthenticated := true;
         isLoading := false;
         error := JNull |}
  | LOGIN_FAILURE msg =>
      {| user := JNull;
         token := JNull;
         isAuthenticated := false;
         isLoading := false;
         error := msg |}
  | LOGOUT =>
      {| user := JNull;
         token := JNull;
         isAuthenticated := false;
         isLoading := false;
         error := JNull |}
  | LOAD_USER_FROM_STORAGE u t =>
      {| user := u;
         token := t;
         isAuthenticated := if truthy t then true else false;
         isLoading := false;
         error := error state |}
  | CLEAR_ERROR =>
      {| user := user state;
         token := token state;
         isAuthenticated := isAuthenticated state;
         isLoading := isLoading state;
         error := JNull |}
  end.

(** ** What the code runs against *)

(** An axios response, reduced to the two fields the code reads. *)
Record HttpResponse : Type := mkResponse {
  status : Z;
  data : JsVal;
}.

(** The values that are thrown: the errors axios rejects with (a message,
    whether [error.request] is set, and [error.response] when the server
    answered), and the native errors of the runtime ([TypeError] on a
    property read of [null] or [undefined], [SyntaxError] of
    [JSON.parse]). *)
Inductive Exn : Type :=
  | AxiosError (message : string) (request : bool)
               (response : option HttpResponse)
  | NativeError (name message : string).

(** [error.response] *)
Definition exn_response (e : Exn) : option HttpResponse :=
  match e with
  | AxiosError _ _ r => r
  | NativeError _ _ => None
  end.

(** [error.request], as a condition. *)
Definition exn_request (e : Exn) : bool :=
  match e with
  | AxiosError _ q _ => q
  | NativeError _ _ => false
  end.

(** [error.message] *)
Definition exn_message (e : Exn) : string :=
  match e with
  | AxiosError m _ _ => m
  | NativeError _ m => m
  end.

(** The config object axios hands to the adapter. *)
Record RequestConfig : Type := mkConfig {
  baseURL : string;
  timeout : Z;
  method : string;
  url : string;
  params : JsVal;
  body : JsVal;
  headers : gmap string string;
}.

(** The mutable surroundings of the code: the reducer state held by
    [useReducer], [localStorage], [window.location.href], what was written
    with [console.error], and the requests handed to the network. *)
Record World : Type := mkWorld {
  session : AuthState;
  localStorage : gmap string string;
  location_href : string;
  console : list (list JsVal);
  network : list RequestConfig;
}.

(** How a statement or an awaited promise ends. *)
Inductive Completion (A : Type) : Type :=
  | Normal (a : A)
  | Throw (e : Exn).
Arguments Normal {A} a.
Arguments Throw {A} e.

(** State passing with exceptions; a throw keeps the effects made so far. *)
Definition M (A : Type) : Type := World -> Completion A * World.

#[global] Instance M_ret : MRet M := fun A a w => (Normal a, w).

#[global] Instance M_bind : MBind M := fun A B f m w =>
  match m w with
  | (Normal a, w') => f a w'
  | (Throw e, w') => (Throw e, w')
  end.

Definition throw {A : Type} (e : Exn) : M A := fun w => (Throw e, w).

(** [try { body } catch (error) { handler }] *)
Definition try_catch {A : Type} (body : M A) (handler : Exn -> M A) : M A :=
  fun w =>
    match body w with
    | (Normal a, w') => (Normal a, w')
    | (Throw e, w') => handler e w'
    end.

(** [dispatch(action)] of [useReducer(authReducer, initialState)]. *)
Definition dispatch (action : Action) : M unit := fun w =>
  (Normal tt,
   {| session := authReducer (session w) action;
      localStorage := localStorage w;
      location_href := location_href w;
      console := console w;
      network := network w |}).

Definition with_storage (f : gmap string string -> gmap string string)
    (w : World) : World :=
  {| session := session w;
     localStorage := f (localStorage w);
     location_href := location_href w;
     console := console w;
     network := network w |}.

(** What [getItem] returns: the stored string, or [null]. *)
Definition storage_item (storage : gmap string string) (key : string)
    : JsVal :=
  match storage !! key with
  | Some s => JStr s
  | None => JNull
  end.

(** [localStorage.getItem(key)] *)
Definition localStorage_getItem (key : string) : M JsVal := fun w =>
  (Normal (storage_item (localStorage w) key), w).

(** [localStorage.setItem(key, value)]: the value is converted to a string
    by the caller of this definition, and the storage has room for it (a
    full storage would throw). *)
Definition localStorage_setItem (key value : string) : M unit := fun w =>
  (Normal tt, with_storage (insert key value) w).

(** [localStorage.removeItem(key)] *)
Definition localStorage_removeItem (key : string) : M unit := fun w =>
  (Normal tt, with_storage (delete key) w).

(** [window.location.href = target] *)
Definition set_location_href (target : string) : M unit := fun w =>
  (Normal tt,
   {| session := session w;
      localStorage := localStorage w;
      location_href := target;
      console := console w;
      network := network w |}).

(** [console.error(...args)] *)
Definition console_error (args : list JsVal) : M unit := fun w =>
  (Normal tt,
   {| session := session w;
      localStorage := localStorage w;
      location_href := location_href w;
      console := console w ++ [args];
      network := network w |}).

(** The adapter is handed the config. *)
Definition send (config : RequestConfig) : M unit := fun w =>
  (Normal tt,
   {| session := session w;
      localStorage := localStorage w;
      location_href := location_href w;
      console := console w;
      network := network w ++ [config] |}).

(** A property read [v.k], which throws on [null] and [undefined]. *)
Definition get_member (v : JsVal) (k : string) : M JsVal :=
  if nullish v
  then throw (NativeError "TypeError"
                ("Cannot read properties of " ++ to_String v
                 ++ " (reading '" ++ k ++ "')"))
  else mret (member v k).

(** What the network does with a request: the server answers, or no answer
    arrives (connection failure, or the 10 second timeout). *)
Inductive NetResult : Type :=
  | GotResponse (r : HttpResponse)
  | NoResponse (message : string).

(** axios settles the request promise with its default [validateStatus]:
    fulfilled on a 2xx status, rejected with the response attached
    otherwise, rejected without a response when none arrived. *)
Definition settle (net : NetResult) : Completion HttpResponse :=
  match net with
  | GotResponse r =>
      if (200 <=? status r) && (status r <? 300)
      then Normal r
      else Throw (AxiosError
                    ("Request failed with status code " ++ pretty (status r))
                    true (Some r))
  | NoResponse message => Throw (AxiosError message true None)
  end.

(** The services of the JavaScript runtime and of the build that the code
    calls but does not define.  [JSON_parse] is [None] where [JSON.parse]
    throws a [SyntaxError]; [JSON_stringify] is [None] where
    [JSON.stringify] returns [undefined]. *)
Class Runtime : Type := {
  JSON_parse : string -> option JsVal;
  JSON_stringify : JsVal -> option string;
  REACT_APP_API_URL : option string;
}.

(** ** A reference runtime

    A JSON codec for the values of this model: ASCII text, integer
    numerals, the two-character escapes and [\u00XX].  The statements about
    the program are made for every [Runtime]; this one runs them on concrete
    data, and it reads back every value that it writes in full. *)

Definition dquote : ascii := "034"%char.
Definition backslash : ascii := "092"%char.

Definition hex_digit (n : nat) : ascii :=
  if (n <? 10)%nat then ascii_of_nat (48 + n) else ascii_of_nat (87 + n).

Definition hex_value (c : ascii) : option nat :=
  let n := nat_of_ascii c in
  if ((48 <=? n) && (n <=? 57))%nat then Some (n - 48)%nat
  else if ((97 <=? n) && (n <=? 102))%nat then Some (n - 87)%nat
  else if ((65 <=? n) && (n <=? 70))%nat then Some (n - 55)%nat
  else None.

(** One character of a string literal, escaped as [JSON.stringify] does. *)
Definition escape_char (c : ascii) : string :=
  let n := nat_of_ascii c in
  if Ascii.eqb c dquote then String backslash (String dquote EmptyString)
  else if Ascii.eqb c backslash
       then String backslash (String backslash EmptyString)
  else if (n =? 8)%nat then String backslash "b"
  else if (n =? 9)%nat then String backslash "t"
  else if (n =? 10)%nat then String backslash "n"
  else if (n =? 12)%nat then String backslash "f"
  else if (n =? 13)%nat then String backslash "r"
  else if (n <? 32)%nat
       then String backslash
              ("u00" ++ String (hex_digit (n / 16))
                          (String (hex_digit (n mod 16)) EmptyString))
  else String c EmptyString.

Fixpoint quote_chars (s : string) : string :=
  match s with
  | EmptyString => EmptyString
  | String c rest => escape_char c ++ quote_chars rest
  end.

Definition quote (s : string) : string :=
  String dquote (quote_chars s ++ String dquote EmptyString).

Fixpoint ref_stringify (v : JsVal) : option string :=
  match v with
  | JUndefined => None
  | JNull => Some "null"
  | JBool true => Some "true"
  | JBool false => Some "false"
  | JNum n => Some (pretty n)
  | JStr s => Some (quote s)
  | JArr items =>
      Some ("[" ++ join ","
                     (map (fun x => match ref_stringify x with
                                    | Some text => text
                                    | None => "null"
                                    end) items)
                ++ "]")
  | JObj fields =>
      Some ("{" ++ join ","
                     (flat_map
                        (fun kv => match kv with
                                   | (k, x) =>
                                       match ref_stringify x with
                                       | Some text => [quote k ++ ":" ++ text]
                                       | None => []
                                       end
                                   end) fields)
                ++ "}")
  end.

Definition is_ws (c : ascii) : bool :=
  let n := nat_of_ascii c in
  ((n =? 32) || (n =? 9) || (n =? 10) || (n =? 13))%nat.

Fixpoint skip_ws (s : string) : string :=
  match s with
  | String c rest => if is_ws c then skip_ws rest else s
  | EmptyString => s
  end.

Definition is_digit (c : ascii) : bool :=
  let n := nat_of_ascii c in ((48 <=? n) && (n <=? 57))%nat.

Definition unescape (c : ascii) : option ascii :=
  let n := nat_of_ascii c in
  if Ascii.eqb c dquote then Some dquote
  else if Ascii.eqb c backslash then Some backslash
  else if (n =? 47)%nat then Some c
  else if (n =? 98)%nat then Some (ascii_of_nat 8)
  else if (n =? 116)%nat then Some (ascii_of_nat 9)
  else if (n =? 110)%nat then Some (ascii_of_nat 10)
  else if (n =? 102)%nat then Some (ascii_of_nat 12)
  else if (n =? 114)%nat then Some (ascii_of_nat 13)
  else None.

(** The rest of a string literal after its opening quote, and what follows
    the closing one. *)
Fixpoint parse_string_body (s : string) : option (string * string) :=
  match s with
  | EmptyString => None
  | String c rest =>
      if Ascii.eqb c dquote then Some (EmptyString, rest)
      else if Ascii.eqb c backslash then
        match rest with
        | String e rest1 =>
            if (nat_of_ascii e =? 117)%nat then
              match rest1 with
              | String h1 (String h2 (String h3 (String h4 rest2))) =>
                  match hex_value h1, hex_value h2, hex_value h3, hex_value h4 with
                  | Some 0%nat, Some 0%nat, Some a, Some b =>
                      match parse_string_body rest2 with
                      | Some (chars, tail) =>
                          Some (String (ascii_of_nat (16 * a + b)) chars, tail)
                      | None => None
                      end
                  | _, _, _, _ => None
                  end
              | _ => None
              end
            else
              match unescape e with
              | Some ch =>
                  match parse_string_body rest1 with
                  | Some (chars, tail) => Some (String ch chars, tail)
                  | None => None
                  end
              | None => None
              end
        | EmptyString => None
        end
      else if (nat_of_ascii c <? 32)%nat then None
      else
        match parse_string_body rest with
        | Some (chars, tail) => Some (String c chars, tail)
        | None => None
        end
  end.

Fixpoint take_digits (s : string) (acc : Z) : Z * string :=
  match s with
  | String c rest =>
      if is_digit c
      then take_digits rest (acc * 10 + Z.of_nat (nat_of_ascii c - 48))
      else (acc, s)
  | EmptyString => (acc, s)
  end.

(** An integer numeral; a fraction or an exponent is outside the model. *)
Definition parse_number (s : string) : option (Z * string) :=
  let '(negative, digits) :=
    match s with
    | String c rest => if (nat_of_ascii c =? 45)%nat then (true, rest) else (false, s)
    | EmptyString => (false, s)
    end in
  match digits with
  | String c rest =>
      if is_digit c then
        let '(n, tail) :=
          if (nat_of_ascii c =? 48)%nat then (0, rest) else take_digits digits 0 in
        let ends :=
          match tail with
          | String d _ =>
              let k := nat_of_ascii d in
              negb (is_digit d || (k =? 46) || (k =? 101) || (k =? 69))%nat
          | EmptyString => true
          end in
        if ends then Some (if negative then - n else n, tail) else None
      else None
  | EmptyString => None
  end.

Fixpoint strip_prefix (p s : string) : option string :=
  match p, s with
  | EmptyString, _ => Some s
  | String a p', String b s' => if Ascii.eqb a b then strip_prefix p' s' else None
  | String _ _, EmptyString => None
  end.

(** A repeated key keeps its first position and takes the last value. *)
Fixpoint set_field (k : string) (v : JsVal) (fields : list (string * JsVal))
    : list (string * JsVal) :=
  match fields with
  | [] => [(k, v)]
  | (k', v') :: rest =>
      if String.eqb k k' then (k', v) :: rest
      else (k', v') :: set_field k v rest
  end.

Fixpoint parse_value (fuel : nat) (s : string) : option (JsVal * string) :=
  match fuel with
  | O => None
  | S fuel' =>
      match skip_ws s with
      | EmptyString => None
      | String c rest =>
          let n := nat_of_ascii c in
          if (n =? 123)%nat then
            match skip_ws rest with
            | String c' tail =>
                if (nat_of_ascii c' =? 125)%nat then Some (JObj [], tail)
                else parse_members fuel' rest []
            | EmptyString => None
            end
          else if (n =? 91)%nat then
            match skip_ws rest with
            | String c' tail =>
                if (nat_of_ascii c' =? 93)%nat then Some (JArr [], tail)
                else parse_elements fuel' rest []
            | EmptyString => None
            end
          else if Ascii.eqb c dquote then
            match parse_string_body rest with
            | Some (chars, tail) => Some (JStr chars, tail)
            | None => None
            end
          else
            match strip_prefix "null" (String c rest) with
            | Some tail => Some (JNull, tail)
            | None =>
                match strip_prefix "true" (String c rest) with
                | Some tail => Some (JBool true, tail)
                | None =>
                    match strip_prefix "false" (String c rest) with
                    | Some tail => Some (JBool false, tail)
                    | None =>
                        match parse_number (String c rest) with
                        | Some (k, tail) => Some (JNum k, tail)
                        | None => None
                        end
                    end
                end
            end
      end
  end
with parse_elements (fuel : nat) (s : string) (acc : list JsVal)
    : option (JsVal * string) :=
  match fuel with
  | O => None
  | S fuel' =>
      match parse_value fuel' s with
      | Some (v, tail) =>
          match skip_ws tail with
          | String c tail' =>
              if (nat_of_ascii c =? 44)%nat
              then parse_elements fuel' tail' (acc ++ [v])
              else if (nat_of_ascii c =? 93)%nat
                   then Some (JArr (acc ++ [v]), tail')
                   else None
          | EmptyString => None
          end
      | None => None
      end
  end
with parse_members (fuel : nat) (s : string) (acc : list (string * JsVal))
    : option (JsVal * string) :=
  match fuel with
  | O => None
  | S fuel' =>
      match skip_ws s with
      | String q rest =>
          if Ascii.eqb q dquote then
            match parse_string_body rest with
            | Some (k, tail) =>
                match skip_ws tail with
                | String c tail' =>
                    if (nat_of_ascii c =? 58)%nat then
                      match parse_value fuel' tail' with
                      | Some (v, tail'') =>
                          match skip_ws tail'' with
                          | String d tail3 =>
                              if (nat_of_ascii d =? 44)%nat
                              then parse_members fuel' tail3 (set_field k v acc)
                              else if (nat_of_ascii d =? 125)%nat
                                   then Some (JObj (set_field k v acc), tail3)
                                   else None
                          | EmptyString => None
                          end
                      | None => None
                      end
                    else None
                | EmptyString => None
                end
            | None => None
            end
          else None
      | EmptyString => None
      end
  end.

Definition ref_parse (text : string) : option JsVal :=
  match parse_value (2 * String.length text + 2) text with
  | Some (v, tail) =>
      match skip_ws tail with
      | EmptyString => Some v
      | String _ _ => None
      end
  | None => None
  end.

(** *** The values the codec writes in full *)

Fixpoint distinct_keys (keys : list string) : bool :=
  match keys with
  | [] => true
  | k :: rest => negb (existsb (String.eqb k) rest) && distinct_keys rest
  end.

(** The values [JSON.stringify] writes in full: no [undefined] inside, and
    no key twice in an object. *)
Fixpoint json_clean (v : JsVal) : bool :=
  match v with
  | JUndefined => false
  | JArr items => forallb json_clean items
  | JObj fields =>
      distinct_keys (map fst fields) &&
      forallb (fun kv => match kv with (_, x) => json_clean x end) fields
  | _ => true
  end.

(** The fuel that reading a value back takes: one for the value and one
    more for each element or member. *)
Fixpoint json_size (v : JsVal) : nat :=
  match v with
  | JArr items => S (fold_right (fun x n => S (json_size x + n)) 0%nat items)
  | JObj fields =>
      S (fold_right (fun kv n => match kv with
                                 | (_, x) => S (json_size x + n)
                                 end) 0%nat fields)
  | _ => 1
  end.

(** What may follow a value inside a text. *)
Definition value_end (rest : string) : bool :=
  match rest with
  | EmptyString => true
  | String d _ =>
      let k := nat_of_ascii d in ((k =? 44) || (k =? 93) || (k =? 125))%nat
  end.

(** What may follow an integer numeral: no digit, fraction or exponent. *)
Definition number_end (rest : string) : bool :=
  match rest with
  | EmptyString => true
  | String d _ =>
      let k := nat_of_ascii d in
      negb (is_digit d || (k =? 46) || (k =? 101) || (k =? 69))%nat
  end.

(** The text of an element of an array. *)
Definition element_text (x : JsVal) : string :=
  match ref_stringify x with
  | Some text => text
  | None => "null"
  end.

(** The text of a member of an object. *)
Definition member_text (kv : string * JsVal) : string :=
  match kv with
  | (k, x) => quote k ++ ":" ++ element_text x
  end.

Definition elements_size (items : list JsVal) : nat :=
  fold_right (fun x n => S (json_size x + n)) 0%nat items.

Definition members_size (fields : list (string * JsVal)) : nat :=
  fold_right (fun kv n => match kv with
                          | (_, x) => S (json_size x + n)
                          end) 0%nat fields.

Definition reference_runtime : Runtime :=
  {| JSON_parse := ref_parse;
     JSON_stringify := ref_stringify;
     REACT_APP_API_URL := None |}.

(** ** services/api.js *)

Section Program.
Context {rt : Runtime}.

(** [process.env.REACT_APP_API_URL || "http://localhost:3000/api"] *)
Definition API_BASE_URL : string :=
  match REACT_APP_API_URL with
  | Some configured =>
      if String.eqb configured "" then "http://localhost:3000/api"
      else configured
  | None => "http://localhost:3000/api"
  end.

(** The config of a call on the instance made by [axios.create]: the
    instance defaults merged with what the call passes. *)
Definition api_config (method url : string) (params body : JsVal)
    : RequestConfig :=
  {| baseURL := API_BASE_URL;
     timeout := 10000;
     method := method;
     url := url;
     params := params;
     body := body;
     headers := {[ "Content-Type" := "application/json" ]} |}.

(** [config.headers[name] = value] *)
Definition set_header (config : RequestConfig) (name value : string)
    : RequestConfig :=
  {| baseURL := baseURL config;
     timeout := timeout config;
     method := method config;
     url := url config;
     params := params config;
     body := body config;
     headers := <[ name := value ]> (headers config) |}.

(** Request interceptor: automatically add auth token. *)
Definition request_interceptor (config : RequestConfig) : M RequestConfig :=
  token ← localStorage_getItem "authToken";
  if truthy token
  then mret (set_header config "Authorization" ("Bearer " ++ to_String token))
  else mret config.

(** Response interceptor, fulfilled side. *)
Definition response_interceptor (response : HttpResponse) : M HttpResponse :=
  mret response.

(** [error.response?.status === 401] *)
Definition is_unauthorized (error : Exn) : bool :=
  match exn_response error with
  | Some r => status r =? 401
  | None => false
  end.

(** Response interceptor, rejected side: handle common errors. *)
Definition response_error_interceptor {A : Type} (error : Exn) : M A :=
  (if is_unauthorized error
   then localStorage_removeItem "authToken";;
        localStorage_removeItem "user";;
        set_location_href "/login"
   else mret tt);;
  (match exn_response error with
   | None => console_error [JStr "Network error:"; JStr (exn_message error)]
   | Some _ => mret tt
   end);;
  throw error.

(** One request through the instance: request interceptor, adapter, then
    the response interceptor on the settled promise.  [net] is what the
    network does with the request. *)
Definition api_request (config : RequestConfig) (net : NetResult)
    : M HttpResponse :=
  config' ← request_interceptor config;
  send config';;
  match settle net with
  | Normal response => response_interceptor response
  | Throw error => response_error_interceptor error
  end.

Definition api_get (url : string) (params : JsVal) (net : NetResult)
    : M HttpResponse :=
  api_request (api_config "get" url params JUndefined) net.

Definition api_post (url : string) (body : JsVal) (net : NetResult)
    : M HttpResponse :=
  api_request (api_config "post" url JUndefined body) net.

Definition api_put (url : string) (body : JsVal) (net : NetResult)
    : M HttpResponse :=
  api_request (api_config "put" url JUndefined body) net.

Definition api_delete (url : string) (net : NetResult) : M HttpResponse :=
  api_request (api_config "delete" url JUndefined JUndefined) net.

(** A default parameter [(params = {})]. *)
Definition default_param (given fallback : JsVal) : JsVal :=
  match given with
  | JUndefined => fallback
  | _ => given
  end.

(** Authentication API calls. *)
Definition authAPI_login (credentials : JsVal) (net : NetResult) : M JsVal :=
  response ← api_post "/auth/login" credentials net;
  mret (data response).

Definition authAPI_register (userData : JsVal) (net : NetResult) : M JsVal :=
  response ← api_post "/auth/register" userData net;
  mret (data response).

Definition authAPI_logout : M unit :=
  localStorage_removeItem "authToken";;
  localStorage_removeItem "user".

(** Patients API calls. *)
Definition patientsAPI_getAll (params : JsVal) (net : NetResult) : M JsVal :=
  response ← api_get "/patients" (default_param params (JObj [])) net;
  mret (data response).

Definition patientsAPI_getById (id : JsVal) (net : NetResult) : M JsVal :=
  response ← api_get ("/patients/" ++ to_String id) JUndefined net;
  mret (data response).

Definition patientsAPI_create (patientData : JsVal) (net : NetResult)
    : M JsVal :=
  response ← api_post "/patients" patientData net;
  mret (data response).

Definition patientsAPI_update (id patientData : JsVal) (net : NetResult)
    : M JsVal :=
  response ← api_put ("/patients/" ++ to_String id) patientData net;
  mret (data response).

Definition patientsAPI_delete (id : JsVal) (net : NetResult) : M JsVal :=
  response ← api_delete ("/patients/" ++ to_String id) net;
  mret (data response).

(** Task logs API calls. *)
Definition taskLogsAPI_getAll (params : JsVal) (net : NetResult) : M JsVal :=
  response ← api_get "/task-logs" (default_param params (JObj [])) net;
  mret (data response).

Definition taskLogsAPI_getById (id : JsVal) (net : NetResult) : M JsVal :=
  response ← api_get ("/task-logs/" ++ to_String id) JUndefined net;
  mret (data response).

Definition taskLogsAPI_getByPatient (patientId : JsVal) (net : NetResult)
    : M JsVal :=
  response ← api_get ("/task-logs/patient/" ++ to_String patientId)
                     JUndefined net;
  mret (data response).

Definition taskLogsAPI_create (taskLogData : JsVal) (net : NetResult)
    : M JsVal :=
  response ← api_post "/task-logs" taskLogData net;
  mret (data response).

Definition taskLogsAPI_update (id taskLogData : JsVal) (net : NetResult)
    : M JsVal :=
  response ← api_put ("/task-logs/" ++ to_String id) taskLogData net;
  mret (data response).

Definition taskLogsAPI_delete (id : JsVal) (net : NetResult) : M JsVal :=
  response ← api_delete ("/task-logs/" ++ to_String id) net;
  mret (data response).

(** The exported endpoint wrappers that reach the network, as one type. *)
Inductive ApiCall : Type :=
  | AuthLogin (credentials : JsVal)
  | AuthRegister (userData : JsVal)
  | PatientsGetAll (params : JsVal)
  | PatientsGetById (id : JsVal)
  | PatientsCreate (patientData : JsVal)
  | PatientsUpdate (id patientData : JsVal)
  | PatientsDelete (id : JsVal)
  | TaskLogsGetAll (params : JsVal)
  | TaskLogsGetById (id : JsVal)
  | TaskLogsGetByPatient (patientId : JsVal)
  | TaskLogsCreate (taskLogData : JsVal)
  | TaskLogsUpdate (id taskLogData : JsVal)
  | TaskLogsDelete (id : JsVal).

Definition api_call (call : ApiCall) (net : NetResult) : M JsVal :=
  match call with
  | AuthLogin credentials => authAPI_login credentials net
  | AuthRegister userData => authAPI_register userData net
  | PatientsGetAll params => patientsAPI_getAll params net
  | PatientsGetById id => patientsAPI_getById id net
  | PatientsCreate patientData => patientsAPI_create patientData net
  | PatientsUpdate id patientData => patientsAPI_update id patientData net
  | PatientsDelete id => patientsAPI_delete id net
  | TaskLogsGetAll params => taskLogsAPI_getAll params net
  | TaskLogsGetById id => taskLogsAPI_getById id net
  | TaskLogsGetByPatient patientId => taskLogsAPI_getByPatient patientId net
  | TaskLogsCreate taskLogData => taskLogsAPI_create taskLogData net
  | TaskLogsUpdate id taskLogData => taskLogsAPI_update id taskLogData net
  | TaskLogsDelete id => taskLogsAPI_delete id net
  end.

(** Utility function for handling API errors. *)
Definition handleApiError (error : Exn) : JsVal :=
  match exn_response error with
  | Some r =>
      let message :=
        js_or (opt_member (data r) "error") (JStr "An error occurred") in
      JObj [("message", message);
            ("status", JNum (status r));
            ("details", data r)]
  | None =>
      if exn_request error
      then JObj [("message",
                  JStr "Network error. Please check your connection.");
                 ("status", JNum 0)]
      else JObj [("message",
                  js_or (JStr (exn_message error))
                        (JStr "An unexpected error occurred"));
                 ("status", JNum (-1))]
  end.

(** ** context/AuthContext.js: the provider *)

(** [JSON.parse(text)], throwing where the runtime's parser fails. *)
Definition JSON_parse_or_throw (text : JsVal) : M JsVal :=
  match JSON_parse (to_String text) with
  | Some v => mret v
  | None => throw (NativeError "SyntaxError" "Unexpected token in JSON")
  end.

(** [JSON.stringify(v)], a string or [undefined]. *)
Definition JSON_stringify_value (v : JsVal) : JsVal :=
  match JSON_stringify v with
  | Some text => JStr text
  | None => JUndefined
  end.

(** The effect run on mount: load user from localStorage on app start. *)
Definition restore : M unit :=
  token ← localStorage_getItem "authToken";
  user ← localStorage_getItem "user";
  if truthy token && truthy user
  then
    try_catch
      (parsedUser ← JSON_parse_or_throw user;
       dispatch (LOAD_USER_FROM_STORAGE parsedUser token))
      (fun _ =>
         (* Invalid stored data, clear it *)
         localStorage_removeItem "authToken";;
         localStorage_removeItem "user";;
         dispatch (LOAD_USER_FROM_STORAGE JNull JNull))
  else dispatch (LOAD_USER_FROM_STORAGE JNull JNull).

(** [error.response?.data?.error] *)
Definition server_error_message (error : Exn) : JsVal :=
  match exn_response error with
  | Some r => opt_member (data r) "error"
  | None => JUndefined
  end.

(** Login function.  [net] is what the network does with the one request
    the call makes. *)
Definition login (credentials : JsVal) (net : NetResult) : M JsVal :=
  dispatch LOGIN_START;;
  try_catch
    (response ← authAPI_login credentials net;
     (* Store in localStorage *)
     token ← get_member response "token";
     localStorage_setItem "authToken" (to_String token);;
     user ← get_member response "user";
     localStorage_setItem "user" (to_String (JSON_stringify_value user));;
     dispatch (LOGIN_SUCCESS user token);;
     mret response)
    (fun error =>
       let errorMessage :=
         js_or (server_error_message error) (JStr "Login failed") in
       dispatch (LOGIN_FAILURE errorMessage);;
       throw error).

(** Register function. *)
Definition register (userData : JsVal) (net : NetResult) : M JsVal :=
  dispatch LOGIN_START;;
  try_catch
    (response ← authAPI_register userData net;
     (* Store in localStorage *)
     token ← get_member response "token";
     localStorage_setItem "authToken" (to_String token);;
     user ← get_member response "user";
     localStorage_setItem "user" (to_String (JSON_stringify_value user));;
     dispatch (LOGIN_SUCCESS user token);;
     mret response)
    (fun error =>
       let errorMessage :=
         js_or (server_error_message error) (JStr "Registration failed") in
       dispatch (LOGIN_FAILURE errorMessage);;
       throw error).

(** Logout function. *)
Definition logout : M unit :=
  authAPI_logout;;
  dispatch LOGOUT.

(** Clear error function. *)
Definition clearError : M unit :=
  dispatch CLEAR_ERROR.

(** Helper functions for role-based access; they read the [state] of the
    current render. *)
Definition isAdmin (state : AuthState) : bool :=
  strict_eq (opt_member (user state) "role") (JStr "admin").

Definition isClinician (state : AuthState) : bool :=
  strict_eq (opt_member (user state) "role") (JStr "clinician").

(** [state.user.role], a read that throws on a nullish user. *)
Definition user_role (state : AuthState) : Completion JsVal :=
  if nullish (user state)
  then Throw (NativeError "TypeError"
                ("Cannot read properties of " ++ to_String (user state)
                 ++ " (reading 'role')"))
  else Normal (member (user state) "role").

Definition hasRole (state : AuthState) (roles : JsVal) : Completion bool :=
  if negb (truthy (user state)) then Normal false
  else
    match user_role state with
    | Throw e => Throw e
    | Normal role =>
        match roles with
        | JArr items => Normal (includes items role)
        | _ => Normal (strict_eq role roles)
        end
    end.

(** ** Runs of the application *)

(** The world in which [AuthProvider] mounts: [useReducer] starts from
    [initialState]. *)
Definition mount (storage : gmap string string) (href : string) : World :=
  {| session := initialState;
     localStorage := storage;
     location_href := href;
     console := [];
     network := [] |}.

(** The world once the mount effect has run. *)
Definition page_load (storage : gmap string string) (href : string) : World :=
  snd (restore (mount storage href)).

(** What can happen to a mounted provider: the mount effect, a login or
    registration that is still awaiting its response, one that has settled,
    a logout, a clearError, and a domain call a view makes on the API
    client. *)
Inductive Event : Type :=
  | EvRestore
  | EvPending
  | EvLogin (credentials : JsVal) (net : NetResult)
  | EvRegister (userData : JsVal) (net : NetResult)
  | EvLogout
  | EvClearError
  | EvRequest (call : ApiCall) (net : NetResult).

Definition step (w : World) (ev : Event) : World :=
  match ev with
  | EvRestore => snd (restore w)
  | EvPending => snd (dispatch LOGIN_START w)
  | EvLogin credentials net => snd (login credentials net w)
  | EvRegister userData net => snd (register userData net w)
  | EvLogout => snd (logout w)
  | EvClearError => snd (clearError w)
  | EvRequest call net => snd (api_call call net w)
  end.

Definition run (w : World) (evs : list Event) : World :=
  fold_left step evs w.


Definition Anonymous (s : AuthState) : Prop :=
  user s = JNull /\ token s = JNull /\
  isAuthenticated s = false /\ isLoading s = false.

(** Going from [w] to [w'] handed one request to the network, and that
    request carries the token held in the storage of [w]: the header
    Authorization with the value Bearer and the token when there is one,
    and no Authorization header when there is none (no entry, or the empty
    string, which [if (token)] takes for none). *)
Definition sends_with_stored_token (w w' : World) : Prop :=
  exists sent : RequestConfig,
    network w' = (network w ++ [sent])%list /\
    (forall t : string,
       localStorage w !! "authToken" = Some t -> t <> "" ->
       headers sent !! "Authorization" = Some ("Bearer " ++ t)) /\
    (localStorage w !! "authToken" = None \/
     localStorage w !! "authToken" = Some "" ->
       headers sent !! "Authorization" = None).

(** The payload of a successful login or registration carries a user and a
    token, and the stored user does not parse to [null]: the events on which
    a session that is marked authenticated has both. *)
Definition carries_credentials (response_data : JsVal) : bool :=
  negb (nullish response_data) &&
  negb (nullish (member response_data "user")) &&
  negb (nullish (member response_data "token")).

Definition well_formed_event (w : World) (ev : Event) : bool :=
  match ev with
  | EvRestore =>
      match localStorage w !! "user" with
      | Some text =>
          match JSON_parse text with
          | Some parsedUser => negb (nullish parsedUser)
          | None => true
          end
      | None => true
      end
  | EvLogin _ net | EvRegister _ net =>
      match settle net with
      | Normal response => carries_credentials (data response)
      | Throw _ => true
      end
  | _ => true
  end.

Fixpoint well_formed_run (w : World) (evs : list Event) : bool :=
  match evs with
  | [] => true
  | ev :: rest => well_formed_event w ev && well_formed_run (step w ev) rest
  end.

End Program.

(** ** Sample data for the closed examples *)

Definition sample_user : JsVal :=
  JObj [("id", JNum 1); ("firstName", JStr "Ada");
        ("lastName", JStr "Lovelace"); ("role", JStr "admin");
        ("hospitalId", JNum 7)].

Definition sample_credentials : JsVal :=
  JObj [("email", JStr "admin@clinic.com"); ("password", JStr "admin123")].

(** [POST /auth/login] answered with a user and a token. *)
Definition sample_login_response : HttpResponse :=
  {| status := 200;
     data := JObj [("user", sample_user); ("token", JStr "abc")] |}.

Definition sample_unauthorized : HttpResponse :=
  {| status := 401; data := JObj [("error", JStr "Invalid credentials")] |}.

Definition sample_server_error : HttpResponse :=
  {| status := 500; data := JObj [("error", JStr "Database unavailable")] |}.

(** The text [JSON.stringify] writes for the sample user. *)
Definition sample_user_text : string :=
  Eval vm_compute in
    match ref_stringify sample_user with
    | Some text => text
    | None => EmptyString
    end.

(** Storage as a successful login of the sample user leaves it. *)
Definition sample_storage : gmap string string :=
  <[ "user" := sample_user_text ]> (<[ "authToken" := "abc" ]> ∅).

(** Storage whose user entry is the JSON text of [null]. *)
Definition null_user_storage : gmap string string :=
  <[ "user" := "null" ]> (<[ "authToken" := "abc" ]> ∅).


(** * The views *)

(** ** Strings and patterns of the views *)

(** The characters that [String.prototype.trim] removes and that the class
    [\s] of a regular expression matches, among ASCII characters. *)
Definition is_js_space (c : ascii) : bool :=
  let n := nat_of_ascii c in
  ((n =? 32) || ((9 <=? n) && (n <=? 13)))%nat.

Fixpoint trimStart (s : string) : string :=
  match s with
  | String c rest => if is_js_space c then trimStart rest else s
  | EmptyString => EmptyString
  end.

Fixpoint trimEnd (s : string) : string :=
  match s with
  | EmptyString => EmptyString
  | String c rest =>
      match trimEnd rest with
      | EmptyString => if is_js_space c then EmptyString else String c EmptyString
      | kept => String c kept
      end
  end.

(** [s.trim()] *)
Definition trim (s : string) : string := trimEnd (trimStart s).

(** A regular expression without captures, over classes of characters. *)
Inductive RegExp : Type :=
  | ReVoid
  | ReEmpty
  | ReClass (accepts : ascii -> bool)
  | ReSeq (r1 r2 : RegExp)
  | ReAlt (r1 r2 : RegExp)
  | ReStar (r : RegExp).

(** [r+] *)
Definition RePlus (r : RegExp) : RegExp := ReSeq r (ReStar r).

(** A literal character. *)
Definition ReChar (c : ascii) : RegExp := ReClass (Ascii.eqb c).

Fixpoint nullable (r : RegExp) : bool :=
  match r with
  | ReVoid => false
  | ReEmpty => true
  | ReClass _ => false
  | ReSeq r1 r2 => nullable r1 && nullable r2
  | ReAlt r1 r2 => nullable r1 || nullable r2
  | ReStar _ => true
  end.

(** What is left of [r] after the character [c]. *)
Fixpoint derivative (c : ascii) (r : RegExp) : RegExp :=
  match r with
  | ReVoid => ReVoid
  | ReEmpty => ReVoid
  | ReClass accepts => if accepts c then ReEmpty else ReVoid
  | ReSeq r1 r2 =>
      if nullable r1
      then ReAlt (ReSeq (derivative c r1) r2) (derivative c r2)
      else ReSeq (derivative c r1) r2
  | ReAlt r1 r2 => ReAlt (derivative c r1) (derivative c r2)
  | ReStar r1 => ReSeq (derivative c r1) (ReStar r1)
  end.

(** [/^r$/.test(s)]: the whole string is in the language of [r]. *)
Fixpoint regexp_test (r : RegExp) (s : string) : bool :=
  match s with
  | EmptyString => nullable r
  | String c rest => regexp_test (derivative c r) rest
  end.

(** The class [[^\s@]]. *)
Definition not_space_or_at (c : ascii) : bool :=
  negb (is_js_space c) && negb (Ascii.eqb c "@").

(** [/^[^\s@]+@[^\s@]+\.[^\s@]+$/], the pattern of both sign-in forms. *)
Definition email_pattern : RegExp :=
  ReSeq (RePlus (ReClass not_space_or_at))
    (ReSeq (ReChar "@")
       (ReSeq (RePlus (ReClass not_space_or_at))
          (ReSeq (ReChar ".") (RePlus (ReClass not_space_or_at))))).


(** Every character of a string satisfies a test. *)
Fixpoint string_forall (p : ascii -> bool) (s : string) : bool :=
  match s with
  | EmptyString => true
  | String c rest => p c && string_forall p rest
  end.

(** [s.toLowerCase()], on ASCII letters. *)
Definition lower_char (c : ascii) : ascii :=
  let n := nat_of_ascii c in
  if ((65 <=? n) && (n <=? 90))%nat then ascii_of_nat (n + 32) else c.

Fixpoint toLowerCase (s : string) : string :=
  match s with
  | EmptyString => EmptyString
  | String c rest => String (lower_char c) (toLowerCase rest)
  end.

(** ** App.js: the route guards and the route table

    The guards are functions of the session state.  The router is React
    Router 6 with its defaults: it matches the pathname against the paths
    of the table without regard to case, ignores the slashes at the end,
    and ranks a static segment above [:id] and both above [*]. *)

Module App.

(** The screens the routes mount. *)
Inductive Page : Type :=
  | Login
  | Register
  | Dashboard
  | PatientList
  | PatientDetail
  | PatientForm (mode : string)
  | TaskLogList
  | AdminPanel.

(** What a route element renders to. *)
Inductive View : Type :=
  | LoadingSpinner
  | Navigate (to : string)
  | Layout (children : View)
  | AccessDenied (yourRole required : JsVal)
  | Screen (page : Page)
  | PageNotFound.

(** Protected Route Component.  [children] render only in the last
    branch. *)
Definition ProtectedRoute (state : AuthState) (children : Completion View)
    : Completion View :=
  if isLoading state then Normal LoadingSpinner
  else if negb (isAuthenticated state) then Normal (Navigate "/login")
  else
    match children with
    | Normal view => Normal (Layout view)
    | Throw e => Throw e
    end.

(** Public Route Component (redirect if authenticated). *)
Definition PublicRoute (state : AuthState) (children : Completion View)
    : Completion View :=
  if isLoading state then Normal LoadingSpinner
  else if isAuthenticated state then Normal (Navigate "/dashboard")
  else children.

(** [Array.isArray(allowedRoles) ? allowedRoles.join(", ") : allowedRoles] *)
Definition required_roles (allowedRoles : JsVal) : JsVal :=
  match allowedRoles with
  | JArr items =>
      JStr (join ", "
              (map (fun x => if nullish x then "" else to_String x) items))
  | _ => allowedRoles
  end.

(** Role-based Route Component. *)
Definition RoleProtectedRoute (state : AuthState) (allowedRoles : JsVal)
    (children : Completion View) : Completion View :=
  match hasRole state allowedRoles with
  | Throw e => Throw e
  | Normal false =>
      Normal (AccessDenied (opt_member (user state) "role")
                           (required_roles allowedRoles))
  | Normal true => children
  end.

(** The entries of the route table. *)
Inductive Route : Type :=
  | RouteLogin
  | RouteRegister
  | RouteDashboard
  | RoutePatients
  | RoutePatientNew
  | RoutePatientEdit
  | RoutePatientDetail
  | RouteTaskLogs
  | RouteAdmin
  | RouteRoot
  | RouteNotFound.

(** The element of each entry of [AppRoutes]. *)
Definition element (route : Route) (state : AuthState) : Completion View :=
  match route with
  | RouteLogin => PublicRoute state (Normal (Screen Login))
  | RouteRegister => PublicRoute state (Normal (Screen Register))
  | RouteDashboard => ProtectedRoute state (Normal (Screen Dashboard))
  | RoutePatients => ProtectedRoute state (Normal (Screen PatientList))
  | RoutePatientNew =>
      ProtectedRoute state
        (RoleProtectedRoute state (JArr [JStr "admin"])
           (Normal (Screen (PatientForm "create"))))
  | RoutePatientEdit =>
      ProtectedRoute state
        (RoleProtectedRoute state (JArr [JStr "admin"])
           (Normal (Screen (PatientForm "edit"))))
  | RoutePatientDetail => ProtectedRoute state (Normal (Screen PatientDetail))
  | RouteTaskLogs => ProtectedRoute state (Normal (Screen TaskLogList))
  | RouteAdmin =>
      ProtectedRoute state
        (RoleProtectedRoute state (JArr [JStr "admin"])
           (Normal (Screen AdminPanel)))
  | RouteRoot => Normal (Navigate "/dashboard")
  | RouteNotFound => Normal PageNotFound
  end.

(** [path.split("/")] *)
Fixpoint split_path (current : string) (path : string) : list string :=
  match path with
  | EmptyString => [current]
  | String c rest =>
      if Ascii.eqb c "/"
      then current :: split_path EmptyString rest
      else split_path (current ++ String c EmptyString) rest
  end.

(** A list of segments without the empty ones at its end. *)
Fixpoint without_trailing_empty (segments : list string) : list string :=
  match segments with
  | [] => []
  | s :: rest =>
      match without_trailing_empty rest with
      | [] => if String.eqb s "" then [] else [s]
      | kept => s :: kept
      end
  end.

(** The segments of a pathname as the router matches them: the slash it
    starts with and the slashes it ends with do not count.  Pathnames are
    taken without percent escapes. *)
Definition path_segments (path : string) : list string :=
  without_trailing_empty
    (match path with
     | String "/" rest => split_path EmptyString rest
     | _ => split_path EmptyString path
     end).

(** A segment is a static segment of a route path; the router compares
    without regard to case. *)
Definition segment_is (name segment : string) : bool :=
  String.eqb (toLowerCase segment) name.

(** The entry the router picks for a location: static segments before
    [:id], which stands for a segment that is not empty, and [*] last. *)
Definition match_route (segments : list string) : Route :=
  match segments with
  | [] => RouteRoot
  | [s] =>
      if segment_is "login" s then RouteLogin
      else if segment_is "register" s then RouteRegister
      else if segment_is "dashboard" s then RouteDashboard
      else if segment_is "patients" s then RoutePatients
      else if segment_is "task-logs" s then RouteTaskLogs
      else if segment_is "admin" s then RouteAdmin
      else RouteNotFound
  | [s1; s2] =>
      if segment_is "patients" s1
      then if segment_is "new" s2 then RoutePatientNew else RoutePatientDetail
      else if segment_is "admin" s1 then RouteAdmin
      else RouteNotFound
  | [s1; s2; s3] =>
      if segment_is "patients" s1 && negb (String.eqb s2 "") &&
         segment_is "edit" s3
      then RoutePatientEdit
      else if segment_is "admin" s1 then RouteAdmin
      else RouteNotFound
  | s1 :: _ => if segment_is "admin" s1 then RouteAdmin else RouteNotFound
  end.

(** [AppRoutes] at a location. *)
Definition AppRoutes (path : string) (state : AuthState) : Completion View :=
  element (match_route (path_segments path)) state.

(** Rendering a location and going where [Navigate] sends, at most [hops]
    times. *)
Fixpoint render_following (hops : nat) (path : string) (state : AuthState)
    : Completion View :=
  match AppRoutes path state with
  | Normal (Navigate to) =>
      match hops with
      | O => Normal (Navigate to)
      | S hops' => render_following hops' to state
      end
  | other => other
  end.

End App.

(** ** The thrown value as the value a handler sees *)

(** The object that [catch (err)] binds, as a value: an axios error with
    its message, its request when one was made and its response when one
    arrived; a native error with its name and message. *)
Definition exn_object (e : Exn) : JsVal :=
  match e with
  | AxiosError message request response =>
      JObj [("message", JStr message);
            ("request", if request then JObj [] else JUndefined);
            ("response",
             match response with
             | Some r => JObj [("status", JNum (status r)); ("data", data r)]
             | None => JUndefined
             end)]
  | NativeError name message =>
      JObj [("name", JStr name); ("message", JStr message)]
  end.

(** [Object.keys(errors).length > 0] *)
Definition has_keys {A : Type} (errors : gmap string A) : bool :=
  (0 <? size errors)%nat.


(** ** components/Auth/Login.js *)

Module Login.

Record FormData : Type := mkFormData {
  email : string;
  password : string;
}.

(** The state of the component. *)
Record State : Type := mkState {
  formData : FormData;
  validationErrors : gmap string string;
}.

Definition initial : State :=
  {| formData := {| email := ""; password := "" |};
     validationErrors := ∅ |}.

(** Basic form validation. *)
Definition validateForm (data : FormData) : gmap string string :=
  let errors : gmap string string := ∅ in
  let errors :=
    if String.eqb (trim (email data)) ""
    then <[ "email" := "Email is required" ]> errors
    else if negb (regexp_test email_pattern (email data))
         then <[ "email" := "Please enter a valid email address" ]> errors
         else errors in
  let errors :=
    if String.eqb (password data) ""
    then <[ "password" := "Password is required" ]> errors
    else errors in
  errors.

(** The object passed to [login]. *)
Definition credentials (data : FormData) : JsVal :=
  JObj [("email", JStr (email data)); ("password", JStr (password data))].

Section WithRuntime.
Context {rt : Runtime}.

(** Handle form submission.  [net] is what the network does with the
    request, if one is made. *)
Definition handleSubmit (st : State) (net : NetResult) : M State :=
  let errors := validateForm (formData st) in
  if has_keys errors
  then mret {| formData := formData st; validationErrors := errors |}
  else
    try_catch
      (login (credentials (formData st)) net;;
       (* Navigation handled by useEffect above *)
       mret st)
      (fun err =>
         (* Error is handled by the auth context *)
         console_error [JStr "Login error:"; exn_object err];;
         mret st).

End WithRuntime.

End Login.

(** ** components/Auth/Register.js *)

Module Register.

Record FormData : Type := mkFormData {
  email : string;
  password : string;
  confirmPassword : string;
  firstName : string;
  lastName : string;
  role : string;
}.

Record State : Type := mkState {
  formData : FormData;
  validationErrors : gmap string string;
}.

Definition initial : State :=
  {| formData :=
       {| email := ""; password := ""; confirmPassword := "";
          firstName := ""; lastName := ""; role := "clinician" |};
     validationErrors := ∅ |}.

(** Form validation. *)
Definition validateForm (data : FormData) : gmap string string :=
  let errors : gmap string string := ∅ in
  let errors :=
    if String.eqb (trim (firstName data)) ""
    then <[ "firstName" := "First name is required" ]> errors
    else errors in
  let errors :=
    if String.eqb (trim (lastName data)) ""
    then <[ "lastName" := "Last name is required" ]> errors
    else errors in
  let errors :=
    if String.eqb (trim (email data)) ""
    then <[ "email" := "Email is required" ]> errors
    else if negb (regexp_test email_pattern (email data))
         then <[ "email" := "Please enter a valid email address" ]> errors
         else errors in
  let errors :=
    if String.eqb (password data) ""
    then <[ "password" := "Password is required" ]> errors
    else if (String.length (password data) <? 6)%nat
         then <[ "password" := "Password must be at least 6 characters" ]>
                errors
         else errors in
  let errors :=
    if negb (String.eqb (password data) (confirmPassword data))
    then <[ "confirmPassword" := "Passwords do not match" ]> errors
    else errors in
  let errors :=
    if String.eqb (role data) ""
    then <[ "role" := "Role is required" ]> errors
    else errors in
  errors.

(** [const { confirmPassword, ...registrationData } = formData] *)
Definition registrationData (data : FormData) : JsVal :=
  JObj [("email", JStr (email data));
        ("password", JStr (password data));
        ("firstName", JStr (firstName data));
        ("lastName", JStr (lastName data));
        ("role", JStr (role data))].

Section WithRuntime.
Context {rt : Runtime}.

(** Handle form submission. *)
Definition handleSubmit (st : State) (net : NetResult) : M State :=
  let errors := validateForm (formData st) in
  if has_keys errors
  then mret {| formData := formData st; validationErrors := errors |}
  else
    try_catch
      (register (registrationData (formData st)) net;;
       mret st)
      (fun err =>
         console_error [JStr "Registration error:"; exn_object err];;
         mret st).

End WithRuntime.

End Register.

(** ** What the views use of strings and arrays *)

(** [s.startsWith(prefix)] *)
Fixpoint startsWith (s prefix : string) {struct prefix} : bool :=
  match prefix with
  | EmptyString => true
  | String p prefix' =>
      match s with
      | EmptyString => false
      | String c s' => Ascii.eqb c p && startsWith s' prefix'
      end
  end.


(** [s.split(sep)[0]] for a separator of one character: what stands before
    its first occurrence, or all of [s]. *)
Fixpoint before_first (sep : ascii) (s : string) : string :=
  match s with
  | EmptyString => EmptyString
  | String c s' => if Ascii.eqb c sep then EmptyString
                   else String c (before_first sep s')
  end.

(** [items.filter(keep)], where the callback can throw: the first throw
    ends the call. *)
Fixpoint js_filter (keep : JsVal -> Completion JsVal) (items : list JsVal)
    : Completion (list JsVal) :=
  match items with
  | [] => Normal []
  | x :: rest =>
      match keep x with
      | Throw e => Throw e
      | Normal v =>
          match js_filter keep rest with
          | Throw e => Throw e
          | Normal kept => Normal (if truthy v then x :: kept else kept)
          end
      end
  end.


(** A property read [v.k] outside the store monad. *)
Definition read_member (v : JsVal) (k : string) : Completion JsVal :=
  if nullish v
  then Throw (NativeError "TypeError"
                ("Cannot read properties of " ++ to_String v
                 ++ " (reading '" ++ k ++ "')"))
  else Normal (member v k).

(** A method call on a value that has no such method. *)
Definition not_a_function (what : string) : Exn :=
  NativeError "TypeError" (what ++ " is not a function").

(** An evaluation that touches nothing of the world, inside the monad. *)
Definition lift_completion {A : Type} (c : Completion A) : M A :=
  match c with
  | Normal a => mret a
  | Throw e => throw e
  end.

(** ** The clock *)

(** A date as [getFullYear], [getMonth] (from 0) and [getDate] give it. *)
Record CalendarDate : Type := mkDate {
  fullYear : Z;
  month : Z;
  date : Z;
}.

(** The [Date] services of the runtime.  Instants are milliseconds since
    the epoch; [Date_parse] is [None] where [new Date(v)] is an Invalid
    Date. *)
Class Clock : Type := {
  Date_now : Z;
  Date_parse : JsVal -> option Z;
  Date_local : Z -> CalendarDate;
  Date_setFullYear : Z -> Z -> Z;
  Date_toISOString : Z -> string;
}.

(** ** components/Patients/PatientList.js *)

Module PatientList.

Record State : Type := mkState {
  patients : JsVal;
  loading : bool;
  error : JsVal;
  searchTerm : string;
  selectedPatient : JsVal;
  dialogOpen : bool;
  deleteDialogOpen : bool;
  patientToDelete : JsVal;
  deleteLoading : bool;
}.

Definition initial : State :=
  {| patients := JArr [];
     loading := true;
     error := JNull;
     searchTerm := "";
     selectedPatient := JNull;
     dialogOpen := false;
     deleteDialogOpen := false;
     patientToDelete := JNull;
     deleteLoading := false |}.

Definition setPatients (v : JsVal) (st : State) : State :=
  {| patients := v;
     loading := loading st;
     error := error st;
     searchTerm := searchTerm st;
     selectedPatient := selectedPatient st;
     dialogOpen := dialogOpen st;
     deleteDialogOpen := deleteDialogOpen st;
     patientToDelete := patientToDelete st;
     deleteLoading := deleteLoading st |}.

Definition setLoading (b : bool) (st : State) : State :=
  {| patients := patients st;
     loading := b;
     error := error st;
     searchTerm := searchTerm st;
     selectedPatient := selectedPatient st;
     dialogOpen := dialogOpen st;
     deleteDialogOpen := deleteDialogOpen st;
     patientToDelete := patientToDelete st;
     deleteLoading := deleteLoading st |}.

Definition setError (v : JsVal) (st : State) : State :=
  {| patients := patients st;
     loading := loading st;
     error := v;
     searchTerm := searchTerm st;
     selectedPatient := selectedPatient st;
     dialogOpen := dialogOpen st;
     deleteDialogOpen := deleteDialogOpen st;
     patientToDelete := patientToDelete st;
     deleteLoading := deleteLoading st |}.











(** Navigate to add new patient. *)
Definition handleAddPatient : string := "/patients/new".



Section WithRuntime.
Context {rt : Runtime}.

(** Load patients. *)
Definition loadPatients (st : State) (net : NetResult) : M State :=
  let st := setError JNull (setLoading true st) in
  st ← try_catch
         (response ← patientsAPI_getAll JUndefined net;
          found ← get_member response "patients";
          mret (setPatients (js_or found (JArr [])) st))
         (fun err =>
            let errorInfo := handleApiError err in
            mret (setError (member errorInfo "message") st));
  mret (setLoading false st).


End WithRuntime.

(** What [calculateAge] returns: the text N/A, a number of years, or NaN
    when the date of birth is not a date. *)
Inductive Age : Type :=
  | NotAvailable
  | Years (age : Z)
  | NotANumber.

Section WithClock.
Context {clock : Clock}.

(** Calculate age from date of birth. *)
Definition calculateAge (dateOfBirth : JsVal) : Age :=
  if negb (truthy dateOfBirth) then NotAvailable
  else
    let today := Date_local Date_now in
    match Date_parse dateOfBirth with
    | None => NotANumber
    | Some instant =>
        let birthDate := Date_local instant in
        let age := fullYear today - fullYear birthDate in
        let monthDiff := month today - month birthDate in
        if (monthDiff <? 0) ||
           ((monthDiff =? 0) && (date today <? date birthDate))
        then Years (age - 1)
        else Years age
    end.

End WithClock.

End PatientList.

(** ** components/Patients/PatientForm.js *)

Module PatientForm.

(** The fields hold what the inputs give (strings) or what [loadPatient]
    read from the server (any value). *)
Record FormData : Type := mkFormData {
  firstName : JsVal;
  lastName : JsVal;
  medicalRecordNumber : JsVal;
  roomNumber : JsVal;
  dateOfBirth : JsVal;
}.

Definition empty_form : FormData :=
  {| firstName := JStr "";
     lastName := JStr "";
     medicalRecordNumber := JStr "";
     roomNumber := JStr "";
     dateOfBirth := JStr "" |}.

Record State : Type := mkState {
  formData : FormData;
  loading : bool;
  initialLoading : bool;
  error : JsVal;
  success : JsVal;
  validationErrors : gmap string JsVal;
}.

Definition initial (mode : string) : State :=
  {| formData := empty_form;
     loading := false;
     initialLoading := String.eqb mode "edit";
     error := JNull;
     success := JNull;
     validationErrors := ∅ |}.

Definition setFormData (data : FormData) (st : State) : State :=
  {| formData := data;
     loading := loading st;
     initialLoading := initialLoading st;
     error := error st;
     success := success st;
     validationErrors := validationErrors st |}.

Definition setLoading (b : bool) (st : State) : State :=
  {| formData := formData st;
     loading := b;
     initialLoading := initialLoading st;
     error := error st;
     success := success st;
     validationErrors := validationErrors st |}.

Definition setInitialLoading (b : bool) (st : State) : State :=
  {| formData := formData st;
     loading := loading st;
     initialLoading := b;
     error := error st;
     success := success st;
     validationErrors := validationErrors st |}.

Definition setError (v : JsVal) (st : State) : State :=
  {| formData := formData st;
     loading := loading st;
     initialLoading := initialLoading st;
     error := v;
     success := success st;
     validationErrors := validationErrors st |}.

Definition setSuccess (v : JsVal) (st : State) : State :=
  {| formData := formData st;
     loading := loading st;
     initialLoading := initialLoading st;
     error := error st;
     success := v;
     validationErrors := validationErrors st |}.

Definition setValidationErrors (errors : gmap string JsVal) (st : State)
    : State :=
  {| formData := formData st;
     loading := loading st;
     initialLoading := initialLoading st;
     error := error st;
     success := success st;
     validationErrors := errors |}.

(** [!value.trim()] *)
Definition blank (value : JsVal) : Completion bool :=
  match value with
  | JStr s => Normal (String.eqb (trim s) "")
  | JUndefined | JNull =>
      Throw (NativeError "TypeError"
               ("Cannot read properties of " ++ to_String value
                ++ " (reading 'trim')"))
  | _ => Throw (not_a_function "trim")
  end.

(** The body of the request: the form data as an object. *)
Definition form_object (data : FormData) : JsVal :=
  JObj [("firstName", firstName data);
        ("lastName", lastName data);
        ("medicalRecordNumber", medicalRecordNumber data);
        ("roomNumber", roomNumber data);
        ("dateOfBirth", dateOfBirth data)].

(** [err.response?.data?.errors] *)
Definition server_errors (err : Exn) : JsVal :=
  match exn_response err with
  | Some r => opt_member (data r) "errors"
  | None => JUndefined
  end.

(** The loop [errors.forEach((error) => { serverErrors[error.param] =
    error.msg; })] from the entries collected so far. *)
Fixpoint collect_errors (items : list JsVal) (serverErrors : gmap string JsVal)
    : Completion (gmap string JsVal) :=
  match items with
  | [] => Normal serverErrors
  | error :: rest =>
      match read_member error "param" with
      | Throw e => Throw e
      | Normal param =>
          collect_errors rest
            (<[ to_String param := member error "msg" ]> serverErrors)
      end
  end.

(** [errors.forEach(...)] on the value the server sent. *)
Definition forEach_error (errors : JsVal) : Completion (gmap string JsVal) :=
  match errors with
  | JArr items => collect_errors items ∅
  | _ => Throw (not_a_function "err.response.data.errors.forEach")
  end.

(** [date_of_birth.split("T")[0]] *)
Definition date_part (date_of_birth : JsVal) : Completion JsVal :=
  match date_of_birth with
  | JStr s => Normal (JStr (before_first "T" s))
  | _ => Throw (not_a_function "patient.date_of_birth.split")
  end.

Section WithClock.
Context {clock : Clock}.

(** Form validation. *)
Definition validateForm (data : FormData) : Completion (gmap string JsVal) :=
  let errors : gmap string JsVal := ∅ in
  match blank (firstName data) with
  | Throw e => Throw e
  | Normal no_first =>
  let errors :=
    if no_first
    then <[ "firstName" := JStr "First name is required" ]> errors
    else errors in
  match blank (lastName data) with
  | Throw e => Throw e
  | Normal no_last =>
  let errors :=
    if no_last
    then <[ "lastName" := JStr "Last name is required" ]> errors
    else errors in
  match blank (medicalRecordNumber data) with
  | Throw e => Throw e
  | Normal no_number =>
  let errors :=
    if no_number
    then <[ "medicalRecordNumber" :=
              JStr "Medical record number is required" ]> errors
    else errors in
  (* Optional but validate format if provided *)
  if truthy (dateOfBirth data)
  then
    let birthDate := Date_parse (dateOfBirth data) in
    let today := Date_now in
    let errors :=
      match birthDate with
      | Some instant =>
          if today <? instant
          then <[ "dateOfBirth" :=
                    JStr "Date of birth cannot be in the future" ]> errors
          else errors
      | None => errors
      end in
    let maxAge :=
      Date_setFullYear Date_now (fullYear (Date_local Date_now) - 150) in
    let errors :=
      match birthDate with
      | Some instant =>
          if instant <? maxAge
          then <[ "dateOfBirth" :=
                    JStr "Please enter a valid date of birth" ]> errors
          else errors
      | None => errors
      end in
    Normal errors
  else Normal errors
  end end end.

End WithClock.

Section WithRuntime.
Context {rt : Runtime} {clock : Clock}.

(** Load patient data for editing. *)
Definition loadPatient (id : JsVal) (st : State) (net : NetResult) : M State :=
  let st := setInitialLoading true st in
  st ← try_catch
         (response ← patientsAPI_getById id net;
          patient ← get_member response "patient";
          first_name ← get_member patient "first_name";
          let last_name := member patient "last_name" in
          let medical_record_number :=
            member patient "medical_record_number" in
          let room_number := member patient "room_number" in
          let date_of_birth := member patient "date_of_birth" in
          date ← (if truthy date_of_birth
                  then lift_completion (date_part date_of_birth)
                  else mret (JStr ""));
          mret (setFormData
                  {| firstName := js_or first_name (JStr "");
                     lastName := js_or last_name (JStr "");
                     medicalRecordNumber :=
                       js_or medical_record_number (JStr "");
                     roomNumber := js_or room_number (JStr "");
                     dateOfBirth := date |} st))
         (fun err =>
            let errorInfo := handleApiError err in
            mret (setError (member errorInfo "message") st));
  mret (setInitialLoading false st).

(** Handle form submission.  The result is the state the handler leaves
    and how it ends: it stays on the form, it goes to an address (after
    the delay of two seconds), or it throws, which rejects the promise of
    the handler. *)
Definition handleSubmit (mode : string) (id : JsVal) (st : State)
    (net : NetResult) : M (State * Completion (option string)) :=
  (* Validate form *)
  match validateForm (formData st) with
  | Throw e => mret (st, Throw e)
  | Normal errors =>
      if has_keys errors
      then mret (setValidationErrors errors st, Normal None)
      else
        let st := setError JNull (setLoading true st) in
        try_catch
          (if String.eqb mode "create"
           then
             patientsAPI_create (form_object (formData st)) net;;
             (* Reset form for another entry *)
             mret (setLoading false
                     (setFormData empty_form
                        (setSuccess (JStr "Patient created successfully!")
                           st)),
                   (* Navigate to patient list after brief delay *)
                   Normal (Some "/patients"))
           else
             patientsAPI_update id (form_object (formData st)) net;;
             mret (setLoading false
                     (setSuccess (JStr "Patient updated successfully!") st),
                   (* Navigate back after brief delay *)
                   Normal (Some "/patients")))
          (fun err =>
             let errorInfo := handleApiError err in
             let st := setError (member errorInfo "message") st in
             (* Handle specific validation errors from server *)
             if truthy (server_errors err)
             then
               match forEach_error (server_errors err) with
               | Normal serverErrors =>
                   mret (setLoading false
                           (setValidationErrors serverErrors st),
                         Normal None)
               | Throw e => mret (setLoading false st, Throw e)
               end
             else mret (setLoading false st, Normal None))
  end.

End WithRuntime.

End PatientForm.

(** ** components/Dashboard/Dashboard.js *)

Module Dashboard.

Record Stats : Type := mkStats {
  totalPatients : JsVal;
  todayTasks : JsVal;
  recentTasks : JsVal;
  recentPatients : JsVal;
}.

Record State : Type := mkState {
  stats : Stats;
  loading : bool;
  error : JsVal;
}.

Definition initial : State :=
  {| stats := {| totalPatients := JNum 0;
                 todayTasks := JNum 0;
                 recentTasks := JArr [];
                 recentPatients := JArr [] |};
     loading := true;
     error := JNull |}.

(** [(task) => task.completed_at.startsWith(today)] *)
Definition completed_today (today : string) (task : JsVal)
    : Completion JsVal :=
  match read_member task "completed_at" with
  | Throw e => Throw e
  | Normal JUndefined =>
      Throw (NativeError "TypeError"
               "Cannot read properties of undefined (reading 'startsWith')")
  | Normal JNull =>
      Throw (NativeError "TypeError"
               "Cannot read properties of null (reading 'startsWith')")
  | Normal (JStr completed_at) => Normal (JBool (startsWith completed_at today))
  | Normal _ => Throw (not_a_function "task.completed_at.startsWith")
  end.

(** [taskLogs?.filter(...).length || 0] *)
Definition count_today (today : string) (taskLogs : JsVal)
    : Completion JsVal :=
  match taskLogs with
  | JUndefined | JNull => Normal (JNum 0)
  | JArr items =>
      match js_filter (completed_today today) items with
      | Throw e => Throw e
      | Normal kept => Normal (JNum (Z.of_nat (length kept)))
      end
  | _ => Throw (not_a_function "taskLogsResponse.taskLogs?.filter")
  end.

(** [taskLogs?.slice(0, 5) || []], read after [count_today] has returned:
    the value is then an array, [null] or [undefined]. *)
Definition first_five (taskLogs : JsVal) : JsVal :=
  match taskLogs with
  | JArr items => JArr (firstn 5 items)
  | _ => JArr []
  end.

Section WithRuntime.
Context {rt : Runtime} {clock : Clock}.

(** Load dashboard data.  [net1] and [net2] are what the network does with
    the first and with the second request. *)
Definition loadDashboardData (st : State) (net1 net2 : NetResult) : M State :=
  st ← try_catch
         ((* Load patients *)
          patientsResponse ←
            patientsAPI_getAll (JObj [("limit", JNum 5)]) net1;
          (* Load recent task logs *)
          taskLogsResponse ←
            taskLogsAPI_getAll (JObj [("limit", JNum 10)]) net2;
          (* Calculate today's tasks *)
          let today := before_first "T" (Date_toISOString Date_now) in
          taskLogs ← get_member taskLogsResponse "taskLogs";
          todayTasks ← lift_completion (count_today today taskLogs);
          count ← get_member patientsResponse "count";
          found ← get_member patientsResponse "patients";
          mret {| stats :=
                    {| totalPatients := js_or count (JNum 0);
                       todayTasks := todayTasks;
                       recentTasks := first_five taskLogs;
                       recentPatients := js_or found (JArr []) |};
                  loading := true;
                  error := JNull |})
         (fun err =>
            let errorInfo := handleApiError err in
            mret {| stats := stats st;
                    loading := true;
                    error := member errorInfo "message" |});
  mret {| stats := stats st; loading := false; error := error st |}.

End WithRuntime.

(** Quick action handlers: where [navigate] goes. *)
Definition handleAddPatient : string := "/patients/new".


End Dashboard.

(** ** components/Layout/Layout.js *)

Module Layout.

Record State : Type := mkState {
  mobileOpen : bool;
  anchorEl : JsVal;
}.


Definition handleProfileMenuClose (st : State) : State :=
  {| mobileOpen := mobileOpen st; anchorEl := JNull |}.

Section WithRuntime.
Context {rt : Runtime}.

(** The state of the layout and where [navigate] goes. *)
Definition handleLogout (st : State) : M (State * string) :=
  logout;;
  mret (handleProfileMenuClose st, "/login").

End WithRuntime.


End Layout.

(** ** Predicates of the statements *)

(** A field as the server sends text: a string, [null] or nothing. *)
Definition text_or_missing (v : JsVal) : bool :=
  match v with
  | JUndefined | JNull | JStr _ => true
  | _ => false
  end.



(** One date is on or before another. *)
Definition on_or_before (a b : CalendarDate) : bool :=
  (fullYear a <? fullYear b) ||
  ((fullYear a =? fullYear b) &&
   ((month a <? month b) ||
    ((month a =? month b) && (date a <=? date b)))).

(** The birthday of the year in which [age] years are reached. *)
Definition birthday (birthDate : CalendarDate) (age : Z) : CalendarDate :=
  {| fullYear := fullYear birthDate + age;
     month := month birthDate;
     date := date birthDate |}.

(** The text of a field that is text, and the empty text otherwise. *)
Definition text_of (v : JsVal) : string :=
  match v with
  | JStr s => s
  | _ => ""
  end.

(** ** A reference clock

    A runtime whose local time is UTC, stopped at an instant.  It reads
    the two forms of a date that suffice for the closed examples: an
    instant given as a number, and a date written YYYY-MM-DD, which stands
    for its midnight in UTC; an illegal date (a thirtieth of February) is
    no date. *)

(** Days since the epoch of a date of the Gregorian calendar, the month
    counted from 1. *)
Definition days_from_civil (y m d : Z) : Z :=
  let y := if m <=? 2 then y - 1 else y in
  let era := y / 400 in
  let yoe := y - era * 400 in
  let mp := if 2 <? m then m - 3 else m + 9 in
  let doy := (153 * mp + 2) / 5 + d - 1 in
  let doe := yoe * 365 + yoe / 4 - yoe / 100 + doy in
  era * 146097 + doe - 719468.

(** The date of a day since the epoch, the month counted from 0. *)
Definition civil_from_days (days : Z) : CalendarDate :=
  let z := days + 719468 in
  let era := z / 146097 in
  let doe := z - era * 146097 in
  let yoe := (doe - doe / 1460 + doe / 36524 - doe / 146096) / 365 in
  let doy := doe - (365 * yoe + yoe / 4 - yoe / 100) in
  let mp := (5 * doy + 2) / 153 in
  let d := doy - (153 * mp + 2) / 5 + 1 in
  let m := if mp <? 10 then mp + 3 else mp - 9 in
  {| fullYear := yoe + era * 400 + (if m <=? 2 then 1 else 0);
     month := m - 1;
     date := d |}.

Definition ms_per_day : Z := 86400000.

Definition utc_local (instant : Z) : CalendarDate :=
  civil_from_days (instant / ms_per_day).

(** [setFullYear(year)]: the same day and time of day in another year. *)
Definition utc_setFullYear (instant year : Z) : Z :=
  let d := utc_local instant in
  days_from_civil year (month d + 1) (date d) * ms_per_day
  + instant mod ms_per_day.

(** A number written with at least [width] digits. *)
Fixpoint zero_padded (width : nat) (n : Z) : string :=
  match width with
  | O => ""
  | S O => pretty n
  | S width' =>
      if n <? 10 ^ Z.of_nat width'
      then "0" ++ zero_padded width' n
      else pretty n
  end.

(** [toISOString()], for the years 0 to 9999. *)
Definition utc_toISOString (instant : Z) : string :=
  let d := utc_local instant in
  let ms := instant mod ms_per_day in
  zero_padded 4 (fullYear d) ++ "-" ++ zero_padded 2 (month d + 1) ++ "-"
  ++ zero_padded 2 (date d) ++ "T" ++ zero_padded 2 (ms / 3600000) ++ ":"
  ++ zero_padded 2 (ms / 60000 mod 60) ++ ":"
  ++ zero_padded 2 (ms / 1000 mod 60) ++ "."
  ++ zero_padded 3 (ms mod 1000) ++ "Z".

(** The number a run of decimal digits writes. *)
Definition digits_value (s : string) : option Z :=
  if string_forall is_digit s && negb (String.eqb s "")
  then Some (fst (take_digits s 0))
  else None.

Definition utc_parse (v : JsVal) : option Z :=
  match v with
  | JNum n => Some n
  | JStr s =>
      if (String.length s =? 10)%nat &&
         String.eqb (String.substring 4 1 s) "-" &&
         String.eqb (String.substring 7 1 s) "-"
      then
        y ← digits_value (String.substring 0 4 s);
        m ← digits_value (String.substring 5 2 s);
        d ← digits_value (String.substring 8 2 s);
        let days := days_from_civil y m d in
        if (1 <=? m) && (m <=? 12) && (1 <=? d) &&
           (fullYear (civil_from_days days) =? y) &&
           (month (civil_from_days days) =? m - 1) &&
           (date (civil_from_days days) =? d)
        then Some (days * ms_per_day)
        else None
      else None
  | _ => None
  end.

Definition utc_clock (now : Z) : Clock :=
  {| Date_now := now;
     Date_parse := utc_parse;
     Date_local := utc_local;
     Date_setFullYear := utc_setFullYear;
     Date_toISOString := utc_toISOString |}.

(** The clock of the closed examples: midnight of 2 November 2026. *)
Definition reference_clock : Clock := utc_clock 1793577600000.

(** ** Sample data of the views *)




Definition patient_curie : JsVal :=
  JObj [("id", JNum 1); ("first_name", JStr "Marie");
        ("last_name", JStr "Curie"); ("medical_record_number", JStr "H1-001");
        ("room_number", JStr "12A"); ("date_of_birth", JStr "1990-11-03")].

Definition patient_darwin : JsVal :=
  JObj [("id", JNum 2); ("first_name", JStr "Charles");
        ("last_name", JStr "Darwin"); ("medical_record_number", JStr "H1-002");
        ("room_number", JNull); ("date_of_birth", JStr "1980-02-12")].

(** A record without any of the four searched fields. *)
Definition patient_unnamed : JsVal :=
  JObj [("id", JNum 3)].


Definition sample_patients : list JsVal :=
  [patient_curie; patient_darwin; patient_unnamed].

Definition task_done_today : JsVal :=
  JObj [("id", JNum 10); ("task_type", JStr "Vitals");
        ("completed_at", JStr "2026-11-02T08:30:00.000Z")].

Definition task_done_before : JsVal :=
  JObj [("id", JNum 11); ("task_type", JStr "Medication");
        ("completed_at", JStr "2026-11-01T21:00:00.000Z")].

Definition task_not_done : JsVal :=
  JObj [("id", JNum 12); ("task_type", JStr "Assessment");
        ("completed_at", JNull)].

Definition sample_patients_response : HttpResponse :=
  {| status := 200;
     data := JObj [("patients", JArr sample_patients); ("count", JNum 3)] |}.

Definition sample_task_logs_response : HttpResponse :=
  {| status := 200;
     data := JObj [("taskLogs", JArr [task_done_today; task_done_before])] |}.

Definition sample_open_task_response : HttpResponse :=
  {| status := 200;
     data := JObj [("taskLogs", JArr [task_done_today; task_not_done])] |}.

Definition sample_patient_response : HttpResponse :=
  {| status := 200;
     data := JObj [("patient",
                    JObj [("id", JNum 1); ("first_name", JStr "Marie");
                          ("last_name", JStr "Curie");
                          ("medical_record_number", JStr "H1-001");
                          ("room_number", JNull);
                          ("date_of_birth",
                           JStr "1990-11-03T00:00:00.000Z")])] |}.

Definition sample_rejection : HttpResponse :=
  {| status := 400;
     data := JObj [("error", JStr "Validation failed");
                   ("errors",
                    JArr [JObj [("param", JStr "medicalRecordNumber");
                                ("msg", JStr "Already in use")]])] |}.

Definition sample_form : PatientForm.FormData :=
  {| PatientForm.firstName := JStr "Marie";
     PatientForm.lastName := JStr "Curie";
     PatientForm.medicalRecordNumber := JStr "H1-001";
     PatientForm.roomNumber := JStr "12A";
     PatientForm.dateOfBirth := JStr "1990-11-03" |}.


(** * Properties *)

(** ** Evaluating the monad *)

Lemma bind_normal {A B : Type} (m : M A) (k : A -> M B) (w w' : World) (a : A) :
  m w = (Normal a, w') -> (m ≫= k) w = k a w'.
Proof. intros Hm. unfold mbind, M_bind. now rewrite Hm. Qed.

Lemma string_strict_eq (s : string) (v : JsVal) :
  strict_eq (JStr s) v = true <-> v = JStr s.
Proof.
  destruct v; cbn [strict_eq]; try (split; [discriminate | discriminate]).
  rewrite String.eqb_eq. split; [intros -> | intros [= ->]]; reflexivity.
Qed.

(** ** clearError *)

(** C9: clearError() sets lastError to null, leaves user, token,
    isAuthenticated and isLoading (and everything outside the session) as
    they were, and a second clearError() changes nothing more. *)
Theorem clearError_clears_only_the_error : forall w : World,
  let w1 := snd (clearError w) in
  fst (clearError w) = Normal tt /\
  error (session w1) = JNull /\
  user (session w1) = user (session w) /\
  token (session w1) = token (session w) /\
  isAuthenticated (session w1) = isAuthenticated (session w) /\
  isLoading (session w1) = isLoading (session w) /\
  localStorage w1 = localStorage w /\
  location_href w1 = location_href w /\
  snd (clearError w1) = w1.
Proof.
  intros w. unfold clearError, dispatch. cbn.
  repeat split; reflexivity.
Qed.

(** ** hasRole *)

(** C10: hasRole(["admin"]) never throws; it is false when the user is
    absent, and with a user present it is true exactly when user.role is the
    string "admin". *)
Theorem hasRole_admin : forall s : AuthState,
  (nullish (user s) = true ->
     hasRole s (JArr [JStr "admin"]) = Normal false) /\
  (nullish (user s) = false ->
     exists b : bool,
       hasRole s (JArr [JStr "admin"]) = Normal b /\
       (b = true <-> member (user s) "role" = JStr "admin")).
Proof.
  intros s. unfold hasRole, user_role. split.
  - intros Hn. destruct (user s); simpl in Hn; try discriminate; reflexivity.
  - intros Hn. rewrite Hn.
    destruct (truthy (user s)) eqn:Ht; cbn [negb].
    + eexists. split; [reflexivity |].
      unfold includes. cbn [existsb]. rewrite orb_false_r.
      apply string_strict_eq.
    + exists false. split; [reflexivity |].
      split; [discriminate |].
      destruct (user s); simpl in *; discriminate.
Qed.

Lemma strict_eq_sym (a b : JsVal) : strict_eq a b = strict_eq b a.
Proof.
  destruct a, b; cbn [strict_eq]; try reflexivity.
  - destruct b, b0; reflexivity.
  - apply Z.eqb_sym.
  - apply String.eqb_sym.
Qed.

(** isAdmin() and hasRole(["admin"]) give the same answer in every state. *)
Theorem hasRole_admin_is_isAdmin : forall s : AuthState,
  hasRole s (JArr [JStr "admin"]) = Normal (isAdmin s).
Proof.
  intros s. unfold hasRole, user_role, isAdmin, opt_member, includes.
  destruct (user s) as [| |b|n|str|items|fields]; cbn [truthy nullish negb];
    try reflexivity.
  - destruct b; reflexivity.
  - destruct (n =? 0); reflexivity.
  - destruct (String.eqb str ""); reflexivity.
  - cbn [existsb member]. now rewrite orb_false_r, strict_eq_sym.
Qed.

(** ** The API client *)

Ltac run_m :=
  cbv [api_request request_interceptor response_interceptor
       response_error_interceptor localStorage_getItem localStorage_setItem
       localStorage_removeItem set_location_href console_error send
       get_member mbind mret M_bind M_ret throw try_catch dispatch
       with_storage];
  cbn [fst snd session localStorage location_href console network].

Section ApiClient.
Context {rt : Runtime}.

(** The config that leaves the request interceptor. *)
Lemma request_interceptor_run (config : RequestConfig) (w : World) :
  request_interceptor config w =
    (Normal (match localStorage w !! "authToken" with
             | Some t => if String.eqb t "" then config
                         else set_header config "Authorization" ("Bearer " ++ t)
             | None => config
             end), w).
Proof.
  run_m. unfold storage_item.
  destruct (localStorage w !! "authToken") as [t|]; cbn [truthy to_String].
  - destruct (String.eqb t ""); reflexivity.
  - reflexivity.
Qed.

(** One request: it is handed to the network with the config of the
    request interceptor, and the settled promise goes through the response
    interceptor. *)
Lemma api_request_run (config : RequestConfig) (net : NetResult) (w : World) :
  let sent :=
    match localStorage w !! "authToken" with
    | Some t => if String.eqb t "" then config
                else set_header config "Authorization" ("Bearer " ++ t)
    | None => config
    end in
  api_request config net w =
    match settle net with
    | Normal response =>
        (Normal response,
         {| session := session w;
            localStorage := localStorage w;
            location_href := location_href w;
            console := console w;
            network := network w ++ [sent] |})
    | Throw e =>
        (Throw e,
         {| session := session w;
            localStorage :=
              if is_unauthorized e
              then delete "user" (delete "authToken" (localStorage w))
              else localStorage w;
            location_href :=
              if is_unauthorized e then "/login" else location_href w;
            console :=
              match exn_response e with
              | None => console w ++
                        [[JStr "Network error:"; JStr (exn_message e)]]
              | Some _ => console w
              end;
            network := network w ++ [sent] |})
    end.
Proof.
  intros sent. unfold api_request.
  rewrite (bind_normal _ _ _ _ _ (request_interceptor_run config w)).
  fold sent. run_m.
  destruct (settle net) as [response|e]; [reflexivity |].
  destruct (is_unauthorized e), (exn_response e); reflexivity.
Qed.

(** Every endpoint wrapper makes one request with the instance's default
    headers and returns [response.data]. *)
Lemma api_call_request (call : ApiCall) (net : NetResult) :
  exists config : RequestConfig,
    headers config = {[ "Content-Type" := "application/json" ]} /\
    api_call call net =
      (api_request config net ≫= fun response => mret (data response)).
Proof.
  destruct call; eexists; (split; [| reflexivity]); reflexivity.
Qed.

Lemma api_call_run (call : ApiCall) (net : NetResult) (w : World) :
  exists config : RequestConfig,
    headers config = {[ "Content-Type" := "application/json" ]} /\
    let sent :=
      match localStorage w !! "authToken" with
      | Some t => if String.eqb t "" then config
                  else set_header config "Authorization" ("Bearer " ++ t)
      | None => config
      end in
    api_call call net w =
      match settle net with
      | Normal response =>
          (Normal (data response),
           {| session := session w;
              localStorage := localStorage w;
              location_href := location_href w;
              console := console w;
              network := network w ++ [sent] |})
      | Throw e =>
          (Throw e,
           {| session := session w;
              localStorage :=
                if is_unauthorized e
                then delete "user" (delete "authToken" (localStorage w))
                else localStorage w;
              location_href :=
                if is_unauthorized e then "/login" else location_href w;
              console :=
                match exn_response e with
                | None => console w ++
                          [[JStr "Network error:"; JStr (exn_message e)]]
                | Some _ => console w
                end;
              network := network w ++ [sent] |})
      end.
Proof.
  destruct (api_call_request call net) as (config & Hh & Hc).
  exists config. split; [exact Hh |]. intros sent. rewrite Hc.
  unfold mbind, M_bind. rewrite api_request_run. fold sent.
  destruct (settle net); reflexivity.
Qed.

Lemma default_headers_have_no_authorization :
  ({[ "Content-Type" := "application/json" ]} : gmap string string)
    !! "Authorization" = None.
Proof. reflexivity. Qed.

End ApiClient.

(** ** The provider *)

(** Runs the body shared by [login] and [register], given the run of the
    request they make. *)
Ltac auth_flow_run Hrun net :=
  cbv zeta in Hrun; cbn [api_call] in Hrun;
  unfold mbind at 1; unfold M_bind at 1;
  cbn [dispatch]; unfold try_catch; unfold mbind at 1; unfold M_bind at 1;
  cbn [dispatch snd localStorage] in Hrun; rewrite Hrun;
  let response := fresh "response" in
  let e := fresh "e" in
  destruct (settle net) as [response|e];
  [ cbn [session localStorage location_href console network];
    unfold get_member; destruct (nullish (data response));
    [ unfold mbind, M_bind, throw;
      cbn [server_error_message exn_response js_or truthy];
      run_m; reflexivity
    | run_m; reflexivity ]
  | run_m; reflexivity ].

Section Provider.
Context {rt : Runtime}.

Lemma truthy_item (storage : gmap string string) (key : string) :
  truthy (storage_item storage key) = true <->
  exists s : string, storage !! key = Some s /\ s <> "".
Proof.
  unfold storage_item. destruct (storage !! key) as [s|]; cbn [truthy].
  - destruct (String.eqb_spec s "") as [->|Hne]; cbn [negb]; split.
    + discriminate.
    + intros (s' & [= <-] & Hs'). contradiction.
    + intros _. exists s. split; [reflexivity | exact Hne].
    + reflexivity.
  - split; [discriminate | intros (s & Hs & _); discriminate].
Qed.

(** The mount effect, by the three ways it can go. *)
Lemma restore_run (w : World) :
  restore w =
    (Normal tt,
     let t := storage_item (localStorage w) "authToken" in
     let u := storage_item (localStorage w) "user" in
     if truthy t && truthy u then
       match JSON_parse (to_String u) with
       | Some parsedUser =>
           {| session :=
                authReducer (session w) (LOAD_USER_FROM_STORAGE parsedUser t);
              localStorage := localStorage w;
              location_href := location_href w;
              console := console w;
              network := network w |}
       | None =>
           {| session :=
                authReducer (session w) (LOAD_USER_FROM_STORAGE JNull JNull);
              localStorage := delete "user" (delete "authToken" (localStorage w));
              location_href := location_href w;
              console := console w;
              network := network w |}
       end
     else
       {| session :=
            authReducer (session w) (LOAD_USER_FROM_STORAGE JNull JNull);
          localStorage := localStorage w;
          location_href := location_href w;
          console := console w;
          network := network w |}).
Proof.
  unfold restore, JSON_parse_or_throw. run_m.
  destruct (truthy (storage_item (localStorage w) "authToken")
            && truthy (storage_item (localStorage w) "user"));
    [| reflexivity].
  destruct (JSON_parse (to_String (storage_item (localStorage w) "user")));
    reflexivity.
Qed.

(** A login, by the three ways it can go: the request is rejected, the
    response has no payload to read the token from, or the credentials are
    stored and the session is marked authenticated. *)
Lemma login_run (credentials : JsVal) (net : NetResult) (w : World) :
  exists config : RequestConfig,
    headers config = {[ "Content-Type" := "application/json" ]} /\
    let sent :=
      match localStorage w !! "authToken" with
      | Some t => if String.eqb t "" then config
                  else set_header config "Authorization" ("Bearer " ++ t)
      | None => config
      end in
    login credentials net w =
      match settle net with
      | Throw e =>
          (Throw e,
           {| session :=
                authReducer (authReducer (session w) LOGIN_START)
                  (LOGIN_FAILURE
                     (js_or (server_error_message e) (JStr "Login failed")));
              localStorage :=
                if is_unauthorized e
                then delete "user" (delete "authToken" (localStorage w))
                else localStorage w;
              location_href :=
                if is_unauthorized e then "/login" else location_href w;
              console :=
                match exn_response e with
                | None => console w ++
                          [[JStr "Network error:"; JStr (exn_message e)]]
                | Some _ => console w
                end;
              network := network w ++ [sent] |})
      | Normal response =>
          if nullish (data response)
          then
            (Throw (NativeError "TypeError"
                      ("Cannot read properties of "
                       ++ to_String (data response)
                       ++ " (reading 'token')")),
             {| session :=
                  authReducer (authReducer (session w) LOGIN_START)
                    (LOGIN_FAILURE (JStr "Login failed"));
                localStorage := localStorage w;
                location_href := location_href w;
                console := console w;
                network := network w ++ [sent] |})
          else
            (Normal (data response),
             {| session :=
                  authReducer (authReducer (session w) LOGIN_START)
                    (LOGIN_SUCCESS (member (data response) "user")
                                   (member (data response) "token"));
                localStorage :=
                  <[ "user" :=
                       to_String (JSON_stringify_value
                                    (member (data response) "user")) ]>
                    (<[ "authToken" :=
                          to_String (member (data response) "token") ]>
                       (localStorage w));
                location_href := location_href w;
                console := console w;
                network := network w ++ [sent] |})
      end.
Proof.
  destruct (api_call_run (AuthLogin credentials) net
              (snd (dispatch LOGIN_START w))) as (config & Hh & Hrun).
  exists config. split; [exact Hh |]. intros sent.
  unfold login. auth_flow_run Hrun net.
Qed.

Lemma register_run (userData : JsVal) (net : NetResult) (w : World) :
  exists config : RequestConfig,
    headers config = {[ "Content-Type" := "application/json" ]} /\
    let sent :=
      match localStorage w !! "authToken" with
      | Some t => if String.eqb t "" then config
                  else set_header config "Authorization" ("Bearer " ++ t)
      | None => config
      end in
    register userData net w =
      match settle net with
      | Throw e =>
          (Throw e,
           {| session :=
                authReducer (authReducer (session w) LOGIN_START)
                  (LOGIN_FAILURE
                     (js_or (server_error_message e)
                            (JStr "Registration failed")));
              localStorage :=
                if is_unauthorized e
                then delete "user" (delete "authToken" (localStorage w))
                else localStorage w;
              location_href :=
                if is_unauthorized e then "/login" else location_href w;
              console :=
                match exn_response e with
                | None => console w ++
                          [[JStr "Network error:"; JStr (exn_message e)]]
                | Some _ => console w
                end;
              network := network w ++ [sent] |})
      | Normal response =>
          if nullish (data response)
          then
            (Throw (NativeError "TypeError"
                      ("Cannot read properties of "
                       ++ to_String (data response)
                       ++ " (reading 'token')")),
             {| session :=
                  authReducer (authReducer (session w) LOGIN_START)
                    (LOGIN_FAILURE (JStr "Registration failed"));
                localStorage := localStorage w;
                location_href := location_href w;
                console := console w;
                network := network w ++ [sent] |})
          else
            (Normal (data response),
             {| session :=
                  authReducer (authReducer (session w) LOGIN_START)
                    (LOGIN_SUCCESS (member (data response) "user")
                                   (member (data response) "token"));
                localStorage :=
                  <[ "user" :=
                       to_String (JSON_stringify_value
                                    (member (data response) "user")) ]>
                    (<[ "authToken" :=
                          to_String (member (data response) "token") ]>
                       (localStorage w));
                location_href := location_href w;
                console := console w;
                network := network w ++ [sent] |})
      end.
Proof.
  destruct (api_call_run (AuthRegister userData) net
              (snd (dispatch LOGIN_START w))) as (config & Hh & Hrun).
  exists config. split; [exact Hh |]. intros sent.
  unfold register. auth_flow_run Hrun net.
Qed.


(** A failure that is a 401 response has gone through the response
    interceptor, which removed both keys. *)
Lemma unauthorized_login_erases_storage
    (payload : JsVal) (net : NetResult) (w w' : World) (e : Exn) :
  login payload net w = (Throw e, w') ->
  is_unauthorized e = true ->
  localStorage w' = delete "user" (delete "authToken" (localStorage w)).
Proof.
  destruct (login_run payload net w) as (cfg & _ & Hcfg);
      cbv zeta in Hcfg; rewrite Hcfg; clear Hcfg.
  destruct (settle net) as [response|e1].
  - destruct (nullish (data response)); [| discriminate].
    intros [= <- <-]. discriminate.
  - intros [= <- <-] ->. reflexivity.
Qed.


Lemma storage_item_some (storage : gmap string string) (key s : string) :
  storage !! key = Some s -> storage_item storage key = JStr s.
Proof. intros H. unfold storage_item. now rewrite H. Qed.

Lemma truthy_nonempty (s : string) : s <> "" -> truthy (JStr s) = true.
Proof. intros H. cbn. now destruct (String.eqb_spec s ""). Qed.

Lemma falsy_item (storage : gmap string string) (key : string) :
  storage !! key = None \/ storage !! key = Some "" ->
  truthy (storage_item storage key) = false.
Proof. unfold storage_item. intros [-> | ->]; reflexivity. Qed.


(** Credentials found in storage on mount are the session of the page. *)
Lemma page_load_of_stored_credentials
    (storage : gmap string string) (href tok text : string) (v : JsVal) :
  storage !! "authToken" = Some tok -> tok <> "" ->
  storage !! "user" = Some text -> text <> "" ->
  JSON_parse text = Some v ->
  session (page_load storage href) =
    {| user := v; token := JStr tok; isAuthenticated := true;
       isLoading := false; error := JNull |}.
Proof.
  intros Ht Hne Hu Hne' Hp. unfold page_load. rewrite restore_run.
  cbn [snd mount session localStorage].
  rewrite (storage_item_some _ _ _ Ht), (storage_item_some _ _ _ Hu).
  rewrite (truthy_nonempty _ Hne), (truthy_nonempty _ Hne').
  cbn [andb to_String]. rewrite Hp. cbn [session authReducer].
  rewrite (truthy_nonempty _ Hne). reflexivity.
Qed.

(** Without a token in storage the page starts Anonymous. *)
Lemma page_load_without_token (storage : gmap string string) (href : string) :
  storage !! "authToken" = None ->
  Anonymous (session (page_load storage href)).
Proof.
  intros Ht. unfold page_load. rewrite restore_run.
  cbn [snd mount session localStorage].
  rewrite (falsy_item _ "authToken") by (left; exact Ht).
  cbn [andb session]. repeat split.
Qed.

Lemma settle_2xx (r : HttpResponse) :
  200 <= status r < 300 -> settle (GotResponse r) = Normal r.
Proof.
  intros [Hlo Hhi]. unfold settle.
  apply Z.leb_le in Hlo. apply Z.ltb_lt in Hhi. now rewrite Hlo, Hhi.
Qed.

Lemma member_string_not_nullish (d : JsVal) (k s : string) :
  member d k = JStr s -> nullish d = false.
Proof. destruct d; cbn; intros H; try discriminate; reflexivity. Qed.

(** A successful login stores the token and the text of the user. *)
Lemma successful_login_stores
    (payload : JsVal) (r : HttpResponse) (w : World)
    (tok text : string) (u : JsVal) :
  200 <= status r < 300 ->
  member (data r) "token" = JStr tok ->
  member (data r) "user" = u ->
  JSON_stringify u = Some text ->
  let w1 := snd (login payload (GotResponse r) w) in
  fst (login payload (GotResponse r) w) = Normal (data r) /\
  localStorage w1 !! "authToken" = Some tok /\
  localStorage w1 !! "user" = Some text.
Proof.
  intros Hst Htok Hu Hs.
  pose proof (member_string_not_nullish _ _ _ Htok) as Hd.
  destruct (login_run payload (GotResponse r) w) as (cfg & _ & Hcfg).
  cbv zeta in Hcfg |- *. rewrite Hcfg; clear Hcfg.
  rewrite (settle_2xx _ Hst), Hd, Htok, Hu.
  unfold JSON_stringify_value. rewrite Hs.
  cbn [fst snd localStorage to_String].
  split; [reflexivity |]. split.
  - rewrite lookup_insert_ne by discriminate. apply lookup_insert_eq.
  - apply lookup_insert_eq.
Qed.

Lemma successful_register_stores
    (payload : JsVal) (r : HttpResponse) (w : World)
    (tok text : string) (u : JsVal) :
  200 <= status r < 300 ->
  member (data r) "token" = JStr tok ->
  member (data r) "user" = u ->
  JSON_stringify u = Some text ->
  let w1 := snd (register payload (GotResponse r) w) in
  fst (register payload (GotResponse r) w) = Normal (data r) /\
  localStorage w1 !! "authToken" = Some tok /\
  localStorage w1 !! "user" = Some text.
Proof.
  intros Hst Htok Hu Hs.
  pose proof (member_string_not_nullish _ _ _ Htok) as Hd.
  destruct (register_run payload (GotResponse r) w) as (cfg & _ & Hcfg).
  cbv zeta in Hcfg |- *. rewrite Hcfg; clear Hcfg.
  rewrite (settle_2xx _ Hst), Hd, Htok, Hu.
  unfold JSON_stringify_value. rewrite Hs.
  cbn [fst snd localStorage to_String].
  split; [reflexivity |]. split.
  - rewrite lookup_insert_ne by discriminate. apply lookup_insert_eq.
  - apply lookup_insert_eq.
Qed.

(** C6: a successful login or registration whose response carries a
    non-empty token and a user that the JSON codec writes and reads back
    stores both; the next page load then finds the session authenticated
    with that token and with a user equal to the one the server sent. *)
Theorem stored_credentials_round_trip :
  forall (payload : JsVal) (r : HttpResponse) (w : World)
         (tok text href : string) (u : JsVal),
  200 <= status r < 300 ->
  member (data r) "token" = JStr tok -> tok <> "" ->
  member (data r) "user" = u ->
  JSON_stringify u = Some text -> text <> "" ->
  JSON_parse text = Some u ->
  (let w1 := snd (login payload (GotResponse r) w) in
   fst (login payload (GotResponse r) w) = Normal (data r) /\
   localStorage w1 !! "authToken" = Some tok /\
   localStorage w1 !! "user" = Some text /\
   session (page_load (localStorage w1) href) =
     {| user := u; token := JStr tok; isAuthenticated := true;
        isLoading := false; error := JNull |}) /\
  (let w1 := snd (register payload (GotResponse r) w) in
   fst (register payload (GotResponse r) w) = Normal (data r) /\
   localStorage w1 !! "authToken" = Some tok /\
   localStorage w1 !! "user" = Some text /\
   session (page_load (localStorage w1) href) =
     {| user := u; token := JStr tok; isAuthenticated := true;
        isLoading := false; error := JNull |}).
Proof.
  intros payload r w tok text href u Hst Htok Hne Hu Hs Hne' Hp. split.
  - destruct (successful_login_stores payload r w tok text u Hst Htok Hu Hs)
      as (Hret & Ht & Hx).
    cbv zeta. repeat (split; [assumption |]).
    now apply (page_load_of_stored_credentials _ _ tok text).
  - destruct (successful_register_stores payload r w tok text u Hst Htok Hu Hs)
      as (Hret & Ht & Hx).
    cbv zeta. repeat (split; [assumption |]).
    now apply (page_load_of_stored_credentials _ _ tok text).
Qed.


Lemma sent_config_carries_token
    (w : World) (config : RequestConfig) :
  headers config = {[ "Content-Type" := "application/json" ]} ->
  let sent :=
    match localStorage w !! "authToken" with
    | Some t => if String.eqb t "" then config
                else set_header config "Authorization" ("Bearer " ++ t)
    | None => config
    end in
  (forall t : string,
     localStorage w !! "authToken" = Some t -> t <> "" ->
     headers sent !! "Authorization" = Some ("Bearer " ++ t)) /\
  (localStorage w !! "authToken" = None \/
   localStorage w !! "authToken" = Some "" ->
     headers sent !! "Authorization" = None).
Proof.
  intros Hh sent. subst sent. split.
  - intros t Ht Hne. rewrite Ht.
    destruct (String.eqb_spec t ""); [contradiction |].
    cbn [set_header headers]. apply lookup_insert_eq.
  - intros [Hnone | Hempty].
    + rewrite Hnone, Hh. apply default_headers_have_no_authorization.
    + rewrite Hempty. cbn [String.eqb]. rewrite Hh.
      apply default_headers_have_no_authorization.
Qed.

(** C8: every call of an endpoint wrapper, and every login and register
    call, hands one request to the network; when storage holds a token the
    request carries the header Authorization with the value Bearer followed
    by that token, and when storage holds no token (no entry, or the empty
    string) the request has no Authorization header.  The mount effect,
    logout and clearError send nothing. *)
Theorem every_request_carries_the_stored_token : forall w : World,
  (forall call net, sends_with_stored_token w (snd (api_call call net w))) /\
  (forall credentials net,
     sends_with_stored_token w (snd (login credentials net w))) /\
  (forall userData net,
     sends_with_stored_token w (snd (register userData net w))) /\
  network (snd (restore w)) = network w /\
  network (snd (logout w)) = network w /\
  network (snd (clearError w)) = network w.
Proof.
  intros w. repeat split.
  - intros call net.
    destruct (api_call_run call net w) as (config & Hh & Hrun).
    cbv zeta in Hrun. eexists. split.
    + rewrite Hrun. destruct (settle net); reflexivity.
    + now apply sent_config_carries_token.
  - intros credentials net.
    destruct (login_run credentials net w) as (config & Hh & Hrun).
    cbv zeta in Hrun. eexists. split.
    + rewrite Hrun. destruct (settle net) as [response|e];
        [destruct (nullish (data response)) |]; reflexivity.
    + now apply sent_config_carries_token.
  - intros userData net.
    destruct (register_run userData net w) as (config & Hh & Hrun).
    cbv zeta in Hrun. eexists. split.
    + rewrite Hrun. destruct (settle net) as [response|e];
        [destruct (nullish (data response)) |]; reflexivity.
    + now apply sent_config_carries_token.
  - rewrite restore_run. cbn [snd].
    destruct (truthy _ && truthy _); [| reflexivity].
    destruct (JSON_parse _); reflexivity.
Qed.

(** X1.  logout() completes normally from every state, removes both keys from
    storage and leaves the session Anonymous with no error. *)
Theorem logout_always_anonymous : forall w : World,
  let w' := snd (logout w) in
  fst (logout w) = Normal tt /\
  Anonymous (session w') /\
  error (session w') = JNull /\
  localStorage w' = delete "user" (delete "authToken" (localStorage w)) /\
  localStorage w' !! "authToken" = None /\
  localStorage w' !! "user" = None /\
  network w' = network w.
Proof.
  intros w. unfold logout, authAPI_logout. run_m.
  repeat split.
  - rewrite lookup_delete_ne by discriminate. apply lookup_delete_eq.
  - apply lookup_delete_eq.
Qed.

End Provider.

(** ** Failures seen by the views *)

Section Failures.
Context {rt : Runtime}.

Lemma handleApiError_without_response (e : Exn) :
  exn_response e = None -> exn_request e = true ->
  handleApiError e =
    JObj [("message", JStr "Network error. Please check your connection.");
          ("status", JNum 0)].
Proof. intros Hr Hq. unfold handleApiError. now rewrite Hr, Hq. Qed.

(** C4, amended: when no response arrives, every endpoint wrapper rejects
    with an error that has a request and no response, and handleApiError
    turns it into the message "Network error. Please check your
    connection." with status 0. *)
Theorem transport_failure_is_normalized :
  forall (call : ApiCall) (message : string) (w : World),
  exists e : Exn,
    fst (api_call call (NoResponse message) w) = Throw e /\
    exn_response e = None /\
    exn_request e = true /\
    handleApiError e =
      JObj [("message", JStr "Network error. Please check your connection.");
            ("status", JNum 0)].
Proof.
  intros call message w.
  destruct (api_call_run call (NoResponse message) w) as (config & _ & Hrun).
  cbv zeta in Hrun. rewrite Hrun. cbn [settle fst].
  eexists. split; [reflexivity |]. split; [reflexivity |].
  split; [reflexivity |]. now apply handleApiError_without_response.
Qed.

Lemma settle_401 (r : HttpResponse) :
  status r = 401 ->
  settle (GotResponse r) =
    Throw (AxiosError "Request failed with status code 401" true (Some r)).
Proof. intros H. unfold settle. rewrite H. reflexivity. Qed.

(** C2, amended: a response with status 401 to any endpoint wrapper rejects
    the call with the error that carries the response, after both
    credential keys were removed from storage and window.location.href was
    set to /login.  The interceptor does not touch the session in memory:
    the session is Anonymous after the page load that the navigation
    causes, and after a login or register call that received the 401. *)
Theorem unauthorized_response_clears_credentials :
  forall (call : ApiCall) (r : HttpResponse) (w : World) (payload : JsVal),
  status r = 401 ->
  let w' := snd (api_call call (GotResponse r) w) in
  fst (api_call call (GotResponse r) w) =
    Throw (AxiosError "Request failed with status code 401" true (Some r)) /\
  localStorage w' = delete "user" (delete "authToken" (localStorage w)) /\
  localStorage w' !! "authToken" = None /\
  localStorage w' !! "user" = None /\
  location_href w' = "/login" /\
  session w' = session w /\
  Anonymous (session (page_load (localStorage w') (location_href w'))) /\
  Anonymous (session (snd (login payload (GotResponse r) w))) /\
  Anonymous (session (snd (register payload (GotResponse r) w))).
Proof.
  intros call r w payload H401 w'. subst w'.
  destruct (api_call_run call (GotResponse r) w) as (config & _ & Hrun).
  cbv zeta in Hrun. rewrite Hrun, (settle_401 _ H401).
  cbn [fst snd localStorage location_href session is_unauthorized exn_response].
  rewrite H401. cbn [Z.eqb Pos.eqb].
  assert ((delete "user" (delete "authToken" (localStorage w)))
            !! "authToken" = None) as Hnone.
  { rewrite lookup_delete_ne by discriminate. apply lookup_delete_eq. }
  repeat (split; [first [reflexivity | exact Hnone | apply lookup_delete_eq] |]).
  split; [now apply page_load_without_token |].
  split.
  - destruct (login_run payload (GotResponse r) w) as (cfg & _ & Hcfg);
      cbv zeta in Hcfg; rewrite Hcfg; clear Hcfg.
    rewrite (settle_401 _ H401). cbn [snd session]. repeat split.
  - destruct (register_run payload (GotResponse r) w) as (cfg & _ & Hcfg);
      cbv zeta in Hcfg; rewrite Hcfg; clear Hcfg.
    rewrite (settle_401 _ H401). cbn [snd session]. repeat split.
Qed.

Lemma settle_other_status (r : HttpResponse) :
  ~ (200 <= status r < 300) ->
  settle (GotResponse r) =
    Throw (AxiosError ("Request failed with status code " ++ pretty (status r))
             true (Some r)).
Proof.
  intros Hst. unfold settle.
  destruct (200 <=? status r) eqn:Hlo; [| reflexivity].
  destruct (status r <? 300) eqn:Hhi; [| reflexivity].
  apply Z.leb_le in Hlo. apply Z.ltb_lt in Hhi. lia.
Qed.

(** X4.  An error status other than 401 passes through the API client: the call
    rejects with the error that carries the response, nothing in storage,
    location, session or console changes, and handleApiError gives the
    message of the response (or its fallback), the status and the payload. *)
Theorem other_error_status_passes_through :
  forall (call : ApiCall) (r : HttpResponse) (w : World),
  ~ (200 <= status r < 300) -> status r <> 401 ->
  let w' := snd (api_call call (GotResponse r) w) in
  exists e : Exn,
    fst (api_call call (GotResponse r) w) = Throw e /\
    exn_response e = Some r /\
    localStorage w' = localStorage w /\
    location_href w' = location_href w /\
    session w' = session w /\
    console w' = console w /\
    handleApiError e =
      JObj [("message",
             if truthy (opt_member (data r) "error")
             then opt_member (data r) "error"
             else JStr "An error occurred");
            ("status", JNum (status r));
            ("details", data r)].
Proof.
  intros call r w Hst H401 w'. subst w'.
  destruct (api_call_run call (GotResponse r) w) as (config & _ & Hrun).
  cbv zeta in Hrun. rewrite Hrun, (settle_other_status _ Hst).
  cbn [fst snd localStorage location_href session console
       is_unauthorized exn_response].
  apply Z.eqb_neq in H401. rewrite H401.
  eexists. repeat split.
Qed.

End Failures.

(** ** The invariant of the session store *)

Section Invariant.
Context {rt : Runtime}.

(** The session a step leaves behind is the session it found, or the
    reducer applied to it, with a payload the dispatch site built. *)
Lemma step_session (w : World) (ev : Event) :
  session (step w ev) = session w \/
  session (step w ev) = authReducer (session w) LOGIN_START \/
  session (step w ev) = authReducer (session w) CLEAR_ERROR \/
  (exists msg, session (step w ev) =
     authReducer (authReducer (session w) LOGIN_START) (LOGIN_FAILURE msg)) \/
  session (step w ev) = authReducer (session w) LOGOUT \/
  session (step w ev) =
    authReducer (session w) (LOAD_USER_FROM_STORAGE JNull JNull) \/
  (exists tok text v,
     localStorage w !! "user" = Some text /\ tok <> "" /\
     JSON_parse text = Some v /\ ev = EvRestore /\
     session (step w ev) =
       authReducer (session w) (LOAD_USER_FROM_STORAGE v (JStr tok))) \/
  (exists response,
     (exists payload net,
        (ev = EvLogin payload net \/ ev = EvRegister payload net) /\
        settle net = Normal response) /\
     nullish (data response) = false /\
     session (step w ev) =
       authReducer (authReducer (session w) LOGIN_START)
         (LOGIN_SUCCESS (member (data response) "user")
                        (member (data response) "token"))).
Proof.
  destruct ev as [| |payload net|payload net| | |call net]; cbn [step].
  - rewrite restore_run. cbn [snd].
    destruct (truthy (storage_item (localStorage w) "authToken")) eqn:Ht;
      [| cbn [andb session]; tauto].
    destruct (truthy (storage_item (localStorage w) "user")) eqn:Hu;
      [| cbn [andb session]; tauto].
    apply truthy_item in Ht as (tok & Ht & Hne).
    apply truthy_item in Hu as (text & Hu & Hne').
    rewrite (storage_item_some _ _ _ Ht), (storage_item_some _ _ _ Hu).
    cbn [andb to_String].
    destruct (JSON_parse text) as [v|] eqn:Hp; cbn [session]; [| tauto].
    do 6 right. left. exists tok, text, v. repeat split; assumption.
  - right. left. reflexivity.
  - destruct (login_run payload net w) as (cfg & _ & Hcfg);
      cbv zeta in Hcfg; rewrite Hcfg; clear Hcfg.
    destruct (settle net) as [response|e] eqn:Hs.
    + destruct (nullish (data response)) eqn:Hd; cbn [snd session].
      * do 3 right. left. eexists. reflexivity.
      * do 7 right. exists response. repeat split; [| assumption].
        exists payload, net. split; [left; reflexivity | assumption].
    + cbn [snd session]. do 3 right. left. eexists. reflexivity.
  - destruct (register_run payload net w) as (cfg & _ & Hcfg);
      cbv zeta in Hcfg; rewrite Hcfg; clear Hcfg.
    destruct (settle net) as [response|e] eqn:Hs.
    + destruct (nullish (data response)) eqn:Hd; cbn [snd session].
      * do 3 right. left. eexists. reflexivity.
      * do 7 right. exists response. repeat split; [| assumption].
        exists payload, net. split; [right; reflexivity | assumption].
    + cbn [snd session]. do 3 right. left. eexists. reflexivity.
  - do 4 right. left. reflexivity.
  - do 2 right. left. reflexivity.
  - left. destruct (api_call_run call net w) as (config & _ & Hrun).
    cbv zeta in Hrun. rewrite Hrun. destruct (settle net); reflexivity.
Qed.

Lemma run_cons (w : World) (ev : Event) (evs : list Event) :
  run w (ev :: evs) = run (step w ev) evs.
Proof. reflexivity. Qed.

(** X2.  A session that is not marked authenticated holds neither user nor
    token, whatever the server and the storage supplied. *)
Lemma unauthenticated_session_is_empty
    (storage : gmap string string) (href : string) (evs : list Event) :
  let s := session (run (mount storage href) evs) in
  isAuthenticated s = false -> user s = JNull /\ token s = JNull.
Proof.
  cbv zeta.
  assert (forall w : World,
            (isAuthenticated (session w) = false ->
             user (session w) = JNull /\ token (session w) = JNull) ->
            isAuthenticated (session (run w evs)) = false ->
            user (session (run w evs)) = JNull /\
            token (session (run w evs)) = JNull) as Hgen.
  { induction evs as [|ev evs IH]; intros w Hw; [exact Hw |].
    rewrite run_cons. apply IH.
    destruct (step_session w ev)
      as [-> | [-> | [-> | [(msg & ->) | [-> | [-> | [H | H]]]]]]];
      try exact Hw; try (cbn; intros _; split; reflexivity).
    - destruct H as (tok & text & v & _ & Hne & _ & _ & ->).
      cbn [authReducer isAuthenticated]. rewrite (truthy_nonempty _ Hne).
      discriminate.
    - destruct H as (response & _ & _ & ->). cbn. discriminate. }
  apply Hgen. cbn. intros _. split; reflexivity.
Qed.

(** C1, amended: along every run from the mounted provider in which each
    successful login or registration response carries a user and a token
    and the mount effect does not read a stored user that parses to null,
    isAuthenticated is true exactly when user and token are both present. *)
Theorem authenticated_iff_user_and_token :
  forall (storage : gmap string string) (href : string) (evs : list Event),
  well_formed_run (mount storage href) evs = true ->
  let s := session (run (mount storage href) evs) in
  isAuthenticated s = true <-> present (user s) /\ present (token s).
Proof.
  intros storage href evs Hwf. cbv zeta.
  assert (forall w : World,
            (isAuthenticated (session w) = true <->
             present (user (session w)) /\ present (token (session w))) ->
            well_formed_run w evs = true ->
            (isAuthenticated (session (run w evs)) = true <->
             present (user (session (run w evs))) /\
             present (token (session (run w evs))))) as Hgen.
  { clear Hwf. induction evs as [|ev evs IH]; intros w Hw Hwf; [exact Hw |].
    cbn [well_formed_run] in Hwf. apply andb_true_iff in Hwf as [Hev Hrest].
    rewrite run_cons. apply IH; [| exact Hrest].
    destruct (step_session w ev)
      as [-> | [-> | [-> | [(msg & ->) | [-> | [-> | [H | H]]]]]]];
      try exact Hw;
      try (cbn; unfold present; cbn; split;
           [discriminate | intros [H _]; discriminate]).
    - destruct H as (tok & text & v & Hu & Hne & Hp & -> & ->).
      cbn [well_formed_event] in Hev. rewrite Hu, Hp in Hev.
      apply negb_true_iff in Hev.
      cbn [authReducer isAuthenticated user token].
      rewrite (truthy_nonempty _ Hne). unfold present. cbn [nullish].
      split; [intros _; split; [exact Hev | reflexivity] | reflexivity].
    - destruct H as (response & (payload & net & Hkind & Hs) & _ & ->).
      assert (carries_credentials (data response) = true) as Hc.
      { destruct Hkind as [-> | ->]; cbn [well_formed_event] in Hev;
          now rewrite Hs in Hev. }
      unfold carries_credentials in Hc.
      apply andb_true_iff in Hc as [Hc Htok].
      apply andb_true_iff in Hc as [_ Husr].
      apply negb_true_iff in Htok, Husr.
      cbn [authReducer isAuthenticated user token]. unfold present.
      split; [intros _; split; assumption | reflexivity]. }
  apply Hgen; [| exact Hwf].
  cbn. unfold present. cbn. split; [discriminate | intros [H _]; discriminate].
Qed.

End Invariant.

(** ** The reference codec reads back what it writes *)

Lemma string_app_assoc (a b c : string) : (a ++ b) ++ c = a ++ (b ++ c).
Proof.
  induction a as [|x a IH]; [reflexivity |].
  change (String x ((a ++ b) ++ c) = String x (a ++ (b ++ c))).
  now rewrite IH.
Qed.

Lemma string_app_cons (x : ascii) (a b : string) :
  String x a ++ b = String x (a ++ b).
Proof. reflexivity. Qed.

Lemma parse_escaped_char (c : ascii) (text : string) :
  parse_string_body (escape_char c ++ text) =
    match parse_string_body text with
    | Some (chars, tail) => Some (String c chars, tail)
    | None => None
    end.
Proof.
  destruct c as [[] [] [] [] [] [] [] []]; reflexivity.
Qed.

Lemma parse_quoted_chars (s rest : string) :
  parse_string_body (quote_chars s ++ String dquote rest) = Some (s, rest).
Proof.
  induction s as [|c s IH].
  - reflexivity.
  - cbn [quote_chars]. rewrite string_app_assoc, parse_escaped_char, IH.
    reflexivity.
Qed.

Lemma small_N_cases (d : N) :
  (d < 10)%N ->
  d = 0%N \/ d = 1%N \/ d = 2%N \/ d = 3%N \/ d = 4%N \/
  d = 5%N \/ d = 6%N \/ d = 7%N \/ d = 8%N \/ d = 9%N.
Proof. lia. Qed.

Lemma take_digits_char (d : N) (s : string) (acc : Z) :
  (d < 10)%N ->
  take_digits (String (pretty_N_char d) s) acc =
    take_digits s (acc * 10 + Z.of_N d).
Proof.
  intros Hd.
  destruct (small_N_cases d Hd)
    as [-> | [-> | [-> | [-> | [-> | [-> | [-> | [-> | [-> | ->]]]]]]]]];
    reflexivity.
Qed.

Lemma take_digits_end (rest : string) (acc : Z) :
  number_end rest = true -> take_digits rest acc = (acc, rest).
Proof.
  destruct rest as [|d rest]; [reflexivity |].
  cbn [number_end take_digits]. intros H.
  apply negb_true_iff in H.
  destruct (is_digit d); [discriminate | reflexivity].
Qed.

Lemma pretty_N_go_app (x : N) (s r : string) :
  pretty_N_go x s ++ r = pretty_N_go x (s ++ r).
Proof.
  revert s. induction (N.lt_wf_0 x) as [x _ IH]; intros s.
  destruct (N.eq_dec x 0%N) as [-> | Hx].
  - now rewrite !pretty_N_go_0.
  - rewrite (pretty_N_go_step x s), (pretty_N_go_step x (s ++ r)) by lia.
    rewrite IH by (apply N.div_lt; lia). reflexivity.
Qed.

Lemma take_digits_pretty (x : N) (s : string) :
  (0 < x)%N ->
  take_digits (pretty_N_go x s) 0 = take_digits s (Z.of_N x).
Proof.
  revert s. induction (N.lt_wf_0 x) as [x _ IH]; intros s Hx.
  rewrite pretty_N_go_step by exact Hx.
  assert (x `mod` 10 < 10)%N as Hm by (apply N.mod_lt; lia).
  destruct (N.eq_dec (x `div` 10)%N 0%N) as [H0 | Hpos].
  - rewrite H0, pretty_N_go_0, take_digits_char by exact Hm.
    f_equal. pose proof (N.div_mod x 10). lia.
  - assert (x `div` 10 < x)%N as Hlt by (apply N.div_lt; lia).
    assert (0 < x `div` 10)%N as Hq by (apply N.neq_0_lt_0; exact Hpos).
    rewrite (IH _ Hlt _ Hq).
    rewrite take_digits_char by exact Hm.
    f_equal. pose proof (N.div_mod x 10). lia.
Qed.

(** A positive numeral starts with a digit that is not zero. *)
Lemma pretty_N_go_head (x : N) (s : string) :
  (0 < x)%N ->
  exists (d : N) (t : string),
    (0 < d < 10)%N /\ pretty_N_go x s = String (pretty_N_char d) t.
Proof.
  revert s. induction (N.lt_wf_0 x) as [x _ IH]; intros s Hx.
  rewrite pretty_N_go_step by exact Hx.
  destruct (N.eq_dec (x `div` 10)%N 0%N) as [H0 | Hpos].
  - rewrite H0, pretty_N_go_0. exists (x `mod` 10)%N, s.
    split; [| reflexivity].
    pose proof (N.div_mod x 10). pose proof (N.mod_lt x 10). lia.
  - apply IH; [apply N.div_lt; lia | apply N.neq_0_lt_0; exact Hpos].
Qed.

Lemma string_app_nil_l (a : string) : "" ++ a = a.
Proof. reflexivity. Qed.

Lemma pretty_Zpos (p : positive) :
  pretty (Zpos p) = pretty_N_go (Npos p) "".
Proof. reflexivity. Qed.

Lemma pretty_Zneg (p : positive) :
  pretty (Zneg p) = String "-" (pretty_N_go (Npos p) "").
Proof. reflexivity. Qed.

Lemma parse_positive_numeral (p : positive) (rest : string) (negative : bool) :
  number_end rest = true ->
  exists (c : ascii) (t : string),
    pretty_N_go (Npos p) "" ++ rest = String c t /\
    (nat_of_ascii c =? 45)%nat = false /\
    is_digit c = true /\
    (nat_of_ascii c =? 48)%nat = false /\
    take_digits (String c t) 0 = (Zpos p, rest).
Proof.
  intros Hend.
  destruct (pretty_N_go_head (Npos p) "" eq_refl) as (d & t & Hd & Heq).
  exists (pretty_N_char d), (t ++ rest).
  split; [now rewrite Heq |].
  assert (take_digits (String (pretty_N_char d) (t ++ rest)) 0
          = (Zpos p, rest)) as Htake.
  { rewrite <- string_app_cons, <- Heq, pretty_N_go_app, string_app_nil_l.
    rewrite take_digits_pretty by reflexivity.
    now apply take_digits_end. }
  destruct (small_N_cases d (proj2 Hd))
    as [-> | [-> | [-> | [-> | [-> | [-> | [-> | [-> | [-> | ->]]]]]]]]];
    try (destruct Hd as [Hd _]; discriminate Hd);
    repeat split; try reflexivity; exact Htake.
Qed.

Lemma parse_number_pretty (n : Z) (rest : string) :
  number_end rest = true ->
  parse_number (pretty n ++ rest) = Some (n, rest).
Proof.
  intros Hend. destruct n as [|p|p].
  - change (pretty 0 ++ rest) with (String "0" rest).
    unfold parse_number, number_end in *.
    change (nat_of_ascii "0" =? 45)%nat with false. cbv beta iota zeta.
    change (is_digit "0") with true.
    change (nat_of_ascii "0" =? 48)%nat with true. cbv beta iota zeta.
    destruct rest as [|d rest]; [reflexivity |].
    cbv beta iota zeta in Hend |- *. now rewrite Hend.
  - rewrite pretty_Zpos.
    destruct (parse_positive_numeral p rest false Hend)
      as (c & t & -> & H45 & Hdig & H48 & Htake).
    unfold parse_number. rewrite H45. cbv beta iota zeta.
    rewrite Hdig, H48, Htake. cbv beta iota zeta.
    unfold number_end in Hend.
    destruct rest as [|d rest]; [reflexivity |].
    cbv beta iota zeta in Hend |- *. now rewrite Hend.
  - rewrite pretty_Zneg, string_app_cons.
    destruct (parse_positive_numeral p rest true Hend)
      as (c & t & -> & H45 & Hdig & H48 & Htake).
    unfold parse_number.
    change (nat_of_ascii "-" =? 45)%nat with true. cbv beta iota zeta.
    rewrite Hdig, H48, Htake. cbv beta iota zeta.
    unfold number_end in Hend.
    destruct rest as [|d rest]; [reflexivity |].
    cbv beta iota zeta in Hend |- *. now rewrite Hend.
Qed.

Lemma value_end_number_end (rest : string) :
  value_end rest = true -> number_end rest = true.
Proof.
  destruct rest as [|d rest]; [reflexivity |].
  unfold value_end, number_end, is_digit. cbv beta zeta.
  intros H. apply orb_true_iff in H as [H | H];
    [apply orb_true_iff in H as [H | H] |];
    apply Nat.eqb_eq in H; rewrite H; reflexivity.
Qed.

Lemma parse_value_head (fuel : nat) (c : ascii) (rest : string) :
  is_ws c = false ->
  parse_value (S fuel) (String c rest) =
    let n := nat_of_ascii c in
    if (n =? 123)%nat then
      match skip_ws rest with
      | String c' tail =>
          if (nat_of_ascii c' =? 125)%nat then Some (JObj [], tail)
          else parse_members fuel rest []
      | EmptyString => None
      end
    else if (n =? 91)%nat then
      match skip_ws rest with
      | String c' tail =>
          if (nat_of_ascii c' =? 93)%nat then Some (JArr [], tail)
          else parse_elements fuel rest []
      | EmptyString => None
      end
    else if Ascii.eqb c dquote then
      match parse_string_body rest with
      | Some (chars, tail) => Some (JStr chars, tail)
      | None => None
      end
    else
      match strip_prefix "null" (String c rest) with
      | Some tail => Some (JNull, tail)
      | None =>
          match strip_prefix "true" (String c rest) with
          | Some tail => Some (JBool true, tail)
          | None =>
              match strip_prefix "false" (String c rest) with
              | Some tail => Some (JBool false, tail)
              | None =>
                  match parse_number (String c rest) with
                  | Some (k, tail) => Some (JNum k, tail)
                  | None => None
                  end
              end
          end
      end.
Proof.
  intros Hws. cbn [parse_value skip_ws]. rewrite Hws. reflexivity.
Qed.

Lemma parse_value_numeral (fuel : nat) (n : Z) (rest : string) :
  value_end rest = true ->
  parse_value (S fuel) (pretty n ++ rest) = Some (JNum n, rest).
Proof.
  intros Hend. apply value_end_number_end in Hend.
  pose proof (parse_number_pretty n rest Hend) as Hnum.
  assert (exists c t, pretty n ++ rest = String c t /\
                      (c = "-"%char \/ exists d, (d < 10)%N /\ c = pretty_N_char d))
    as (c & t & Heq & Hc).
  { destruct n as [|p|p].
    - exists "0"%char, rest. split; [reflexivity |]. right. now exists 0%N.
    - rewrite pretty_Zpos.
      destruct (pretty_N_go_head (Npos p) "" eq_refl) as (d & t & Hd & ->).
      exists (pretty_N_char d), (t ++ rest). split; [reflexivity |].
      right. exists d. split; [lia | reflexivity].
    - rewrite pretty_Zneg. eexists _, _. split; [reflexivity |]. now left. }
  rewrite Heq in Hnum |- *.
  assert (is_ws c = false /\ (nat_of_ascii c =? 123)%nat = false /\
          (nat_of_ascii c =? 91)%nat = false /\ Ascii.eqb c dquote = false /\
          strip_prefix "null" (String c t) = None /\
          strip_prefix "true" (String c t) = None /\
          strip_prefix "false" (String c t) = None)
    as (Hws & H123 & H91 & Hdq & Hnull & Htrue & Hfalse).
  { destruct Hc as [-> | (d & Hd & ->)]; [repeat split |].
    destruct (small_N_cases d Hd)
      as [-> | [-> | [-> | [-> | [-> | [-> | [-> | [-> | [-> | ->]]]]]]]]];
      repeat split. }
  rewrite (parse_value_head _ _ _ Hws). cbv zeta.
  rewrite H123, H91, Hdq, Hnull, Htrue, Hfalse, Hnum. reflexivity.
Qed.

Lemma parse_value_string (fuel : nat) (s rest : string) :
  parse_value (S fuel) (quote s ++ rest) = Some (JStr s, rest).
Proof.
  unfold quote. rewrite string_app_cons, string_app_assoc, string_app_cons.
  rewrite parse_value_head by reflexivity. cbv zeta.
  change (nat_of_ascii dquote =? 123)%nat with false.
  change (nat_of_ascii dquote =? 91)%nat with false.
  change (Ascii.eqb dquote dquote) with true. cbv iota.
  rewrite string_app_nil_l, parse_quoted_chars. reflexivity.
Qed.

Lemma parse_value_literal (fuel : nat) (rest : string) :
  parse_value (S fuel) ("null" ++ rest) = Some (JNull, rest) /\
  parse_value (S fuel) ("true" ++ rest) = Some (JBool true, rest) /\
  parse_value (S fuel) ("false" ++ rest) = Some (JBool false, rest).
Proof. repeat split. Qed.

Lemma stringify_array (items : list JsVal) :
  ref_stringify (JArr items) =
    Some ("[" ++ join "," (map element_text items) ++ "]").
Proof. reflexivity. Qed.

Lemma clean_stringify (v : JsVal) :
  json_clean v = true -> ref_stringify v = Some (element_text v).
Proof.
  unfold element_text. destruct v as [| |[]| | | |]; cbn [json_clean ref_stringify];
    intros H; try discriminate; reflexivity.
Qed.

Lemma stringify_object (fields : list (string * JsVal)) :
  forallb (fun kv => match kv with (_, x) => json_clean x end) fields = true ->
  ref_stringify (JObj fields) =
    Some ("{" ++ join "," (map member_text fields) ++ "}").
Proof.
  intros Hclean. cbn [ref_stringify].
  assert (flat_map
            (fun kv : string * JsVal =>
               match kv with
               | (k, x) =>
                   match ref_stringify x with
                   | Some text => [quote k ++ ":" ++ text]
                   | None => []
                   end
               end) fields = map member_text fields) as ->; [| reflexivity].
  induction fields as [|[k x] fields IH]; [reflexivity |].
  cbn [forallb] in Hclean. apply andb_true_iff in Hclean as [Hx Hrest].
  cbn [flat_map map member_text]. rewrite (clean_stringify x Hx).
  cbn [List.app]. f_equal. apply IH, Hrest.
Qed.

Lemma numeral_head (n : Z) :
  exists c t, pretty n = String c t /\
              (c = "-"%char \/ exists d, (d < 10)%N /\ c = pretty_N_char d).
Proof.
  destruct n as [|p|p].
  - exists "0"%char, "". split; [reflexivity |]. right. now exists 0%N.
  - rewrite pretty_Zpos.
    destruct (pretty_N_go_head (Npos p) "" eq_refl) as (d & t & Hd & ->).
    exists (pretty_N_char d), t. split; [reflexivity |].
    right. exists d. split; [lia | reflexivity].
  - rewrite pretty_Zneg. eexists _, _. split; [reflexivity |]. now left.
Qed.

(** The text of a value starts with a character that is neither white
    space nor a closing bracket. *)
Lemma element_text_head (v : JsVal) :
  json_clean v = true ->
  exists c t, element_text v = String c t /\
              is_ws c = false /\
              (nat_of_ascii c =? 93)%nat = false /\
              (nat_of_ascii c =? 125)%nat = false.
Proof.
  unfold element_text.
  destruct v as [| |[]|n|s|items|fields]; cbn [json_clean ref_stringify];
    intros H; try discriminate;
    try (eexists _, _; split; [reflexivity | repeat split]).
  destruct (numeral_head n) as (c & t & -> & Hc).
  exists c, t. split; [reflexivity |].
  destruct Hc as [-> | (d & Hd & ->)]; [repeat split |].
  destruct (small_N_cases d Hd)
    as [-> | [-> | [-> | [-> | [-> | [-> | [-> | [-> | [-> | ->]]]]]]]]];
    repeat split.
Qed.

Lemma parse_elements_step (fuel : nat) (s : string) (acc : list JsVal) :
  parse_elements (S fuel) s acc =
    match parse_value fuel s with
    | Some (v, tail) =>
        match skip_ws tail with
        | String c tail' =>
            if (nat_of_ascii c =? 44)%nat
            then parse_elements fuel tail' (acc ++ [v])
            else if (nat_of_ascii c =? 93)%nat
                 then Some (JArr (acc ++ [v]), tail')
                 else None
        | EmptyString => None
        end
    | None => None
    end.
Proof. reflexivity. Qed.

Lemma parse_members_step (fuel : nat) (k : string) (s : string)
    (acc : list (string * JsVal)) :
  parse_members (S fuel) (quote k ++ String ":" s) acc =
    match parse_value fuel s with
    | Some (v, tail'') =>
        match skip_ws tail'' with
        | String d tail3 =>
            if (nat_of_ascii d =? 44)%nat
            then parse_members fuel tail3 (set_field k v acc)
            else if (nat_of_ascii d =? 125)%nat
                 then Some (JObj (set_field k v acc), tail3)
                 else None
        | EmptyString => None
        end
    | None => None
    end.
Proof.
  unfold quote. rewrite string_app_cons, string_app_assoc, string_app_cons.
  rewrite string_app_nil_l.
  cbn [parse_members skip_ws]. change (is_ws dquote) with false. cbv iota.
  change (Ascii.eqb dquote dquote) with true. cbv iota.
  rewrite parse_quoted_chars. reflexivity.
Qed.

Lemma set_field_fresh (k : string) (v : JsVal) (acc : list (string * JsVal)) :
  ~ In k (map fst acc) -> set_field k v acc = (acc ++ [(k, v)])%list.
Proof.
  induction acc as [|[k' v'] acc IH]; intros Hk; [reflexivity |].
  cbn [set_field]. destruct (String.eqb_spec k k') as [-> | Hne].
  - exfalso. apply Hk. now left.
  - cbn [List.app]. f_equal. apply IH. intros Hin. apply Hk. now right.
Qed.

Lemma distinct_keys_NoDup (keys : list string) :
  distinct_keys keys = true -> List.NoDup keys.
Proof.
  induction keys as [|k keys IH]; intros H; [constructor |].
  cbn [distinct_keys] in H. apply andb_true_iff in H as [Hk Hrest].
  constructor; [| now apply IH].
  intros Hin. apply negb_true_iff in Hk.
  assert (existsb (String.eqb k) keys = true) as Hex.
  { apply existsb_exists. exists k. split; [exact Hin | apply String.eqb_refl]. }
  congruence.
Qed.

Section Composite.
Variable bound : nat.
Hypothesis parse_smaller :
  forall (v : JsVal) (rest : string) (fuel : nat),
    (json_size v <= bound)%nat -> json_clean v = true ->
    (json_size v <= fuel)%nat -> value_end rest = true ->
    parse_value fuel (element_text v ++ rest) = Some (v, rest).

Lemma parse_elements_stringify :
  forall (items acc : list JsVal) (fuel : nat) (rest : string),
    items <> [] -> forallb json_clean items = true ->
    (elements_size items <= fuel)%nat ->
    (elements_size items <= bound)%nat ->
    parse_elements fuel
      (join "," (map element_text items) ++ String "]" rest) acc
    = Some (JArr (acc ++ items), rest).
Proof.
  induction items as [|x items IH]; intros acc fuel rest Hne Hclean Hfuel Hbound;
    [contradiction |].
  cbn [forallb] in Hclean. apply andb_true_iff in Hclean as [Hx Hrest].
  cbn [elements_size fold_right] in Hfuel, Hbound.
  fold (elements_size items) in Hfuel, Hbound.
  destruct fuel as [|fuel]; [lia |].
  rewrite parse_elements_step.
  destruct items as [|y items].
  - cbn [map join].
    rewrite parse_smaller by first [lia | assumption | reflexivity].
    reflexivity.
  - cbn [map join]. rewrite !string_app_assoc.
    change ("," ++ ?s) with (String "," s).
    rewrite parse_smaller by first [lia | assumption | reflexivity].
    cbn [skip_ws]. change (is_ws ",") with false. cbv iota.
    change (nat_of_ascii "," =? 44)%nat with true. cbv iota.
    replace (acc ++ x :: y :: items)%list
      with ((acc ++ [x]) ++ y :: items)%list
      by (now rewrite <- List.app_assoc).
    apply IH; first [discriminate | assumption | lia].
Qed.

Lemma parse_members_stringify :
  forall (fields acc : list (string * JsVal)) (fuel : nat) (rest : string),
    fields <> [] ->
    forallb (fun kv => match kv with (_, x) => json_clean x end) fields = true ->
    List.NoDup (map fst acc ++ map fst fields) ->
    (members_size fields <= fuel)%nat ->
    (members_size fields <= bound)%nat ->
    parse_members fuel
      (join "," (map member_text fields) ++ String "}" rest) acc
    = Some (JObj (acc ++ fields), rest).
Proof.
  induction fields as [|[k x] fields IH];
    intros acc fuel rest Hne Hclean Hdup Hfuel Hbound; [contradiction |].
  cbn [forallb] in Hclean. apply andb_true_iff in Hclean as [Hx Hrest].
  cbn [members_size fold_right] in Hfuel, Hbound.
  fold (members_size fields) in Hfuel, Hbound.
  cbn [map fst] in Hdup.
  assert (~ In k (map fst acc)) as Hfresh.
  { apply List.NoDup_remove_2 in Hdup. intros Hin. apply Hdup.
    apply List.in_or_app. now left. }
  destruct fuel as [|fuel]; [lia |].
  destruct fields as [|kv fields].
  - cbn [map join member_text]. rewrite !string_app_assoc.
    change (":" ++ ?s) with (String ":" s).
    rewrite parse_members_step.
    rewrite parse_smaller by first [lia | assumption | reflexivity].
    rewrite (set_field_fresh _ _ _ Hfresh). reflexivity.
  - cbn [map join]. unfold member_text at 1. rewrite !string_app_assoc.
    change (":" ++ ?s) with (String ":" s).
    change ("," ++ ?s) with (String "," s).
    rewrite parse_members_step.
    rewrite parse_smaller by first [lia | assumption | reflexivity].
    cbn [skip_ws]. change (is_ws ",") with false. cbv iota.
    change (nat_of_ascii "," =? 44)%nat with true. cbv iota.
    rewrite (set_field_fresh _ _ _ Hfresh).
    replace (acc ++ (k, x) :: kv :: fields)%list
      with ((acc ++ [(k, x)]) ++ kv :: fields)%list
      by (now rewrite <- List.app_assoc).
    apply IH; try first [discriminate | assumption | lia].
    rewrite List.map_app, <- List.app_assoc. exact Hdup.
Qed.

End Composite.

Lemma json_size_pos (v : JsVal) : (1 <= json_size v)%nat.
Proof. destruct v; cbn [json_size]; lia. Qed.

Lemma string_head_app (c : ascii) (t s r : string) :
  s = String c t -> s ++ r = String c (t ++ r).
Proof. intros ->. reflexivity. Qed.

(** A value is read back from its text, whatever follows it. *)
Lemma parse_value_element_text (bound : nat) :
  forall (v : JsVal) (rest : string) (fuel : nat),
    (json_size v <= bound)%nat -> json_clean v = true ->
    (json_size v <= fuel)%nat -> value_end rest = true ->
    parse_value fuel (element_text v ++ rest) = Some (v, rest).
Proof.
  induction bound as [|bound IH]; intros v rest fuel Hbound Hclean Hfuel Hend.
  { pose proof (json_size_pos v). lia. }
  destruct fuel as [|fuel]; [pose proof (json_size_pos v); lia |].
  destruct v as [| |b|n|s|items|fields].
  - discriminate Hclean.
  - apply (parse_value_literal fuel rest).
  - destruct b; apply (parse_value_literal fuel rest).
  - now apply parse_value_numeral.
  - apply parse_value_string.
  - unfold element_text. rewrite stringify_array.
    cbn [json_clean] in Hclean. cbn [json_size] in Hbound, Hfuel.
    fold (elements_size items) in Hbound, Hfuel.
    rewrite !string_app_assoc. change ("[" ++ ?s) with (String "[" s).
    change ("]" ++ ?s) with (String "]" s).
    rewrite parse_value_head by reflexivity. cbv zeta.
    change (nat_of_ascii "[" =? 123)%nat with false.
    change (nat_of_ascii "[" =? 91)%nat with true. cbv iota.
    destruct items as [|x items]; [reflexivity |].
    assert (exists c t,
              join "," (map element_text (x :: items)) ++ String "]" rest
              = String c t /\ is_ws c = false /\
              (nat_of_ascii c =? 93)%nat = false) as (c & t & Heq & Hws & H93).
    { cbn [forallb] in Hclean. apply andb_true_iff in Hclean as [Hx _].
      destruct (element_text_head x Hx) as (c & t & Hhead & Hws & H93 & _).
      exists c. destruct items as [|y items]; cbn [map join].
      - eexists. split; [apply (string_head_app c t _ _ Hhead) | now split].
      - rewrite !string_app_assoc.
        eexists. split; [apply (string_head_app c t _ _ Hhead) | now split]. }
    rewrite Heq at 1. cbn [skip_ws]. rewrite Hws, H93.
    apply (parse_elements_stringify bound IH (x :: items) []);
      first [discriminate | assumption | lia].
  - unfold element_text.
    cbn [json_clean] in Hclean. apply andb_true_iff in Hclean as [Hkeys Hclean].
    rewrite (stringify_object fields Hclean).
    cbn [json_size] in Hbound, Hfuel.
    fold (members_size fields) in Hbound, Hfuel.
    rewrite !string_app_assoc. change ("{" ++ ?s) with (String "{" s).
    change ("}" ++ ?s) with (String "}" s).
    rewrite parse_value_head by reflexivity. cbv zeta.
    change (nat_of_ascii "{" =? 123)%nat with true. cbv iota.
    destruct fields as [|[k x] fields]; [reflexivity |].
    assert (exists t,
              join "," (map member_text ((k, x) :: fields)) ++ String "}" rest
              = String dquote t) as (t & Heq).
    { destruct fields as [|kv fields]; cbn [map join member_text]; unfold quote;
        rewrite !string_app_assoc; eexists; reflexivity. }
    rewrite Heq at 1. cbn [skip_ws]. change (is_ws dquote) with false. cbv iota.
    change (nat_of_ascii dquote =? 125)%nat with false. cbv iota.
    apply (parse_members_stringify bound IH ((k, x) :: fields) []);
      try first [discriminate | assumption | lia].
    cbn [List.app]. now apply distinct_keys_NoDup.
Qed.

Lemma string_app_nil_r (a : string) : a ++ "" = a.
Proof.
  induction a as [|x a IH]; [reflexivity |].
  change (String x (a ++ "") = String x a). now rewrite IH.
Qed.

Lemma string_length_app (a b : string) :
  String.length (a ++ b) = (String.length a + String.length b)%nat.
Proof.
  induction a as [|x a IH]; [reflexivity |].
  change (S (String.length (a ++ b)) = S (String.length a + String.length b)).
  now rewrite IH.
Qed.

Section Sizes.
Variable bound : nat.
Hypothesis smaller_fits :
  forall v : JsVal,
    (json_size v <= bound)%nat -> json_clean v = true ->
    (json_size v <= 2 * String.length (element_text v))%nat.

Lemma elements_size_fits (items : list JsVal) :
  forallb json_clean items = true ->
  (elements_size items <= bound)%nat ->
  (elements_size items
   <= 2 * String.length (join "," (map element_text items)) + 1)%nat.
Proof.
  induction items as [|x items IH]; intros Hclean Hbound; [cbn; lia |].
  cbn [forallb] in Hclean. apply andb_true_iff in Hclean as [Hx Hrest].
  cbn [elements_size fold_right] in Hbound |- *.
  fold (elements_size items) in Hbound |- *.
  pose proof (smaller_fits x ltac:(lia) Hx) as Hfit.
  destruct items as [|y items].
  - cbn [map join elements_size fold_right]. lia.
  - specialize (IH Hrest ltac:(lia)).
    cbn [map join] in IH |- *. rewrite !string_length_app.
    change (String.length ",") with 1%nat. lia.
Qed.

Lemma members_size_fits (fields : list (string * JsVal)) :
  forallb (fun kv => match kv with (_, x) => json_clean x end) fields = true ->
  (members_size fields <= bound)%nat ->
  (members_size fields
   <= 2 * String.length (join "," (map member_text fields)) + 1)%nat.
Proof.
  induction fields as [|[k x] fields IH]; intros Hclean Hbound; [cbn; lia |].
  cbn [forallb] in Hclean. apply andb_true_iff in Hclean as [Hx Hrest].
  cbn [members_size fold_right] in Hbound |- *.
  fold (members_size fields) in Hbound |- *.
  pose proof (smaller_fits x ltac:(lia) Hx) as Hfit.
  assert (String.length (element_text x)
          <= String.length (member_text (k, x)))%nat as Hlen.
  { cbn [member_text]. rewrite !string_length_app. lia. }
  destruct fields as [|kv fields].
  - cbn [map join members_size fold_right]. lia.
  - specialize (IH Hrest ltac:(lia)).
    cbn [map join] in IH |- *. rewrite !string_length_app.
    change (String.length ",") with 1%nat. lia.
Qed.

End Sizes.

Lemma json_size_fits (bound : nat) :
  forall v : JsVal,
    (json_size v <= bound)%nat -> json_clean v = true ->
    (json_size v <= 2 * String.length (element_text v))%nat.
Proof.
  induction bound as [|bound IH]; intros v Hbound Hclean.
  { pose proof (json_size_pos v). lia. }
  destruct v as [| |b|n|s|items|fields].
  - discriminate Hclean.
  - cbn. lia.
  - destruct b; cbn; lia.
  - unfold element_text. cbn [ref_stringify json_size].
    destruct (numeral_head n) as (c & t & -> & _). cbn [String.length]. lia.
  - unfold element_text. cbn [ref_stringify json_size]. unfold quote.
    cbn [String.length]. lia.
  - unfold element_text. rewrite stringify_array.
    cbn [json_clean] in Hclean. cbn [json_size] in Hbound |- *.
    fold (elements_size items) in Hbound |- *.
    pose proof (elements_size_fits bound IH items Hclean ltac:(lia)).
    rewrite !string_length_app. change (String.length "[") with 1%nat.
    change (String.length "]") with 1%nat. lia.
  - unfold element_text.
    cbn [json_clean] in Hclean. apply andb_true_iff in Hclean as [_ Hclean].
    rewrite (stringify_object fields Hclean).
    cbn [json_size] in Hbound |- *.
    fold (members_size fields) in Hbound |- *.
    pose proof (members_size_fits bound IH fields Hclean ltac:(lia)).
    rewrite !string_length_app. change (String.length "{") with 1%nat.
    change (String.length "}") with 1%nat. lia.
Qed.

(** The reference codec reads back every clean value from the text it
    wrote for it, and that text is not empty. *)
Theorem reference_codec_round_trip (v : JsVal) :
  json_clean v = true ->
  exists text : string,
    ref_stringify v = Some text /\ text <> "" /\ ref_parse text = Some v.
Proof.
  intros Hclean. exists (element_text v).
  split; [now apply clean_stringify |]. split.
  - destruct (element_text_head v Hclean) as (c & t & -> & _). discriminate.
  - unfold ref_parse.
    pose proof (json_size_fits (json_size v) v (Nat.le_refl _) Hclean) as Hfit.
    rewrite <- (string_app_nil_r (element_text v)) at 2.
    rewrite (parse_value_element_text (json_size v));
      first [reflexivity | assumption | lia].
Qed.

(** * Properties of the views *)

(** ** Regular expressions *)











(** ** The routes *)

Ltac route_cases state :=
  unfold App.ProtectedRoute, App.PublicRoute, App.RoleProtectedRoute;
  rewrite ?hasRole_admin_is_isAdmin;
  destruct (isLoading state) eqn:?, (isAuthenticated state) eqn:?,
           (isAdmin state) eqn:?;
  cbn [negb].

Lemma login_route (state : AuthState) :
  App.AppRoutes "/login" state =
    App.PublicRoute state (Normal (App.Screen App.Login)).
Proof. reflexivity. Qed.

Lemma dashboard_route (state : AuthState) :
  App.AppRoutes "/dashboard" state =
    App.ProtectedRoute state (Normal (App.Screen App.Dashboard)).
Proof. reflexivity. Qed.



(** X12.  What the routes never do: a screen inside the layout is rendered only
    for a session that is authenticated and no longer loading, the patient
    form and the admin panel only for an admin, and the sign-in screens
    only for a session that is not authenticated. *)
Theorem screens_follow_the_session
    (path : string) (state : AuthState) (page : App.Page) :
  (App.AppRoutes path state = Normal (App.Layout (App.Screen page)) ->
     isLoading state = false /\ isAuthenticated state = true /\
     page <> App.Login /\ page <> App.Register /\
     ((page = App.AdminPanel \/ exists mode, page = App.PatientForm mode) ->
        isAdmin state = true)) /\
  (App.AppRoutes path state = Normal (App.Screen page) ->
     isLoading state = false /\ isAuthenticated state = false /\
     (page = App.Login \/ page = App.Register)).
Proof.
  unfold App.AppRoutes.
  destruct (App.match_route (App.path_segments path));
    cbn [App.element]; route_cases state;
    (split; [intros [= <-] | intros [= <-]]);
    repeat split; try discriminate; try reflexivity;
    try (now left); try (now right);
    try (intros [H | [mode H]]; discriminate H).
Qed.

(** ** The sign-in forms *)



Lemma has_keys_empty {A : Type} : has_keys (∅ : gmap string A) = false.
Proof. reflexivity. Qed.


(** The config of a request as it leaves: with the Authorization header
    when the storage holds a token. *)
Lemma endpoint_run {rt : Runtime} (config : RequestConfig) (net : NetResult)
    (w : World) :
  let sent :=
    match localStorage w !! "authToken" with
    | Some t => if String.eqb t "" then config
                else set_header config "Authorization" ("Bearer " ++ t)
    | None => config
    end in
  (api_request config net ≫= fun response => mret (data response)) w =
    match settle net with
    | Normal response =>
        (Normal (data response),
         {| session := session w;
            localStorage := localStorage w;
            location_href := location_href w;
            console := console w;
            network := network w ++ [sent] |})
    | Throw e =>
        (Throw e,
         {| session := session w;
            localStorage :=
              if is_unauthorized e
              then delete "user" (delete "authToken" (localStorage w))
              else localStorage w;
            location_href :=
              if is_unauthorized e then "/login" else location_href w;
            console :=
              match exn_response e with
              | None => console w ++
                        [[JStr "Network error:"; JStr (exn_message e)]]
              | Some _ => console w
              end;
            network := network w ++ [sent] |})
    end.
Proof.
  intros sent. unfold mbind, M_bind. rewrite api_request_run. fold sent.
  destruct (settle net); reflexivity.
Qed.







(** ** Strings and filters *)

Lemma startsWith_spec (s prefix : string) :
  startsWith s prefix = true <-> exists rest, s = prefix ++ rest.
Proof.
  revert s. induction prefix as [|p prefix IH]; intros s; cbn [startsWith].
  - split; [intros _; now exists s | reflexivity].
  - destruct s as [|c s].
    + split; [discriminate | intros [rest H]; discriminate H].
    + rewrite andb_true_iff, IH. split.
      * intros [Hc [rest ->]]. apply Ascii.eqb_eq in Hc as ->.
        now exists rest.
      * intros [rest H]. injection H as -> ->. split.
        -- apply Ascii.eqb_refl.
        -- now exists rest.
Qed.


(** A filter whose callback does not throw on the items keeps, in their
    order, the items on which the callback is truthy. *)
Lemma js_filter_total (keep : JsVal -> Completion JsVal) (items : list JsVal) :
  (forall x, In x items -> exists v, keep x = Normal v) ->
  exists kept,
    js_filter keep items = Normal kept /\
    sublist kept items /\
    forall x, In x kept <->
              In x items /\ exists v, keep x = Normal v /\ truthy v = true.
Proof.
  induction items as [|x items IH]; intros Htotal; cbn [js_filter].
  - exists []. split; [reflexivity |]. split; [constructor |].
    intros y. split; [intros [] | intros [[] _]].
  - destruct (Htotal x (or_introl eq_refl)) as [v Hv]. rewrite Hv.
    destruct IH as (kept & -> & Hsub & Hin).
    { intros y Hy. apply Htotal. now right. }
    eexists. split; [reflexivity |].
    destruct (truthy v) eqn:Ht.
    + split; [now constructor |]. intros y. cbn [In]. rewrite Hin. split.
      * intros [<- | [Hy Hk]]; [| now split; [right |]].
        split; [now left | now exists v].
      * intros [[<- | Hy] Hk]; [now left | right; now split].
    + split; [now constructor |]. intros y. cbn [In]. rewrite Hin. split.
      * intros [Hy Hk]. now split; [right |].
      * intros [[<- | Hy] Hk]; [| now split].
        destruct Hk as (v' & Hv' & Ht'). congruence.
Qed.

(** A callback that throws on one of the items makes the filter throw. *)
Lemma js_filter_throws (keep : JsVal -> Completion JsVal) (items : list JsVal)
    (x : JsVal) (e : Exn) :
  In x items -> keep x = Throw e -> exists e', js_filter keep items = Throw e'.
Proof.
  induction items as [|y items IH]; intros Hin Hx; [destruct Hin |].
  cbn [js_filter]. destruct Hin as [-> | Hin].
  - rewrite Hx. now exists e.
  - destruct (keep y) as [v|e0]; [| now exists e0].
    destruct (IH Hin Hx) as [e' ->]. now exists e'.
Qed.


(** ** The patient list *)







(** ** What the views show of a failure *)

Lemma js_or_truthy (a b : JsVal) : truthy b = true -> truthy (js_or a b) = true.
Proof. unfold js_or. intros Hb. now destruct (truthy a) eqn:Ha. Qed.

Lemma handleApiError_message_truthy {rt : Runtime} (e : Exn) :
  truthy (member (handleApiError e) "message") = true.
Proof.
  unfold handleApiError.
  destruct (exn_response e) as [r|]; [now apply js_or_truthy |].
  destruct (exn_request e); [reflexivity |]. now apply js_or_truthy.
Qed.

(** X22.  Whatever is thrown, [handleApiError] gives a message a view can show
    (a value that is not empty) and a status that tells the three kinds of
    failure apart: the status of the response when the server answered, 0
    when no answer came to a request that was made, and -1 otherwise; the
    message is the error text of the response body when it has one. *)
Theorem handleApiError_classifies {rt : Runtime} (e : Exn) :
  truthy (member (handleApiError e) "message") = true /\
  (forall r, exn_response e = Some r ->
     member (handleApiError e) "status" = JNum (status r) /\
     member (handleApiError e) "details" = data r /\
     (truthy (opt_member (data r) "error") = true ->
        member (handleApiError e) "message" = opt_member (data r) "error") /\
     (truthy (opt_member (data r) "error") = false ->
        member (handleApiError e) "message" = JStr "An error occurred")) /\
  (exn_response e = None -> exn_request e = true ->
     member (handleApiError e) "status" = JNum 0 /\
     member (handleApiError e) "message" =
       JStr "Network error. Please check your connection.") /\
  (exn_response e = None -> exn_request e = false ->
     member (handleApiError e) "status" = JNum (-1) /\
     (exn_message e <> "" ->
        member (handleApiError e) "message" = JStr (exn_message e)) /\
     (exn_message e = "" ->
        member (handleApiError e) "message" =
          JStr "An unexpected error occurred")).
Proof.
  split; [apply handleApiError_message_truthy |].
  unfold handleApiError. repeat split.
  - rewrite H. reflexivity.
  - rewrite H. reflexivity.
  - rewrite H. cbn [member lookup_field String.eqb Ascii.eqb Bool.eqb].
    unfold js_or. intros ->. reflexivity.
  - rewrite H. cbn [member lookup_field String.eqb Ascii.eqb Bool.eqb].
    unfold js_or. intros ->. reflexivity.
  - rewrite H, H0. reflexivity.
  - rewrite H, H0. reflexivity.
  - rewrite H, H0. reflexivity.
  - rewrite H, H0. cbn [member lookup_field String.eqb Ascii.eqb Bool.eqb].
    unfold js_or. cbn [truthy]. intros Hm.
    apply String.eqb_neq in Hm. now rewrite Hm.
  - rewrite H, H0. cbn [member lookup_field String.eqb Ascii.eqb Bool.eqb].
    intros ->. reflexivity.
Qed.

(** ** Deleting and loading patients *)





(** ** The dashboard *)

Lemma get_member_read (v : JsVal) (k : string) (w : World) :
  get_member v k w =
    match read_member v k with
    | Normal x => (Normal x, w)
    | Throw e => (Throw e, w)
    end.
Proof. unfold get_member, read_member. now destruct (nullish v). Qed.

Lemma loadDashboardData_run {rt : Runtime} {clock : Clock}
    (st : Dashboard.State) (net1 net2 : NetResult) (w : World) :
  let stamp config :=
    match localStorage w !! "authToken" with
    | Some t => if String.eqb t "" then config
                else set_header config "Authorization" ("Bearer " ++ t)
    | None => config
    end in
  let sent1 :=
    stamp (api_config "get" "/patients" (JObj [("limit", JNum 5)])
             JUndefined) in
  let sent2 :=
    stamp (api_config "get" "/task-logs" (JObj [("limit", JNum 10)])
             JUndefined) in
  let failed e :=
    {| Dashboard.stats := Dashboard.stats st;
       Dashboard.loading := false;
       Dashboard.error := member (handleApiError e) "message" |} in
  let after_failure (e : Exn) (sent : list RequestConfig) :=
    {| session := session w;
       localStorage :=
         if is_unauthorized e
         then delete "user" (delete "authToken" (localStorage w))
         else localStorage w;
       location_href :=
         if is_unauthorized e then "/login" else location_href w;
       console :=
         match exn_response e with
         | None => console w ++
                   [[JStr "Network error:"; JStr (exn_message e)]]
         | Some _ => console w
         end;
       network := network w ++ sent |} in
  let today := before_first "T" (Date_toISOString Date_now) in
  let summary (d1 d2 : JsVal) : Completion Dashboard.Stats :=
    match read_member d2 "taskLogs" with
    | Throw e => Throw e
    | Normal taskLogs =>
        match Dashboard.count_today today taskLogs with
        | Throw e => Throw e
        | Normal todayTasks =>
            match read_member d1 "count" with
            | Throw e => Throw e
            | Normal count =>
                match read_member d1 "patients" with
                | Throw e => Throw e
                | Normal found =>
                    Normal {| Dashboard.totalPatients :=
                                js_or count (JNum 0);
                              Dashboard.todayTasks := todayTasks;
                              Dashboard.recentTasks :=
                                Dashboard.first_five taskLogs;
                              Dashboard.recentPatients :=
                                js_or found (JArr []) |}
                end
            end
        end
    end in
  Dashboard.loadDashboardData st net1 net2 w =
    match settle net1 with
    | Throw e1 => (Normal (failed e1), after_failure e1 [sent1])
    | Normal r1 =>
        match settle net2 with
        | Throw e2 => (Normal (failed e2), after_failure e2 [sent1; sent2])
        | Normal r2 =>
            (Normal
               match summary (data r1) (data r2) with
               | Normal stats =>
                   {| Dashboard.stats := stats;
                      Dashboard.loading := false;
                      Dashboard.error := JNull |}
               | Throw e => failed e
               end,
             {| session := session w;
                localStorage := localStorage w;
                location_href := location_href w;
                console := console w;
                network := network w ++ [sent1; sent2] |})
        end
    end.
Proof.
  intros stamp sent1 sent2 failed after_failure today summary.
  pose proof (endpoint_run
                (api_config "get" "/patients" (JObj [("limit", JNum 5)])
                   JUndefined) net1 w) as Hrun1.
  cbv zeta in Hrun1. fold (stamp (api_config "get" "/patients"
                                    (JObj [("limit", JNum 5)]) JUndefined))
    in Hrun1. fold sent1 in Hrun1.
  unfold Dashboard.loadDashboardData, try_catch.
  unfold patientsAPI_getAll, taskLogsAPI_getAll, api_get.
  cbn [default_param]. fold today.
  unfold mbind, M_bind in Hrun1 |- *. rewrite Hrun1.
  destruct (settle net1) as [r1|e1]; [| reflexivity].
  cbn [mret M_ret].
  match goal with
  | |- context [api_request ?c net2 ?w1] =>
      pose proof (endpoint_run c net2 w1) as Hrun2
  end.
  cbv zeta in Hrun2. cbn [localStorage] in Hrun2.
  fold (stamp (api_config "get" "/task-logs"
                 (JObj [("limit", JNum 10)]) JUndefined)) in Hrun2.
  fold sent2 in Hrun2.
  unfold mbind, M_bind in Hrun2. rewrite Hrun2.
  destruct (settle net2) as [r2|e2].
  - cbn [mret M_ret]. subst summary. cbv beta.
    rewrite get_member_read.
    destruct (read_member (data r2) "taskLogs") as [taskLogs|e];
      [| subst failed; cbn; now rewrite <- app_assoc].
    unfold lift_completion.
    destruct (Dashboard.count_today today taskLogs) as [n|e];
      [| subst failed; cbn; now rewrite <- app_assoc].
    cbn [mret M_ret]. rewrite get_member_read.
    destruct (read_member (data r1) "count") as [count|e];
      [| subst failed; cbn; now rewrite <- app_assoc].
    rewrite get_member_read.
    destruct (read_member (data r1) "patients") as [found|e];
      [| subst failed; cbn; now rewrite <- app_assoc].
    cbn. now rewrite <- app_assoc.
  - subst failed after_failure. cbn. now rewrite <- app_assoc.
Qed.

Lemma stamped_config (storage : gmap string string) (config : RequestConfig) :
  let sent :=
    match storage !! "authToken" with
    | Some t => if String.eqb t "" then config
                else set_header config "Authorization" ("Bearer " ++ t)
    | None => config
    end in
  method sent = method config /\ url sent = url config /\
  params sent = params config /\ body sent = body config.
Proof.
  destruct (storage !! "authToken") as [t|];
    [destruct (String.eqb t "") |]; repeat split; reflexivity.
Qed.

(** X23.  Loading the dashboard does not throw and ends with the loading flag
    off.  It asks for five patients, and only when that succeeded for ten
    task logs.  The figures are replaced as a whole or not at all: when
    anything fails the figures shown before stay and a message that is not
    empty is set. *)
Theorem dashboard_load_is_all_or_nothing {rt : Runtime} {clock : Clock}
    (st : Dashboard.State) (net1 net2 : NetResult) (w : World) :
  let w' := snd (Dashboard.loadDashboardData st net1 net2 w) in
  exists st' : Dashboard.State,
    fst (Dashboard.loadDashboardData st net1 net2 w) = Normal st' /\
    Dashboard.loading st' = false /\
    (Dashboard.error st' = JNull \/
     (truthy (Dashboard.error st') = true /\
      Dashboard.stats st' = Dashboard.stats st)) /\
    (forall e, settle net1 = Throw e ->
       Dashboard.error st' = member (handleApiError e) "message" /\
       exists sent,
         network w' = (network w ++ [sent])%list /\
         method sent = "get" /\ url sent = "/patients" /\
         params sent = JObj [("limit", JNum 5)]) /\
    (forall r, settle net1 = Normal r ->
       (forall e, settle net2 = Throw e ->
          Dashboard.error st' = member (handleApiError e) "message") /\
       exists sent1 sent2,
         network w' = (network w ++ [sent1; sent2])%list /\
         method sent1 = "get" /\ url sent1 = "/patients" /\
         params sent1 = JObj [("limit", JNum 5)] /\
         method sent2 = "get" /\ url sent2 = "/task-logs" /\
         params sent2 = JObj [("limit", JNum 10)]).
Proof.
  intros w'. subst w'. rewrite loadDashboardData_run.
  pose proof (stamped_config (localStorage w)
                (api_config "get" "/patients" (JObj [("limit", JNum 5)])
                   JUndefined)) as (Hm1 & Hu1 & Hp1 & _).
  pose proof (stamped_config (localStorage w)
                (api_config "get" "/task-logs" (JObj [("limit", JNum 10)])
                   JUndefined)) as (Hm2 & Hu2 & Hp2 & _).
  cbv zeta.
  destruct (settle net1) as [r1|e1].
  - destruct (settle net2) as [r2|e2].
    + eexists. cbn [fst snd network]. split; [reflexivity |].
      match goal with
      | |- context [match ?c with Normal _ => _ | Throw _ => _ end] =>
          destruct c as [stats|e]
      end; cbn [Dashboard.loading Dashboard.error Dashboard.stats].
      * split; [reflexivity |]. split; [now left |].
        split; [intros e H; discriminate H |].
        intros r _. split; [intros e H; discriminate H |].
        eexists _, _. split; [reflexivity |]. now repeat split.
      * split; [reflexivity |].
        split; [right; split; [apply handleApiError_message_truthy
                              | reflexivity] |].
        split; [intros e' H; discriminate H |].
        intros r _. split; [intros e' H; discriminate H |].
        eexists _, _. split; [reflexivity |]. now repeat split.
    + eexists. cbn [fst snd network Dashboard.loading Dashboard.error
                    Dashboard.stats].
      split; [reflexivity |]. split; [reflexivity |].
      split; [right; split; [apply handleApiError_message_truthy
                            | reflexivity] |].
      split; [intros e' H; discriminate H |].
      intros r _. split; [now intros e' [= <-] |].
      eexists _, _. split; [reflexivity |]. now repeat split.
  - eexists. cbn [fst snd network Dashboard.loading Dashboard.error
                  Dashboard.stats].
    split; [reflexivity |]. split; [reflexivity |].
    split; [right; split; [apply handleApiError_message_truthy
                          | reflexivity] |].
    split; [| intros r H; discriminate H].
    intros e' [= <-]. split; [reflexivity |].
    eexists. split; [reflexivity |]. now repeat split.
Qed.

Lemma completed_today_text (today : string) (tasks : list JsVal) :
  (forall t, In t tasks -> exists s, member t "completed_at" = JStr s) ->
  exists kept,
    js_filter (Dashboard.completed_today today) tasks = Normal kept /\
    sublist kept tasks /\
    forall t, In t kept <->
      In t tasks /\
      exists rest, member t "completed_at" = JStr (today ++ rest).
Proof.
  intros Htext.
  assert (forall t, In t tasks ->
            exists s, member t "completed_at" = JStr s /\
                      Dashboard.completed_today today t =
                        Normal (JBool (startsWith s today))) as Hrun.
  { intros t Ht. destruct (Htext t Ht) as [s Hs]. exists s.
    split; [exact Hs |]. unfold Dashboard.completed_today, read_member.
    assert (nullish t = false) as ->
      by (destruct t; try reflexivity; discriminate Hs).
    now rewrite Hs. }
  destruct (js_filter_total (Dashboard.completed_today today) tasks)
    as (kept & Hk & Hsub & Hin).
  { intros t Ht. destruct (Hrun t Ht) as (s & _ & ->). now eexists. }
  exists kept. split; [exact Hk |]. split; [exact Hsub |].
  intros t. rewrite Hin. split; intros [Ht H]; (split; [exact Ht |]).
  - destruct H as (v & Hv & Htruthy). destruct (Hrun t Ht) as (s & Hs & Hc).
    rewrite Hc in Hv. injection Hv as <-. cbn [truthy] in Htruthy.
    apply startsWith_spec in Htruthy as [rest ->]. now exists rest.
  - destruct H as [rest Hrest]. destruct (Hrun t Ht) as (s & Hs & Hc).
    rewrite Hc. eexists. split; [reflexivity |]. cbn [truthy].
    apply startsWith_spec. exists rest. congruence.
Qed.

(** X24.  When both requests succeed and every task log carries the text of its
    completion time, the dashboard counts as today's tasks exactly the
    logs whose completion time starts with the date of today as the clock
    writes it (in UTC), and lists the first five logs as recent. *)
Theorem dashboard_counts_the_tasks_of_today {rt : Runtime} {clock : Clock}
    (st : Dashboard.State) (r1 r2 : HttpResponse) (tasks : list JsVal)
    (w : World) :
  200 <= status r1 < 300 ->
  200 <= status r2 < 300 ->
  nullish (data r1) = false ->
  member (data r2) "taskLogs" = JArr tasks ->
  (forall t, In t tasks -> exists s, member t "completed_at" = JStr s) ->
  let today := before_first "T" (Date_toISOString Date_now) in
  exists (st' : Dashboard.State) (counted : list JsVal),
    fst (Dashboard.loadDashboardData st (GotResponse r1) (GotResponse r2) w)
      = Normal st' /\
    Dashboard.error st' = JNull /\
    Dashboard.loading st' = false /\
    Dashboard.todayTasks (Dashboard.stats st') =
      JNum (Z.of_nat (length counted)) /\
    sublist counted tasks /\
    (forall t, In t counted <->
       In t tasks /\
       exists rest, member t "completed_at" = JStr (today ++ rest)) /\
    Dashboard.recentTasks (Dashboard.stats st') = JArr (firstn 5 tasks) /\
    Dashboard.totalPatients (Dashboard.stats st') =
      js_or (member (data r1) "count") (JNum 0) /\
    Dashboard.recentPatients (Dashboard.stats st') =
      js_or (member (data r1) "patients") (JArr []).
Proof.
  intros H1 H2 Hd1 Htasks Htext today.
  rewrite loadDashboardData_run. cbv zeta.
  rewrite (settle_2xx r1 H1), (settle_2xx r2 H2). cbn [fst].
  unfold read_member. rewrite Hd1.
  assert (nullish (data r2) = false) as ->.
  { destruct (data r2); try reflexivity; discriminate Htasks. }
  rewrite Htasks. cbn [Dashboard.count_today]. fold today.
  destruct (completed_today_text today tasks Htext)
    as (counted & -> & Hsub & Hin).
  eexists _, counted. split; [reflexivity |].
  cbn [Dashboard.error Dashboard.loading Dashboard.stats
       Dashboard.todayTasks Dashboard.recentTasks Dashboard.totalPatients
       Dashboard.recentPatients Dashboard.first_five].
  split; [reflexivity |]. split; [reflexivity |]. split; [reflexivity |].
  split; [exact Hsub |]. split; [exact Hin |]. repeat split.
Qed.

(** X25.  One task log without the text of a completion time (a task that is
    not completed, say) makes the whole dashboard fail: both requests were
    answered, and still the figures shown before stay and an error message
    is set. *)
Theorem a_task_without_completion_time_fails_the_dashboard
    {rt : Runtime} {clock : Clock}
    (st : Dashboard.State) (r1 r2 : HttpResponse) (tasks : list JsVal)
    (t : JsVal) (w : World) :
  200 <= status r1 < 300 ->
  200 <= status r2 < 300 ->
  member (data r2) "taskLogs" = JArr tasks ->
  In t tasks ->
  (forall s, member t "completed_at" <> JStr s) ->
  let run :=
    Dashboard.loadDashboardData st (GotResponse r1) (GotResponse r2) w in
  exists (st' : Dashboard.State) (sent1 sent2 : RequestConfig),
    fst run = Normal st' /\
    network (snd run) = (network w ++ [sent1; sent2])%list /\
    Dashboard.stats st' = Dashboard.stats st /\
    truthy (Dashboard.error st') = true /\
    Dashboard.loading st' = false.
Proof.
  intros H1 H2 Htasks Hin Hnot run. subst run.
  rewrite loadDashboardData_run. cbv zeta.
  rewrite (settle_2xx r1 H1), (settle_2xx r2 H2). cbn [fst snd network].
  unfold read_member at 1.
  assert (nullish (data r2) = false) as ->.
  { destruct (data r2); try reflexivity; discriminate Htasks. }
  rewrite Htasks. cbn [Dashboard.count_today].
  destruct (js_filter_throws
              (Dashboard.completed_today
                 (before_first "T" (Date_toISOString Date_now)))
              tasks t
              (match Dashboard.completed_today
                       (before_first "T" (Date_toISOString Date_now)) t with
               | Throw e => e
               | Normal _ => NativeError "" ""
               end) Hin) as [e ->].
  { unfold Dashboard.completed_today.
    destruct (read_member t "completed_at") as [v|e] eqn:Hread;
      [| reflexivity].
    destruct v; try reflexivity. unfold read_member in Hread.
    destruct (nullish t); [discriminate Hread |].
    injection Hread as Hread. now destruct (Hnot s). }
  eexists _, _, _. split; [reflexivity |]. split; [reflexivity |].
  cbn [Dashboard.stats Dashboard.error Dashboard.loading].
  split; [reflexivity |]. split; [apply handleApiError_message_truthy |].
  reflexivity.
Qed.

(** ** The age of a patient *)

(** X26.  For a date of birth that the runtime reads, the age shown is the
    number of birthdays reached: the birthday of that age is today or
    earlier and the next one is later; it is not negative for a birth that
    is not in the future. *)
Theorem age_counts_the_birthdays_reached {clock : Clock}
    (dateOfBirth : JsVal) (instant : Z) :
  truthy dateOfBirth = true ->
  Date_parse dateOfBirth = Some instant ->
  let today := Date_local Date_now in
  let birthDate := Date_local instant in
  exists age : Z,
    PatientList.calculateAge dateOfBirth = PatientList.Years age /\
    on_or_before (birthday birthDate age) today = true /\
    on_or_before (birthday birthDate (age + 1)) today = false /\
    (on_or_before birthDate today = true -> 0 <= age).
Proof.
  intros Htruthy Hparse today birthDate.
  unfold PatientList.calculateAge. rewrite Htruthy, Hparse. cbn [negb].
  fold today birthDate. unfold on_or_before, birthday.
  cbn [fullYear month date].
  destruct ((month today - month birthDate <? 0) ||
            ((month today - month birthDate =? 0) &&
             (date today <? date birthDate))) eqn:Hbefore;
    eexists; (split; [reflexivity |]);
    [ apply orb_true_iff in Hbefore
    | apply orb_false_iff in Hbefore as [Hm Hd];
      apply andb_false_iff in Hd ];
    repeat split;
    rewrite ?orb_true_iff, ?orb_false_iff, ?andb_true_iff, ?andb_false_iff,
            ?Z.ltb_lt, ?Z.ltb_ge, ?Z.eqb_eq, ?Z.eqb_neq, ?Z.leb_le,
            ?Z.leb_gt in *;
    lia.
Qed.

(** ** The routes and the session together *)

Lemma anonymous_element (route : App.Route) (state : AuthState) :
  isLoading state = false -> isAuthenticated state = false ->
  App.element route state = Normal (App.Screen App.Login) \/
  App.element route state = Normal (App.Screen App.Register) \/
  App.element route state = Normal (App.Navigate "/login") \/
  App.element route state = Normal (App.Navigate "/dashboard") \/
  App.element route state = Normal App.PageNotFound.
Proof.
  intros Hl Ha.
  destruct route; cbn [App.element];
    unfold App.ProtectedRoute, App.PublicRoute; rewrite ?Hl, ?Ha; cbn [negb];
    tauto.
Qed.

Lemma anonymous_render (path : string) (state : AuthState) :
  isLoading state = false -> isAuthenticated state = false ->
  App.render_following 2 path state = Normal (App.Screen App.Login) \/
  App.render_following 2 path state = Normal (App.Screen App.Register) \/
  App.render_following 2 path state = Normal App.PageNotFound.
Proof.
  intros Hl Ha.
  assert (App.AppRoutes "/login" state = Normal (App.Screen App.Login))
    as Hlogin.
  { rewrite login_route. unfold App.PublicRoute. now rewrite Hl, Ha. }
  assert (App.AppRoutes "/dashboard" state = Normal (App.Navigate "/login"))
    as Hdash.
  { rewrite dashboard_route. unfold App.ProtectedRoute. now rewrite Hl, Ha. }
  cbn [App.render_following].
  destruct (anonymous_element (App.match_route (App.path_segments path))
              state Hl Ha) as [H | [H | [H | [H | H]]]];
    fold (App.AppRoutes path state) in H; rewrite !H; cbv beta iota.
  - now left.
  - right. now left.
  - rewrite Hlogin. now left.
  - rewrite Hdash. cbv beta iota. rewrite Hlogin. now left.
  - right. now right.
Qed.

(** X13.  A session that is Anonymous reaches the two sign-in screens and the
    page for unknown addresses, nothing else: from every address the
    redirects end at one of the three, and from the dashboard at the
    sign-in screen. *)
Theorem anonymous_sessions_reach_only_the_sign_in_screens
    (state : AuthState) (path : string) :
  Anonymous state ->
  (App.render_following 2 path state = Normal (App.Screen App.Login) \/
   App.render_following 2 path state = Normal (App.Screen App.Register) \/
   App.render_following 2 path state = Normal App.PageNotFound) /\
  App.render_following 2 "/dashboard" state = Normal (App.Screen App.Login) /\
  App.render_following 2 "/" state = Normal (App.Screen App.Login).
Proof.
  intros (_ & _ & Ha & Hl). split; [now apply anonymous_render |].
  assert (App.AppRoutes "/login" state = Normal (App.Screen App.Login))
    as Hlogin.
  { rewrite login_route. unfold App.PublicRoute. now rewrite Hl, Ha. }
  assert (App.AppRoutes "/dashboard" state = Normal (App.Navigate "/login"))
    as Hdash.
  { rewrite dashboard_route. unfold App.ProtectedRoute. now rewrite Hl, Ha. }
  assert (App.AppRoutes "/" state = Normal (App.Navigate "/dashboard"))
    as Hroot by reflexivity.
  cbn [App.render_following].
  rewrite Hroot, Hdash. cbv beta iota. rewrite Hlogin. now split.
Qed.



(** X15.  The logout entry of the profile menu: the handler does not throw,
    closes the menu and goes to the sign-in address, where the sign-in
    screen renders; the stored credentials are gone, no address renders
    inside the layout any more, and a reload stays signed out. *)
Theorem logout_button_ends_at_sign_in {rt : Runtime}
    (st : Layout.State) (w : World) (path href : string) :
  let w' := snd (Layout.handleLogout st w) in
  exists st' : Layout.State,
    fst (Layout.handleLogout st w) = Normal (st', "/login") /\
    Layout.anchorEl st' = JNull /\
    Layout.mobileOpen st' = Layout.mobileOpen st /\
    localStorage w' !! "authToken" = None /\
    localStorage w' !! "user" = None /\
    App.AppRoutes "/login" (session w') = Normal (App.Screen App.Login) /\
    (forall children,
       App.AppRoutes path (session w') <> Normal (App.Layout children)) /\
    Anonymous (session (page_load (localStorage w') href)).
Proof.
  intros w'. subst w'. unfold Layout.handleLogout, logout, authAPI_logout.
  run_m. eexists. split; [reflexivity |].
  assert ((delete "user" (delete "authToken" (localStorage w)))
            !! "authToken" = None) as Hnone.
  { rewrite lookup_delete_ne by discriminate. apply lookup_delete_eq. }
  split; [reflexivity |]. split; [reflexivity |].
  split; [exact Hnone |]. split; [apply lookup_delete_eq |].
  split; [reflexivity |]. split.
  - intros children. unfold App.AppRoutes.
    destruct (App.match_route (App.path_segments path)); discriminate.
  - now apply page_load_without_token.
Qed.



(** ** The links of the patient list *)









(** ** Signing in, from the form to the dashboard *)



(** ** The patient form *)

Lemma blank_text (s : string) :
  PatientForm.blank (JStr s) = Normal (String.eqb (trim s) "").
Proof. reflexivity. Qed.


Lemma patient_submit_run {rt : Runtime} {clock : Clock}
    (mode : string) (id : JsVal) (st : PatientForm.State) (net : NetResult)
    (w : World) :
  PatientForm.validateForm (PatientForm.formData st) = Normal ∅ ->
  let config :=
    if String.eqb mode "create"
    then api_config "post" "/patients" JUndefined
           (PatientForm.form_object (PatientForm.formData st))
    else api_config "put" ("/patients/" ++ to_String id) JUndefined
           (PatientForm.form_object (PatientForm.formData st)) in
  let sent :=
    match localStorage w !! "authToken" with
    | Some t => if String.eqb t "" then config
                else set_header config "Authorization" ("Bearer " ++ t)
    | None => config
    end in
  let started := PatientForm.setError JNull (PatientForm.setLoading true st) in
  PatientForm.handleSubmit mode id st net w =
    match settle net with
    | Normal response =>
        (Normal
           (if String.eqb mode "create"
            then PatientForm.setLoading false
                   (PatientForm.setFormData PatientForm.empty_form
                      (PatientForm.setSuccess
                         (JStr "Patient created successfully!") started))
            else PatientForm.setLoading false
                   (PatientForm.setSuccess
                      (JStr "Patient updated successfully!") started),
            Normal (Some "/patients")),
         {| session := session w;
            localStorage := localStorage w;
            location_href := location_href w;
            console := console w;
            network := network w ++ [sent] |})
    | Throw e =>
        let failed :=
          PatientForm.setError (member (handleApiError e) "message") started in
        (Normal
           (if truthy (PatientForm.server_errors e)
            then
              match PatientForm.forEach_error (PatientForm.server_errors e) with
              | Normal serverErrors =>
                  (PatientForm.setLoading false
                     (PatientForm.setValidationErrors serverErrors failed),
                   Normal None)
              | Throw e' => (PatientForm.setLoading false failed, Throw e')
              end
            else (PatientForm.setLoading false failed, Normal None)),
         {| session := session w;
            localStorage :=
              if is_unauthorized e
              then delete "user" (delete "authToken" (localStorage w))
              else localStorage w;
            location_href :=
              if is_unauthorized e then "/login" else location_href w;
            console :=
              match exn_response e with
              | None => console w ++
                        [[JStr "Network error:"; JStr (exn_message e)]]
              | Some _ => console w
              end;
            network := network w ++ [sent] |})
    end.
Proof.
  intros Hvalid config sent started.
  unfold PatientForm.handleSubmit. rewrite Hvalid, has_keys_empty.
  subst started. unfold try_catch.
  pose proof (endpoint_run config net w) as Hrun. cbv zeta in Hrun.
  fold sent in Hrun. subst config.
  destruct (String.eqb mode "create");
    unfold patientsAPI_create, patientsAPI_update, api_post, api_put;
    cbn [PatientForm.formData PatientForm.setError PatientForm.setLoading]
      in Hrun |- *;
    unfold mbind, M_bind in Hrun |- *; rewrite Hrun;
    destruct (settle net) as [r|e]; try reflexivity;
    cbn [mret M_ret];
    destruct (truthy (PatientForm.server_errors e)); try reflexivity;
    destruct (PatientForm.forEach_error (PatientForm.server_errors e));
    reflexivity.
Qed.

(** X28.  Submitting the patient form.  A form that does not pass validation
    sends nothing and shows the messages.  A form that passes makes one
    request with the five fields as its body: a POST to /patients when
    creating, a PUT to the address of the patient when editing.  When the
    server accepts, a success message is set and the list of patients is
    where the form goes next; the form is emptied after a creation and
    kept after an edit.  When the request fails the data stay in the
    form, a message that is not empty is set and the form goes nowhere.
    The busy flag is off at the end. *)
Theorem patient_form_submits_valid_input {rt : Runtime} {clock : Clock}
    (mode : string) (id : JsVal) (st : PatientForm.State)
    (errors : gmap string JsVal) (net : NetResult) (w : World) :
  PatientForm.validateForm (PatientForm.formData st) = Normal errors ->
  let run := PatientForm.handleSubmit mode id st net w in
  (errors <> ∅ ->
     run = (Normal (PatientForm.setValidationErrors errors st, Normal None),
            w)) /\
  (errors = ∅ ->
     exists (st' : PatientForm.State) (outcome : Completion (option string))
            (sent : RequestConfig),
       fst run = Normal (st', outcome) /\
       network (snd run) = (network w ++ [sent])%list /\
       body sent = PatientForm.form_object (PatientForm.formData st) /\
       (mode = "create" -> method sent = "post" /\ url sent = "/patients") /\
       (mode <> "create" ->
          method sent = "put" /\ url sent = "/patients/" ++ to_String id) /\
       PatientForm.loading st' = false /\
       (forall r, settle net = Normal r ->
          outcome = Normal (Some "/patients") /\
          truthy (PatientForm.success st') = true /\
          PatientForm.error st' = JNull /\
          (mode = "create" ->
             PatientForm.formData st' = PatientForm.empty_form) /\
          (mode <> "create" ->
             PatientForm.formData st' = PatientForm.formData st)) /\
       (forall e, settle net = Throw e ->
          PatientForm.formData st' = PatientForm.formData st /\
          PatientForm.success st' = PatientForm.success st /\
          PatientForm.error st' = member (handleApiError e) "message" /\
          truthy (PatientForm.error st') = true /\
          (forall to, outcome <> Normal (Some to)) /\
          (truthy (PatientForm.server_errors e) = false ->
             outcome = Normal None /\
             PatientForm.validationErrors st'
               = PatientForm.validationErrors st) /\
          (truthy (PatientForm.server_errors e) = true ->
           (forall items, PatientForm.server_errors e <> JArr items) ->
             exists e', outcome = Throw e'))).
Proof.
  intros Hvalidate run. subst run. split.
  - intros Hsome. unfold PatientForm.handleSubmit. rewrite Hvalidate.
    assert (has_keys errors = true) as ->; [| reflexivity].
    unfold has_keys. apply Nat.ltb_lt.
    assert (size errors <> 0%nat); [| lia].
    intros Hsize. now apply map_size_empty_iff in Hsize.
  - intros ->. rewrite (patient_submit_run mode id st net w Hvalidate).
    cbv zeta.
    set (config := if String.eqb mode "create"
                   then api_config "post" _ _ _ else _).
    pose proof (stamped_config (localStorage w) config) as (Hm & Hu & _ & Hb).
    cbv zeta in Hm, Hu, Hb.
    set (sent := match localStorage w !! "authToken" with
                 | Some t => _
                 | None => _
                 end) in *.
    assert (body sent = PatientForm.form_object (PatientForm.formData st))
      as Hbody.
    { rewrite Hb. subst config. now destruct (String.eqb mode "create"). }
    assert (mode = "create" -> method sent = "post" /\ url sent = "/patients")
      as Hcreate.
    { intros ->. rewrite Hm, Hu. subst config. now split. }
    assert (mode <> "create" ->
            method sent = "put" /\ url sent = "/patients/" ++ to_String id)
      as Hedit.
    { intros Hmode. apply String.eqb_neq in Hmode. rewrite Hm, Hu.
      subst config. rewrite Hmode. now split. }
    destruct (settle net) as [r|e].
    + eexists _, _, sent. cbn [fst snd network].
      split; [reflexivity |]. split; [reflexivity |].
      split; [exact Hbody |]. split; [exact Hcreate |].
      split; [exact Hedit |].
      split; [now destruct (String.eqb mode "create") |].
      split; [| intros e H; discriminate H].
      intros r' _. split; [reflexivity |].
      destruct (String.eqb mode "create") eqn:Hmode.
      * apply String.eqb_eq in Hmode. repeat split. intros Hne.
        now destruct Hne.
      * apply String.eqb_neq in Hmode. repeat split. intros Heq.
        now destruct Hmode.
    + destruct (truthy (PatientForm.server_errors e)) eqn:Htruthy.
      * destruct (PatientForm.forEach_error (PatientForm.server_errors e))
          as [serverErrors|e'] eqn:Heach;
          eexists _, _, sent; cbn [fst snd network];
          (split; [reflexivity |]); (split; [reflexivity |]);
          (split; [exact Hbody |]); (split; [exact Hcreate |]);
          (split; [exact Hedit |]); (split; [reflexivity |]);
          (split; [intros r H; discriminate H |]);
          intros e0 [= <-];
          (split; [reflexivity |]); (split; [reflexivity |]);
          (split; [reflexivity |]);
          (split; [apply handleApiError_message_truthy |]);
          (split; [intros to H; discriminate H |]);
          (split; [intros H; rewrite Htruthy in H; discriminate H |]).
        -- intros _ Hnot. unfold PatientForm.forEach_error in Heach.
           destruct (PatientForm.server_errors e); try discriminate Heach.
           now destruct (Hnot items).
        -- intros _ _. now exists e'.
      * eexists _, _, sent. cbn [fst snd network].
        split; [reflexivity |]. split; [reflexivity |].
        split; [exact Hbody |]. split; [exact Hcreate |].
        split; [exact Hedit |]. split; [reflexivity |].
        split; [intros r H; discriminate H |].
        intros e0 [= <-].
        split; [reflexivity |]. split; [reflexivity |].
        split; [reflexivity |].
        split; [apply handleApiError_message_truthy |].
        split; [intros to H; discriminate H |].
        split; [intros _; now split |].
        intros H. rewrite Htruthy in H. discriminate H.
Qed.

Lemma collect_errors_spec (items : list JsVal) (acc : gmap string JsVal) :
  (forall item, In item items -> nullish item = false) ->
  exists collected,
    PatientForm.collect_errors items acc = Normal collected /\
    (forall k v, collected !! k = Some v ->
       acc !! k = Some v \/
       exists item, In item items /\
                    to_String (member item "param") = k /\
                    member item "msg" = v) /\
    (forall k, is_Some (acc !! k) \/
               (exists item, In item items /\
                             to_String (member item "param") = k) ->
               is_Some (collected !! k)).
Proof.
  revert acc. induction items as [|item items IH]; intros acc Hitems;
    cbn [PatientForm.collect_errors].
  - exists acc. split; [reflexivity |]. split; [now left |].
    intros k [H | (item & [] & _)]. exact H.
  - unfold read_member. rewrite (Hitems item (or_introl eq_refl)).
    destruct (IH (<[ to_String (member item "param") := member item "msg" ]>
                    acc)) as (collected & -> & Hfrom & Hkeys).
    { intros x Hx. apply Hitems. now right. }
    exists collected. split; [reflexivity |]. split.
    + intros k v Hk. destruct (Hfrom k v Hk) as [Hacc | (x & Hx & Hkey & Hmsg)].
      * destruct (decide (to_String (member item "param") = k)) as [Heq | Hne].
        -- rewrite <- Heq, lookup_insert_eq in Hacc. injection Hacc as <-.
           right. exists item. split; [now left | now split].
        -- rewrite lookup_insert_ne in Hacc by exact Hne. now left.
      * right. exists x. split; [now right | now split].
    + intros k Hk. apply Hkeys.
      destruct (decide (to_String (member item "param") = k)) as [Heq | Hne].
      * left. rewrite <- Heq, lookup_insert_eq. now eexists.
      * destruct Hk as [Hacc | (x & [<- | Hx] & Hkey)].
        -- left. now rewrite lookup_insert_ne by exact Hne.
        -- now destruct Hne.
        -- right. now exists x.
Qed.

(** X29.  When the server refuses a patient with a list of field errors, the
    form shows them in place of its own: a field has a message exactly
    when an entry of the list names it, and the message is the one of such
    an entry.  The handler does not throw and the form goes nowhere. *)
Theorem server_validation_errors_are_shown {rt : Runtime} {clock : Clock}
    (mode : string) (id : JsVal) (st : PatientForm.State) (net : NetResult)
    (e : Exn) (items : list JsVal) (w : World) :
  PatientForm.validateForm (PatientForm.formData st) = Normal ∅ ->
  settle net = Throw e ->
  PatientForm.server_errors e = JArr items ->
  (forall item, In item items -> nullish item = false) ->
  exists st' : PatientForm.State,
    fst (PatientForm.handleSubmit mode id st net w)
      = Normal (st', Normal None) /\
    (forall k, is_Some (PatientForm.validationErrors st' !! k) <->
       exists item, In item items /\ to_String (member item "param") = k) /\
    (forall k v, PatientForm.validationErrors st' !! k = Some v ->
       exists item, In item items /\
                    to_String (member item "param") = k /\
                    member item "msg" = v) /\
    PatientForm.error st' = member (handleApiError e) "message" /\
    PatientForm.loading st' = false.
Proof.
  intros Hvalid Hnet Herrors Hitems.
  rewrite (patient_submit_run mode id st net w Hvalid). cbv zeta.
  rewrite Hnet, Herrors. cbn [truthy PatientForm.forEach_error fst].
  destruct (collect_errors_spec items ∅ Hitems)
    as (collected & -> & Hfrom & Hkeys).
  eexists. split; [reflexivity |].
  cbn [PatientForm.validationErrors PatientForm.setLoading
       PatientForm.setValidationErrors PatientForm.error
       PatientForm.setError PatientForm.loading].
  split; [| split; [| now split]].
  - intros k. split.
    + intros [v Hv]. destruct (Hfrom k v Hv) as [Hempty | (x & Hx & Hk & _)].
      * rewrite lookup_empty in Hempty. discriminate Hempty.
      * now exists x.
    + intros Hitem. apply Hkeys. now right.
  - intros k v Hv. destruct (Hfrom k v Hv) as [Hempty | H]; [| exact H].
    rewrite lookup_empty in Hempty. discriminate Hempty.
Qed.

(** ** Loading a patient into the form *)

Lemma validateForm_text {clock : Clock} (data : PatientForm.FormData) :
  (exists s, PatientForm.firstName data = JStr s) ->
  (exists s, PatientForm.lastName data = JStr s) ->
  (exists s, PatientForm.medicalRecordNumber data = JStr s) ->
  exists errors, PatientForm.validateForm data = Normal errors.
Proof.
  intros [first H1] [last H2] [number H3].
  unfold PatientForm.validateForm. rewrite H1, H2, H3, !blank_text.
  cbv zeta. destruct (truthy (PatientForm.dateOfBirth data));
    eexists; reflexivity.
Qed.

Lemma js_or_text (v : JsVal) :
  text_or_missing v = true -> js_or v (JStr "") = JStr (text_of v).
Proof.
  destruct v; try discriminate; intros _; try reflexivity.
  unfold js_or. cbn [truthy text_of].
  destruct (String.eqb s "") eqn:Hs; [| reflexivity].
  apply String.eqb_eq in Hs. now subst.
Qed.

(** X30.  Loading a patient for editing makes one GET to the address of the
    patient and does not throw.  For a patient whose fields are text or
    missing, the form receives the text of each field (the empty text for
    a missing one) and, as date of birth, what stands before the letter T
    of the stored date; such a form can then be validated without a
    throw. *)
Theorem loaded_patient_fills_the_form {rt : Runtime} {clock : Clock}
    (id : JsVal) (st : PatientForm.State) (r : HttpResponse) (patient : JsVal)
    (w : World) :
  200 <= status r < 300 ->
  member (data r) "patient" = patient ->
  nullish patient = false ->
  text_or_missing (member patient "first_name") = true ->
  text_or_missing (member patient "last_name") = true ->
  text_or_missing (member patient "medical_record_number") = true ->
  text_or_missing (member patient "room_number") = true ->
  text_or_missing (member patient "date_of_birth") = true ->
  let run := PatientForm.loadPatient id st (GotResponse r) w in
  exists (st' : PatientForm.State) (sent : RequestConfig),
    fst run = Normal st' /\
    network (snd run) = (network w ++ [sent])%list /\
    method sent = "get" /\ url sent = "/patients/" ++ to_String id /\
    PatientForm.initialLoading st' = false /\
    PatientForm.error st' = PatientForm.error st /\
    PatientForm.formData st' =
      {| PatientForm.firstName := JStr (text_of (member patient "first_name"));
         PatientForm.lastName := JStr (text_of (member patient "last_name"));
         PatientForm.medicalRecordNumber :=
           JStr (text_of (member patient "medical_record_number"));
         PatientForm.roomNumber :=
           JStr (text_of (member patient "room_number"));
         PatientForm.dateOfBirth :=
           JStr (before_first "T"
                   (text_of (member patient "date_of_birth"))) |} /\
    exists errors,
      PatientForm.validateForm (PatientForm.formData st') = Normal errors.
Proof.
  intros Hstatus Hpatient Hnn T1 T2 T3 T4 T5 run. subst run.
  pose proof (endpoint_run
                (api_config "get" ("/patients/" ++ to_String id)
                   JUndefined JUndefined) (GotResponse r) w) as Hrun.
  cbv zeta in Hrun. rewrite (settle_2xx r Hstatus) in Hrun.
  pose proof (stamped_config (localStorage w)
                (api_config "get" ("/patients/" ++ to_String id)
                   JUndefined JUndefined)) as (Hm & Hu & _).
  cbv zeta in Hm, Hu.
  set (sent := match localStorage w !! "authToken" with
               | Some t => _
               | None => _
               end) in *.
  assert (nullish (data r) = false) as Hdata.
  { destruct (data r); try reflexivity; cbn in Hpatient; subst patient;
      discriminate Hnn. }
  assert (PatientForm.loadPatient id st (GotResponse r) w =
          (Normal
             (PatientForm.setInitialLoading false
                (PatientForm.setFormData
                   {| PatientForm.firstName :=
                        JStr (text_of (member patient "first_name"));
                      PatientForm.lastName :=
                        JStr (text_of (member patient "last_name"));
                      PatientForm.medicalRecordNumber :=
                        JStr (text_of (member patient "medical_record_number"));
                      PatientForm.roomNumber :=
                        JStr (text_of (member patient "room_number"));
                      PatientForm.dateOfBirth :=
                        JStr (before_first "T"
                                (text_of (member patient "date_of_birth"))) |}
                   (PatientForm.setInitialLoading true st))),
           {| session := session w;
              localStorage := localStorage w;
              location_href := location_href w;
              console := console w;
              network := network w ++ [sent] |})) as ->.
  { unfold PatientForm.loadPatient, try_catch, patientsAPI_getById, api_get.
    unfold mbind, M_bind in Hrun |- *. rewrite Hrun.
    cbn [mret M_ret]. rewrite get_member_read. unfold read_member.
    rewrite Hdata, Hpatient. rewrite get_member_read. unfold read_member.
    rewrite Hnn.
    rewrite !js_or_text by assumption.
    destruct (member patient "date_of_birth") as [| | | |dob| |];
      try discriminate T5; try reflexivity.
    cbn [truthy text_of]. destruct (String.eqb dob "") eqn:Hdob.
    - apply String.eqb_eq in Hdob as ->. reflexivity.
    - reflexivity. }
  eexists _, sent. cbn [fst snd network].
  split; [reflexivity |]. split; [reflexivity |].
  split; [exact Hm |]. split; [exact Hu |].
  split; [reflexivity |]. split; [reflexivity |]. split; [reflexivity |].
  cbn [PatientForm.formData PatientForm.setInitialLoading
       PatientForm.setFormData].
  apply validateForm_text; eexists; reflexivity.
Qed.

(** ** Loading the list of patients *)

(** X21.  Loading the patients makes one GET to /patients without parameters
    and does not throw; the loading flag is off at the end.  When the
    server answers with a body the list becomes the patients of the body,
    or the empty list when the body has none; otherwise the list stays as
    it was and a message that is not empty is set. *)
Theorem loading_patients_replaces_the_list_on_success {rt : Runtime}
    (st : PatientList.State) (net : NetResult) (w : World) :
  let run := PatientList.loadPatients st net w in
  exists (st' : PatientList.State) (sent : RequestConfig),
    fst run = Normal st' /\
    network (snd run) = (network w ++ [sent])%list /\
    method sent = "get" /\ url sent = "/patients" /\ params sent = JObj [] /\
    PatientList.loading st' = false /\
    PatientList.searchTerm st' = PatientList.searchTerm st /\
    (forall r, settle net = Normal r -> nullish (data r) = false ->
       PatientList.error st' = JNull /\
       (truthy (member (data r) "patients") = true ->
          PatientList.patients st' = member (data r) "patients") /\
       (truthy (member (data r) "patients") = false ->
          PatientList.patients st' = JArr [])) /\
    (forall r, settle net = Normal r -> nullish (data r) = true ->
       PatientList.patients st' = PatientList.patients st /\
       truthy (PatientList.error st') = true) /\
    (forall e, settle net = Throw e ->
       PatientList.patients st' = PatientList.patients st /\
       PatientList.error st' = member (handleApiError e) "message" /\
       truthy (PatientList.error st') = true).
Proof.
  intros run. subst run.
  pose proof (endpoint_run (api_config "get" "/patients" (JObj []) JUndefined)
                net w) as Hrun.
  cbv zeta in Hrun.
  pose proof (stamped_config (localStorage w)
                (api_config "get" "/patients" (JObj []) JUndefined))
    as (Hm & Hu & Hp & _).
  cbv zeta in Hm, Hu, Hp.
  set (sent := match localStorage w !! "authToken" with
               | Some t => _
               | None => _
               end) in *.
  unfold PatientList.loadPatients, try_catch, patientsAPI_getAll, api_get.
  cbn [default_param].
  unfold mbind, M_bind in Hrun |- *. rewrite Hrun.
  destruct (settle net) as [r|e].
  - cbn [mret M_ret]. rewrite get_member_read. unfold read_member.
    destruct (nullish (data r)) eqn:Hnull.
    + eexists _, sent. cbn [fst snd network].
      split; [reflexivity |]. split; [reflexivity |].
      split; [exact Hm |]. split; [exact Hu |]. split; [exact Hp |].
      split; [reflexivity |]. split; [reflexivity |].
      split; [intros r' [= <-] H; rewrite Hnull in H; discriminate H |].
      split; [| intros e H; discriminate H].
      intros r' _ _. split; [reflexivity |].
      apply handleApiError_message_truthy.
    + eexists _, sent. cbn [fst snd network].
      split; [reflexivity |]. split; [reflexivity |].
      split; [exact Hm |]. split; [exact Hu |]. split; [exact Hp |].
      split; [reflexivity |]. split; [reflexivity |].
      split; [| split; [intros r' [= <-] H; rewrite Hnull in H;
                        discriminate H
                       | intros e H; discriminate H]].
      intros r' [= <-] _. cbn [PatientList.error PatientList.patients
                               PatientList.setLoading PatientList.setPatients
                               PatientList.setError].
      split; [reflexivity |]. unfold js_or.
      split; intros ->; reflexivity.
  - eexists _, sent. cbn [fst snd network mret M_ret].
    split; [reflexivity |]. split; [reflexivity |].
    split; [exact Hm |]. split; [exact Hu |]. split; [exact Hp |].
    split; [reflexivity |]. split; [reflexivity |].
    split; [intros r H; discriminate H |].
    split; [intros r H; discriminate H |].
    intros e' [= <-]. split; [reflexivity |]. split; [reflexivity |].
    apply handleApiError_message_truthy.
Qed.

(** ** Roles *)

(** X5.  [hasRole] does not throw, and holds only for a user that is there.
    For a list of roles it holds exactly when the role of the user is one
    of the list; for a single role, exactly when it is that role.  For the
    lists of the one role admin and of the one role clinician it agrees
    with [isAdmin] and with [isClinician]. *)
Theorem hasRole_follows_the_role_of_the_user
    (state : AuthState) (roles : JsVal) :
  exists holds : bool,
    hasRole state roles = Normal holds /\
    (holds = true -> truthy (user state) = true) /\
    (forall items, roles = JArr items ->
       (holds = true <->
        truthy (user state) = true /\
        exists role, In role items /\
                     strict_eq role (member (user state) "role") = true)) /\
    ((forall items, roles <> JArr items) ->
       (holds = true <->
        truthy (user state) = true /\
        strict_eq (member (user state) "role") roles = true)) /\
    hasRole state (JArr [JStr "admin"]) = Normal (isAdmin state) /\
    hasRole state (JArr [JStr "clinician"]) = Normal (isClinician state).
Proof.
  assert (forall role, hasRole state (JArr [JStr role]) =
                       Normal (strict_eq (opt_member (user state) "role")
                                 (JStr role))) as Hsingle.
  { intros role. unfold hasRole, user_role, opt_member, includes.
    destruct (user state) as [| |b|n|str|items|fields];
      cbn [truthy nullish negb]; try reflexivity.
    - destruct b; reflexivity.
    - destruct (n =? 0); reflexivity.
    - destruct (String.eqb str ""); reflexivity.
    - cbn [existsb member]. now rewrite orb_false_r, strict_eq_sym. }
  rewrite !Hsingle. fold (isAdmin state) (isClinician state).
  unfold hasRole, user_role.
  destruct (truthy (user state)) eqn:Htruthy; cbn [negb].
  - assert (nullish (user state) = false) as ->
      by (destruct (user state); cbn in Htruthy |- *; congruence).
    destruct roles as [| |b|n|s|items|fields];
      eexists; (split; [reflexivity |]); (split; [reflexivity |]);
      (split; [| split; [| split; reflexivity]]);
      try (intros items' H; discriminate H);
      try (intros _; split; [intros H; now split | now intros [_ H]]);
      try (intros H; now destruct (H items)).
    intros items' [= <-]. unfold includes. rewrite existsb_exists.
    split; [intros H; now split | now intros [_ H]].
  - exists false. split; [reflexivity |]. split; [discriminate |].
    split; [| split; [| split; reflexivity]].
    + intros items _. split; [discriminate | now intros [H _]].
    + intros _. split; [discriminate | now intros [H _]].
Qed.

(** ** Closed examples on the reference runtime *)

#[local] Existing Instance reference_runtime.

(** The scenario of the specification: a login answered with an admin user
    and the token abc leaves the session authenticated and the token in
    storage. *)
Example login_scenario :
  let w := snd (login sample_credentials (GotResponse sample_login_response)
                  (page_load ∅ "/login")) in
  isAuthenticated (session w) = true /\
  user (session w) = sample_user /\
  token (session w) = JStr "abc" /\
  localStorage w !! "authToken" = Some "abc" /\
  localStorage w !! "user" = Some sample_user_text.
Proof. vm_compute. repeat split. Qed.

(** C1, counterexample: the mount effect on a stored token and the stored
    user text null marks the session authenticated with a null user. *)
Lemma authenticated_with_null_user :
  let s := session (run (mount null_user_storage "/dashboard") [EvRestore]) in
  isAuthenticated s = true /\ user s = JNull /\
  ~ (isAuthenticated s = true <-> present (user s) /\ present (token s)).
Proof.
  vm_compute. split; [reflexivity |]. split; [reflexivity |].
  intros [H _]. destruct (H eq_refl) as [Hu _]. discriminate Hu.
Qed.

(** C1, witness: a page load, a login and a later domain call. *)
Lemma authenticated_iff_user_and_token_witness :
  let evs := [EvRestore; EvPending;
              EvLogin sample_credentials (GotResponse sample_login_response);
              EvClearError;
              EvRequest (PatientsGetAll JUndefined)
                        (GotResponse sample_server_error)] in
  let s := session (run (mount ∅ "/login") evs) in
  well_formed_run (mount ∅ "/login") evs = true /\
  (isAuthenticated s = true <-> present (user s) /\ present (token s)).
Proof.
  intros evs s.
  assert (well_formed_run (mount ∅ "/login") evs = true) as Hwf
    by (vm_compute; reflexivity).
  split; [exact Hwf |].
  exact (authenticated_iff_user_and_token ∅ "/login" evs Hwf).
Defined.

(** C2, counterexample: a 401 answer to the patient list leaves the session
    of the page authenticated. *)
Lemma unauthorized_domain_call_keeps_session :
  let w := page_load sample_storage "/patients" in
  let w' := snd (api_call (PatientsGetAll JUndefined)
                   (GotResponse sample_unauthorized) w) in
  status sample_unauthorized = 401 /\
  localStorage w' !! "authToken" = None /\
  isAuthenticated (session w') = true /\
  ~ Anonymous (session w').
Proof.
  vm_compute. repeat split. intros (H & _). discriminate H.
Qed.

(** C2, witness. *)
Lemma unauthorized_response_clears_credentials_witness :
  let w := page_load sample_storage "/patients" in
  let w' := snd (api_call (PatientsGetAll JUndefined)
                   (GotResponse sample_unauthorized) w) in
  status sample_unauthorized = 401 /\
  localStorage w' !! "authToken" = None /\
  localStorage w' !! "user" = None /\
  location_href w' = "/login".
Proof.
  intros w w'.
  assert (status sample_unauthorized = 401) as H401 by reflexivity.
  split; [exact H401 |].
  destruct (unauthorized_response_clears_credentials
              (PatientsGetAll JUndefined) sample_unauthorized w
              sample_credentials H401)
    as (_ & _ & Ht & Hu & Hl & _).
  repeat split; assumption.
Defined.



(** C4, counterexample: the message for a request without response is not
    the text network error. *)
Lemma network_error_message_differs :
  exists (e : Exn) (w' : World),
    api_call (PatientsGetAll JUndefined) (NoResponse "Network Error")
      (page_load ∅ "/patients") = (Throw e, w') /\
    exn_response e = None /\
    handleApiError e <>
      JObj [("message", JStr "network error"); ("status", JNum 0)].
Proof.
  eexists. eexists. split; [vm_compute; reflexivity |].
  split; [reflexivity |]. vm_compute. discriminate.
Qed.


(** C6, witness: the sample user goes through storage unchanged. *)
Lemma stored_credentials_round_trip_witness :
  let w1 := snd (login sample_credentials (GotResponse sample_login_response)
                   (page_load ∅ "/login")) in
  session (page_load (localStorage w1) "/dashboard") =
    {| user := sample_user; token := JStr "abc"; isAuthenticated := true;
       isLoading := false; error := JNull |}.
Proof.
  intros w1.
  assert (200 <= status sample_login_response < 300) as Hst
    by (cbn; lia).
  assert (JSON_stringify sample_user = Some sample_user_text) as Hs
    by (vm_compute; reflexivity).
  assert (JSON_parse sample_user_text = Some sample_user) as Hp
    by (vm_compute; reflexivity).
  assert ("abc" <> "") as Hne by discriminate.
  assert (sample_user_text <> "") as Hne' by discriminate.
  destruct (stored_credentials_round_trip
              sample_credentials sample_login_response (page_load ∅ "/login")
              "abc" sample_user_text "/dashboard" sample_user
              Hst eq_refl Hne eq_refl Hs Hne' Hp)
    as [(_ & _ & _ & Hsession) _].
  exact Hsession.
Defined.



(** C8, witness: with the token abc in storage the request for the patient
    list carries Bearer abc; from an empty storage the login request
    carries no Authorization header. *)
Lemma every_request_carries_the_stored_token_witness :
  (exists sent : RequestConfig,
     network (snd (api_call (PatientsGetAll JUndefined)
                     (GotResponse sample_server_error)
                     (page_load sample_storage "/patients"))) = [sent] /\
     headers sent !! "Authorization" = Some "Bearer abc") /\
  (exists sent : RequestConfig,
     network (snd (login sample_credentials
                     (GotResponse sample_login_response)
                     (page_load ∅ "/login"))) = [sent] /\
     headers sent !! "Authorization" = None).
Proof.
  split.
  - destruct (every_request_carries_the_stored_token
                (page_load sample_storage "/patients")) as (Hcall & _).
    destruct (Hcall (PatientsGetAll JUndefined)
                    (GotResponse sample_server_error))
      as (sent & Hnet & Hsome & _).
    exists sent. split; [exact Hnet |].
    apply (Hsome "abc"); [vm_compute; reflexivity | discriminate].
  - destruct (every_request_carries_the_stored_token (page_load ∅ "/login"))
      as (_ & Hlogin & _).
    destruct (Hlogin sample_credentials (GotResponse sample_login_response))
      as (sent & Hnet & _ & Hnone).
    exists sent. split; [exact Hnet |].
    apply Hnone. left. vm_compute. reflexivity.
Defined.

(** C10, witness: an admin, a clinician and nobody. *)
Lemma hasRole_admin_witness :
  hasRole (session (page_load sample_storage "/")) (JArr [JStr "admin"])
    = Normal true /\
  hasRole (authReducer initialState
             (LOGIN_SUCCESS (JObj [("role", JStr "clinician")]) (JStr "t")))
          (JArr [JStr "admin"]) = Normal false /\
  hasRole initialState (JArr [JStr "admin"]) = Normal false.
Proof.
  split; [| split].
  - destruct (hasRole_admin (session (page_load sample_storage "/")))
      as [_ H].
    destruct (H eq_refl) as (b & Hb & Hiff).
    rewrite Hb. f_equal. apply Hiff. vm_compute. reflexivity.
  - destruct (hasRole_admin
                (authReducer initialState
                   (LOGIN_SUCCESS (JObj [("role", JStr "clinician")])
                                  (JStr "t"))))
      as [_ H].
    destruct (H eq_refl) as (b & Hb & Hiff).
    rewrite Hb. f_equal. destruct b; [| reflexivity].
    destruct Hiff as [Hiff _]. specialize (Hiff eq_refl). discriminate Hiff.
  - destruct (hasRole_admin initialState) as [H _].
    exact (H eq_refl).
Defined.

(** Witness: a 500 answer to the patient list. *)
Lemma other_error_status_witness :
  let w := page_load sample_storage "/patients" in
  let w' := snd (api_call (PatientsGetAll JUndefined)
                   (GotResponse sample_server_error) w) in
  localStorage w' = localStorage w /\ isAuthenticated (session w') = true.
Proof.
  intros w w'.
  assert (~ (200 <= status sample_server_error < 300)) as Hst by (cbn; lia).
  assert (status sample_server_error <> 401) as H401 by discriminate.
  destruct (other_error_status_passes_through
              (PatientsGetAll JUndefined) sample_server_error w Hst H401)
    as (e & _ & _ & Hstore & _ & Hsession & _).
  split; [exact Hstore |]. unfold w'. rewrite Hsession.
  vm_compute. reflexivity.
Defined.

(** Witness: after a rejected login nothing is left in the session. *)
Lemma unauthenticated_session_is_empty_witness :
  let s := session (run (mount ∅ "/login")
                      [EvRestore;
                       EvLogin sample_credentials
                               (GotResponse sample_unauthorized)]) in
  isAuthenticated s = false /\ user s = JNull /\ token s = JNull.
Proof.
  intros s.
  assert (isAuthenticated s = false) as Hs by (vm_compute; reflexivity).
  split; [exact Hs |].
  exact (unauthenticated_session_is_empty ∅ "/login" _ Hs).
Defined.


(** X7.  On the reference runtime, every clean user goes through storage
    unchanged: after a successful login or registration whose response
    carries a non-empty token and a user without [undefined] parts or
    repeated keys, the next page load finds the session authenticated with
    that token and that user. *)
Theorem clean_credentials_round_trip :
  forall (payload : JsVal) (r : HttpResponse) (w : World) (tok href : string),
  200 <= status r < 300 ->
  member (data r) "token" = JStr tok -> tok <> "" ->
  json_clean (member (data r) "user") = true ->
  session (page_load
             (localStorage (snd (login payload (GotResponse r) w))) href) =
    {| user := member (data r) "user"; token := JStr tok;
       isAuthenticated := true; isLoading := false; error := JNull |} /\
  session (page_load
             (localStorage (snd (register payload (GotResponse r) w))) href) =
    {| user := member (data r) "user"; token := JStr tok;
       isAuthenticated := true; isLoading := false; error := JNull |}.
Proof.
  intros payload r w tok href Hst Htok Hne Hclean.
  destruct (reference_codec_round_trip _ Hclean) as (text & Hs & Hne' & Hp).
  split.
  - destruct (successful_login_stores (rt := reference_runtime)
                payload r w tok text _ Hst Htok eq_refl Hs) as (_ & Ht & Hx).
    now apply (page_load_of_stored_credentials (rt := reference_runtime)
                 _ _ tok text).
  - destruct (successful_register_stores (rt := reference_runtime)
                payload r w tok text _ Hst Htok eq_refl Hs) as (_ & Ht & Hx).
    now apply (page_load_of_stored_credentials (rt := reference_runtime)
                 _ _ tok text).
Qed.

(** Witness: the sample login. *)
Lemma clean_credentials_round_trip_witness :
  user (session (page_load
                   (localStorage
                      (snd (login sample_credentials
                              (GotResponse sample_login_response)
                              (page_load ∅ "/login"))))
                   "/dashboard")) = sample_user.
Proof.
  assert (200 <= status sample_login_response < 300) as Hst by (cbn; lia).
  assert ("abc" <> "") as Hne by discriminate.
  destruct (clean_credentials_round_trip
              sample_credentials sample_login_response (page_load ∅ "/login")
              "abc" "/dashboard" Hst eq_refl Hne eq_refl) as [Hlogin _].
  now rewrite Hlogin.
Defined.

(** ** Closed examples of the views *)

#[local] Existing Instance reference_clock.

(** Witness: the anonymous session that a logout leaves ends at the
    sign-in screen from the dashboard address. *)
Lemma anonymous_sessions_witness :
  App.render_following 2 "/dashboard" (session (snd (logout (mount ∅ "/"))))
    = Normal (App.Screen App.Login).
Proof.
  assert (Anonymous (session (snd (logout (mount ∅ "/"))))) as Hanon
    by (vm_compute; repeat split).
  exact (proj1 (proj2 (anonymous_sessions_reach_only_the_sign_in_screens
                         _ "/patients" Hanon))).
Defined.







(** Witness: with the two sample task logs the dashboard loads without an
    error and lists both as recent. *)
Lemma dashboard_counts_the_tasks_of_today_witness :
  let w := page_load sample_storage "/dashboard" in
  exists st' : Dashboard.State,
    fst (Dashboard.loadDashboardData Dashboard.initial
           (GotResponse sample_patients_response)
           (GotResponse sample_task_logs_response) w) = Normal st' /\
    Dashboard.error st' = JNull /\
    Dashboard.recentTasks (Dashboard.stats st')
      = JArr [task_done_today; task_done_before] /\
    Dashboard.totalPatients (Dashboard.stats st') = JNum 3.
Proof.
  intros w.
  assert (200 <= status sample_patients_response < 300) as H1 by (cbn; lia).
  assert (200 <= status sample_task_logs_response < 300) as H2 by (cbn; lia).
  assert (forall t, In t [task_done_today; task_done_before] ->
                    exists s, member t "completed_at" = JStr s) as Htext.
  { intros t [<- | [<- | []]]; eexists; reflexivity. }
  destruct (dashboard_counts_the_tasks_of_today
              Dashboard.initial sample_patients_response
              sample_task_logs_response [task_done_today; task_done_before]
              w H1 H2 eq_refl eq_refl Htext)
    as (st' & counted & Hrun & Herr & _ & _ & _ & _ & Hrecent & Htotal & _).
  exists st'. split; [exact Hrun |]. split; [exact Herr |].
  split; [exact Hrecent | exact Htotal].
Defined.

(** Witness: with a task log that is not completed the dashboard keeps its
    first figures and shows an error. *)
Lemma a_task_without_completion_time_witness :
  let w := page_load sample_storage "/dashboard" in
  exists st' : Dashboard.State,
    fst (Dashboard.loadDashboardData Dashboard.initial
           (GotResponse sample_patients_response)
           (GotResponse sample_open_task_response) w) = Normal st' /\
    Dashboard.stats st' = Dashboard.stats Dashboard.initial /\
    truthy (Dashboard.error st') = true.
Proof.
  intros w.
  assert (200 <= status sample_patients_response < 300) as H1 by (cbn; lia).
  assert (200 <= status sample_open_task_response < 300) as H2 by (cbn; lia).
  assert (forall s, member task_not_done "completed_at" <> JStr s) as Hnot
    by (intros s H; discriminate H).
  destruct (a_task_without_completion_time_fails_the_dashboard
              Dashboard.initial sample_patients_response
              sample_open_task_response [task_done_today; task_not_done]
              task_not_done w H1 H2 eq_refl
              (or_intror (or_introl eq_refl)) Hnot)
    as (st' & sent1 & sent2 & Hrun & _ & Hstats & Herror & _).
  exists st'. split; [exact Hrun |]. split; [exact Hstats | exact Herror].
Defined.

(** Witness: on 2 November 2026 a patient born on 3 November 1990 has
    reached a birthday that is not in the future, and an age that is not
    negative. *)
Lemma age_counts_the_birthdays_reached_witness :
  exists age : Z,
    PatientList.calculateAge (JStr "1990-11-03") = PatientList.Years age /\
    0 <= age.
Proof.
  assert (Date_parse (JStr "1990-11-03") = Some 657590400000) as Hparse
    by (vm_compute; reflexivity).
  destruct (age_counts_the_birthdays_reached (JStr "1990-11-03") 657590400000
              eq_refl Hparse) as (age & Hage & _ & _ & Hpositive).
  exists age. split; [exact Hage |]. apply Hpositive.
  vm_compute. reflexivity.
Defined.


(** Witness: creating the sample patient posts to /patients and goes to
    the list. *)
Lemma patient_form_submits_valid_input_witness :
  let w := page_load sample_storage "/patients/new" in
  let st := PatientForm.setFormData sample_form (PatientForm.initial "create") in
  let net := GotResponse {| status := 201; data := JObj [] |} in
  exists (st' : PatientForm.State) (sent : RequestConfig),
    fst (PatientForm.handleSubmit "create" JUndefined st net w)
      = Normal (st', Normal (Some "/patients")) /\
    network (snd (PatientForm.handleSubmit "create" JUndefined st net w))
      = [sent] /\
    method sent = "post" /\ url sent = "/patients" /\
    PatientForm.formData st' = PatientForm.empty_form.
Proof.
  intros w st net.
  assert (PatientForm.validateForm (PatientForm.formData st) = Normal ∅)
    as Hvalid by (vm_compute; reflexivity).
  destruct (patient_form_submits_valid_input
              "create" JUndefined st ∅ net w Hvalid) as [_ Hsubmit].
  destruct (Hsubmit eq_refl)
    as (st' & outcome & sent & Hrun & Hnet & _ & Hcreate & _ & _ & Hok & _).
  destruct (Hok {| status := 201; data := JObj [] |} eq_refl)
    as (-> & _ & _ & Hform & _).
  destruct (Hcreate eq_refl) as [Hm Hu].
  exists st', sent. split; [exact Hrun |]. split; [exact Hnet |].
  split; [exact Hm |]. split; [exact Hu |]. exact (Hform eq_refl).
Defined.

(** Witness: the message of the server for the record number is shown. *)
Lemma server_validation_errors_are_shown_witness :
  let w := page_load sample_storage "/patients/new" in
  let st := PatientForm.setFormData sample_form (PatientForm.initial "create") in
  exists st' : PatientForm.State,
    fst (PatientForm.handleSubmit "create" JUndefined st
           (GotResponse sample_rejection) w) = Normal (st', Normal None) /\
    PatientForm.validationErrors st' !! "medicalRecordNumber"
      = Some (JStr "Already in use") /\
    PatientForm.error st' = JStr "Validation failed".
Proof.
  intros w st.
  assert (PatientForm.validateForm (PatientForm.formData st) = Normal ∅)
    as Hvalid by (vm_compute; reflexivity).
  assert (forall item,
            In item [JObj [("param", JStr "medicalRecordNumber");
                           ("msg", JStr "Already in use")]] ->
            nullish item = false) as Hitems.
  { intros item [<- | []]. reflexivity. }
  destruct (server_validation_errors_are_shown
              "create" JUndefined st (GotResponse sample_rejection)
              (AxiosError "Request failed with status code 400" true
                 (Some sample_rejection))
              _ w Hvalid eq_refl eq_refl Hitems)
    as (st' & Hrun & Hkeys & Hfrom & Herror & _).
  exists st'. split; [exact Hrun |]. split; [| exact Herror].
  destruct (proj2 (Hkeys "medicalRecordNumber")) as [v Hv].
  { eexists. split; [now left | reflexivity]. }
  destruct (Hfrom _ _ Hv) as (item & [<- | []] & _ & <-). exact Hv.
Defined.

(** Witness: the sample patient fills the form, the date without its time
    of day. *)
Lemma loaded_patient_fills_the_form_witness :
  let w := page_load sample_storage "/patients/1/edit" in
  exists st' : PatientForm.State,
    fst (PatientForm.loadPatient (JStr "1") (PatientForm.initial "edit")
           (GotResponse sample_patient_response) w) = Normal st' /\
    PatientForm.dateOfBirth (PatientForm.formData st') = JStr "1990-11-03" /\
    PatientForm.roomNumber (PatientForm.formData st') = JStr "" /\
    PatientForm.initialLoading st' = false.
Proof.
  intros w.
  assert (200 <= status sample_patient_response < 300) as Hst by (cbn; lia).
  destruct (loaded_patient_fills_the_form
              (JStr "1") (PatientForm.initial "edit") sample_patient_response
              _ w Hst eq_refl eq_refl eq_refl eq_refl eq_refl eq_refl eq_refl)
    as (st' & sent & Hrun & _ & _ & _ & Hloading & _ & Hform & _).
  exists st'. split; [exact Hrun |]. rewrite Hform.
  split; [reflexivity |]. split; [reflexivity | exact Hloading].
Defined.

